(* ===== verification/_CoqProject ===== *)
-Q . S2P
Prelude.v
Units.v
Color.v
Text.v
Presentation.v
Inv.v
Wf.v
Typed.v
Xml.v
Oxml.v
Generate.v
Saved.v
Codec.v
Package.v
Script.v
