(* ===== verification/Prelude.v ===== *)
(** * EcoStemm slide generator: a verification development

    The repository holds one program, [src/generate_ppt.py].  It builds a
    fifteen-slide PowerPoint deck with python-pptx: it creates a
    [Presentation], sets its size, adds slides on the "Blank" layout,
    places text boxes on them, fills the boxes with literal strings,
    formats the paragraphs, and saves the deck, which python-pptx
    writes as XML through lxml; it ends by printing a line with a check
    mark.

    ** How the program's parts interact

    The script is a client of four parts of python-pptx.  It never
    branches on runtime data.  All of its effects go through one shared,
    mutable [Presentation] object [prs]:
    - [pptx.util]: [Inches] and [Pt] turn Python numbers into EMU lengths;
    - [pptx.dml.color]: [RGBColor] validates and formats colours;
    - [pptx.text.text]: [TextFrame] and [_Paragraph], i.e. the text
      setters and getters, [add_paragraph], and the font and paragraph
      properties;
    - [pptx.presentation] and [pptx.shapes]: the slide size, the slide
      collection ([add_slide] with its slide ids) and the shape tree
      ([add_textbox] with its shape ids and names);
    - [pptx.oxml] with lxml: the element trees behind every proxy, which
      [prs.save] serialises;
    - [pptx.opc]: the package [prs.save] writes, whose presentation part
      reaches each slide part through a slide-id list and relationships.
    Its last statement, [print], goes through Python's text stream
    [sys.stdout], which encodes the message with the environment's
    encoding.

    The script holds its proxies ([slide], [title_box], [title_frame],
    [title_p], ...) as aliases into [prs].  The model keeps them as
    references (indices) into one store, the presentation, so a write
    through a proxy is a write to the shared presentation.

    ** Files

    - [Prelude] (this file): the Python exceptions the program can
      raise ([PyExc]); the result type [Result]; the state-and-error
      monad [ST] with stdpp's [x ← m; k] notation; Python list indexing
      ([py_getitem], negative indices included); [str.split] and
      [str.join] on one separator; two- and four-digit hexadecimal
      formatting ("%02X", "%04X"); the tactic [zlia]; and the hint
      databases [pptx] and [pptx_run].
    - [Units]: [Inches], [Pt] and [Length.centipoints].  Arguments are
      Python numbers, either ints or IEEE doubles, with Python's float
      multiplication and [int()] truncation.
    - [Color]: [RGBColor], its [__str__], [from_string] and [int(s, 16)].
    - [Text]: the text-frame and paragraph model, with the text setters
      ([re.split], [_x%04X_] escaping of control characters), getters,
      [add_paragraph], the validated paragraph and font properties,
      and the XML schema types of the stored values ([tf_typed]).
    - [Presentation]: the presentation, slide and shape records, the
      default template, [add_slide], [add_textbox], and access to shapes
      and paragraphs by reference, with the state [put_tf] after a write
      to any shape's text frame.
    - [Inv]: the interface between the library model and the script.
      [keeps I m] is a unary program logic on the monad, and the class
      [PrsInvariant I] is what an invariant promises: it holds of
      [Presentation()] and every state-changing API operation keeps it.
      The step relation of API calls and its reachable states are here
      too.
    - [Wf] and [Typed]: two instances of the class.  [Wf.prs_wf] covers
      the slide size, distinct slide ids in range, existing layouts and
      distinct shape ids.  [Typed.prs_typed] says every stored value has
      its XML schema type and every run's text is legal XML.
    - [Generate]: the script itself ([add_title_slide],
      [add_content_slide], the slide data, the closing slide and the
      whole run), together with the abstract description of the deck it
      promises, and a lower bound on the height of a box's text.
    - [Xml]: element trees, libxml2's escaping of character data and
      attribute values, serialisation ([render]), a fuel-bounded reader
      ([parse_nodes], [parse_xml]) and decimal attribute values.
    - [Oxml]: the [a:txBody] element python-pptx keeps for a text frame
      ([txbody_xml]: [a:bodyPr], [a:p], [a:pPr], [a:defRPr], [a:r],
      [a:br]), the text-box [p:sp] and slide [p:sld] templates
      ([sp_xml], [sld_xml]), and their reading back ([tf_of_xml],
      [read_slide]).
    - [Saved]: [prs.save] for the slides: the serialised slide parts
      ([save_slides]) and the text body of every text frame
      ([save_text_bodies]).
    - [Codec]: CPython's strict encoders and decoders for UTF-8 (bit
      operations and all), ASCII, Latin-1 and cp1252.
    - [Package]: the presentation part's relationships ([next_rId],
      [relate_to]), the slide-id list and part names [add_slide] builds
      ([add_slide_part]), the package [prs.save] writes ([save_package])
      and a reader that opens it slide by slide ([read_package]).
    - [Script]: lines 253-255, the script's effects on the world as a
      trace of events in a writer monad with exceptions: [prs_save]
      ([PermissionError] on a path that cannot be written), [print]
      through [stdout_write], the whole run [run_script] and [main].

    ** What the theorems show

    The numbered claims are C1 to C14 and C16 in [Generate], C15 and
    C17 in [Saved], C18 to C21 in [Script] and C22 to C24 in
    [Package]; the library files carry the lemmas they are built from.
    - The whole run (C1): from [Presentation()], [generate_ppt] does
      not raise and builds exactly [expected_deck], the fifteen slides
      with ids 256 to 270 and every box, text, size, colour and
      alignment the source sets.
    - The slide builders on every branch (C2, C5, C6): [IndexError]
      before any change when the template has no layout 6, and
      otherwise exactly one appended slide.  Refinement of each
      builder, for any title and items, against its description as the
      text getters show it (C4, C7).
    - The finding on the content slides (C3): each body keeps the empty
      paragraph of the new text box before its items.
    - Round trips (C8, C9): every string the script assigns reads back
      unchanged, and the title colour reads back through
      [RGBColor.from_string] as [RGBColor(75, 107, 251)].
    - Errors (C10): on a template without layout 6 the script raises
      [IndexError] at its first [prs.slide_layouts[6]].
    - Closing slide colours (C11): title (75, 107, 251), contact line
      (100, 100, 100), read back through [from_string].
    - The items loop (C12), on any shape with a text frame: it never
      raises, appends one formatted paragraph per item in order, and
      writes nothing else ([put_tf]).
    - Text height (C13): a content body needs at least
      [91440 + 381000 n] EMU for [n] items, more than its 5-inch box
      once [n >= 12]; below that the bound does not decide.
    - Progress (C14, liveness): from any well-formed presentation with a
      blank layout 6 and room for fifteen more slide ids, the script
      returns and adds fifteen slides; every [add_slide] finds a free id
      ([Wf.next_slide_id_total], a pigeonhole argument on the fallback
      search).
    - The slide-id overflow path (C16): with an id above 2147483647 in
      use and the valid ids gap-free from 256 (at least one of them),
      the script raises [StopIteration] although ids are free
      ([Presentation.next_slide_id_stops]).
    - The saved slides (C15, C17): every presentation built through the
      API saves text bodies that read back as its frames (C15), and
      every slide part of the script's deck reads back as the slide's
      shapes, ids, names and geometry included (C17).  Underneath are
      [Xml.parse_xml_render] (reading inverts [render] on well-formed
      trees), [Xml.parse_nodes_fuel] (fuel beyond the input's length
      changes nothing) and [Oxml.read_txbody_write].
    - The script's effects (C18 to C21): with a UTF-8 stdout it saves
      the deck and then writes the message's UTF-8 bytes and a newline
      (C18); with ASCII, Latin-1 or cp1252 it saves the deck and [print]
      raises [UnicodeEncodeError] (C19, a finding); in every environment
      nothing is printed before the file is saved and the message is
      printed whole or not at all (C20); a run that fails in the slide
      builders or in opening the output path saves and prints nothing
      (C21).  Underneath are [Codec.decode_encode] (each decoder
      inverts its encoder), [Codec.encode_utf8_decode] (the UTF-8
      encoder inverts the decoder) and [Codec.utf8_encode_char_arith]
      (CPython's bit operations are the Unicode table's arithmetic).
    - The package (C22 to C24): for any presentation built through the
      API from text boxes and on any template whose relationship ids
      are distinct, the package has distinct part names and opens,
      through the slide-id list and the relationships, to the slides in
      deck order (C22); for the script's deck it shows [deck_spec]
      (C23); the slide-id list it holds has distinct ids in
      [256, 2147483647] in deck order, each with its own [r:id] (C24).
      [Package.next_rId_fresh] shows that [_next_rId] never runs out of
      ids (a pigeonhole argument on the count-down).
    The script also keeps every invariant of the class
    [Inv.PrsInvariant] ([Generate.generate_ppt_keeps]), as any program
    made of the modelled API calls does ([Inv.reachable_inv]).
    Library facts proved on the way include [Color.from_string_rgb_str],
    [Text.tf_text_roundtrip], [Units.Inches_script_literals_exact] and
    [Wf.next_slide_id_fresh] (both branches of [_next_id]).

    ** Proof technique

    A builder is evaluated symbolically by rewriting with the monad's
    [bind_ok] and with equations for each operation on the newest slide
    ([Presentation.LastSlide]).  The tactics [norm_state] and [st_step]
    (in [Presentation]) and [norm_prs] (in [Generate]) drive this, and
    keep the state a record literal so that its term stays small.
    Invariants compose through binds ([Inv.keeps_bind]) with the tactic
    [Inv.keeps_run], whose hints are the class fields.  The [AnyShape]
    equations of [Presentation] run the items loop on any shape.
    Progress (C14) is proved with
    [runs n m]: from any ready state [m] returns and adds [n] slides,
    composed through binds.  The XML results use induction on the
    reader's fuel with the length of what remains.  Closed facts about
    the saved deck are computed with [vm_compute].

    ** Findings

    - [src/generate_ppt.py:48]: every content body starts with an empty,
      unformatted paragraph (C3).
    - The spec says each slide has one or two text boxes.  The closing
      slide has three (C6).
    - [Inches] truncates binary64 products ([Units.Inches_4_1_truncates]).
      Every literal of the script converts exactly.
    - Control characters such as a carriage return do not survive the
      text round trip ([Text.tf_text_carriage_return]).  The script's
      strings have none (C8).
    - [src/generate_ppt.py:43]: the body boxes of "Deployment Details"
      (12 items) and "User Accounts" (13 items) are too small for their
      text whatever the font's line spacing (C13).  [spAutoFit] grows them past the
      5 inches the script gives them.
    - [src/generate_ppt.py:11]: [add_slide] relies on python-pptx's
      [_next_id], whose fallback search raises [StopIteration] when an
      id above 2147483647 is in use and the valid ids have no gap, even
      though ids are free (C16).  With no valid id in use it returns
      256.  The script starts from an empty
      presentation and never meets it.
    - [src/generate_ppt.py:255]: the message starts with U+2705, which
      only UTF-8 of the usual stdout encodings represents.  Where stdout
      is cp1252 (Windows writing to a pipe or a file), ASCII or Latin-1,
      [print] raises [UnicodeEncodeError] after the file was saved, and
      the script ends with a traceback (C19).

    ** Bounds, fuel and representation

    The only loop of the program is [for item in content_list], a
    structural recursion on the list.  The one function with fuel is the
    XML reader [Xml.parse_nodes] (and [read_attrs]): every call consumes
    input before it recurses, so [parse_xml] gives it one more than the
    length of its input, and [Xml.parse_nodes_fuel] shows that no larger
    fuel changes the answer.
    Lengths are EMU integers ([Z]).  Python floats are Rocq's primitive
    binary64 floats, so [Inches(2.5)] is computed as Python computes it.
    Python [str] values are represented by their UTF-8 bytes
    ([String.string]).  Every character the code examines is ASCII, and
    in UTF-8 no byte of a multi-byte character is ASCII, so splitting
    and escaping the bytes gives the same result as on code points.

    ** Not modelled

    Of [prs.save], the model keeps the slide parts of slides made of
    text boxes, and of the presentation part its slide-id list, slide
    size and relationships.  Placeholder shapes (whose placeholder type
    the shape record does not keep), the rest of the template's parts
    and elements, the slide parts' own relationships, the content
    types, namespace declarations and the zip container are not
    modelled, nor is rendering by PowerPoint.  Of Python's codecs the
    four above are modelled; the stream's buffering is not (each write
    is one event).  python-pptx
    is a library the script only calls: its parts are modelled from its
    documented behaviour, as far as the script uses them.  Paragraph
    proxies are modelled as indices, which agrees with python-pptx's
    element proxies because the script only ever appends paragraphs
    after it takes a proxy. *)

From Stdlib Require Export ZArith String Ascii Lia.
From stdpp Require Export base list strings pretty sorting.


Create HintDb pptx.
Create Rewrite HintDb pptx_run.

(** [lia] after turning [Z.div] and [Z.modulo] by constants into
    equations. *)
Ltac zlia := Z.div_mod_to_equations; lia.

(** ** Python exceptions and results *)

Inductive PyExc :=
  | IndexError
  | ValueError
  | TypeError
  | OverflowError
  | AttributeError
  | StopIteration
  | UnicodeEncodeError
  | PermissionError.

#[export] Instance PyExc_eq_dec : EqDecision PyExc.
Proof. solve_decision. Defined.

Inductive Result (A : Type) :=
  | Ok (a : A)
  | Err (e : PyExc).
Arguments Ok {A} a.
Arguments Err {A} e.

#[export] Instance Result_eq_dec {A} `{EqDecision A} : EqDecision (Result A).
Proof. solve_decision. Defined.

#[export] Instance result_ret : MRet Result := fun A a => Ok a.
#[export] Instance result_bind : MBind Result :=
  fun A B f m => match m with Ok a => f a | Err e => Err e end.

(** A computation on a shared state [S] that may raise. *)
Definition ST (S A : Type) : Type := S -> Result (A * S).

#[export] Instance st_ret {S} : MRet (ST S) := fun A a s => Ok (a, s).
#[export] Instance st_bind {S} : MBind (ST S) :=
  fun A B f m s => match m s with Ok (a, s') => f a s' | Err e => Err e end.

Definition raise {S A} (e : PyExc) : ST S A := fun _ => Err e.

Definition lift {S A} (r : Result A) : ST S A :=
  fun s => match r with Ok a => Ok (a, s) | Err e => Err e end.

Definition gets {S A} (f : S -> A) : ST S A := fun s => Ok (f s, s).

Definition put {S} (s : S) : ST S unit := fun _ => Ok (tt, s).

(** An update of the state that may raise. *)
Definition update {S} (f : S -> Result S) : ST S unit :=
  fun s => match f s with Ok s' => Ok (tt, s') | Err e => Err e end.

(** The final state of a run, when it does not raise. *)
Definition exec {S A} (m : ST S A) (s : S) : Result S :=
  match m s with Ok (_, s') => Ok s' | Err e => Err e end.

(** ** Python list indexing

    [l[i]] on a Python list: a negative index counts from the end, and
    an index outside [-len(l), len(l)) raises [IndexError]. *)
Definition py_getitem {A} (l : list A) (i : Z) : Result A :=
  let n := Z.of_nat (length l) in
  let j := if (i <? 0)%Z then (i + n)%Z else i in
  if ((0 <=? j) && (j <? n))%Z then
    match l !! Z.to_nat j with Some x => Ok x | None => Err IndexError end
  else Err IndexError.

(** The position [l[i]] designates, or [IndexError]. *)
Definition py_index (n : nat) (i : Z) : Result nat :=
  let j := if (i <? 0)%Z then (i + Z.of_nat n)%Z else i in
  if ((0 <=? j) && (j <? Z.of_nat n))%Z then Ok (Z.to_nat j) else Err IndexError.

(** Replace the element at position [i] by [f] of it, or raise
    [IndexError] when there is none (how the model reaches an element
    through a proxy). *)
Definition update_at {A} (i : nat) (f : A -> Result A) (l : list A) : Result (list A) :=
  match l !! i with
  | Some x => match f x with Ok y => Ok (<[i:=y]> l) | Err e => Err e end
  | None => Err IndexError
  end.

(** The largest element of [d :: l]. *)
Definition max_list (d : Z) (l : list Z) : Z := fold_right Z.max d l.

(** ** [str.split] and [str.join] on one-character separators

    [split_by p s] cuts [s] at every character satisfying [p], like
    Python's [s.split(sep)] for a one-character [sep] and like
    [re.split] for a character class.  It always returns at least one
    piece. *)
Fixpoint split_by (p : ascii -> bool) (s : string) : list string :=
  match s with
  | EmptyString => [EmptyString]
  | String a s' =>
      let rest := split_by p s' in
      if p a then EmptyString :: rest
      else match rest with
           | r :: rs => String a r :: rs
           | [] => [String a EmptyString]
           end
  end.

(** [sep.join(l)] for a one-character separator [sep]. *)
Fixpoint join_with (sep : ascii) (l : list string) : string :=
  match l with
  | [] => EmptyString
  | [x] => x
  | x :: xs => String.append x (String sep (join_with sep xs))
  end.

(** [s] with every character [a] replaced by [f a]. *)
Fixpoint str_map (f : ascii -> ascii) (s : string) : string :=
  match s with
  | EmptyString => EmptyString
  | String a s' => String (f a) (str_map f s')
  end.

(** The concatenation of [f a] for every character [a] of [s]. *)
Fixpoint str_concat_map (f : ascii -> string) (s : string) : string :=
  match s with
  | EmptyString => EmptyString
  | String a s' => String.append (f a) (str_concat_map f s')
  end.

(** Every character of a string satisfies a test. *)
Fixpoint str_forall (p : ascii -> bool) (s : string) : bool :=
  match s with
  | EmptyString => true
  | String a s' => p a && str_forall p s'
  end.

(** ** Hexadecimal digits, as Python's ["%X"] writes them *)
Definition hex_digit (n : Z) : ascii :=
  if (n <? 10)%Z then ascii_of_nat (Z.to_nat (48 + n))
  else ascii_of_nat (Z.to_nat (55 + n)).

(** ["%02X" % n], for [0 <= n < 256]. *)
Definition hex2 (n : Z) : string :=
  String (hex_digit (n / 16)) (String (hex_digit (n mod 16)) EmptyString).

(** ["%04X" % n], for [0 <= n < 65536]. *)
Definition hex4 (n : Z) : string :=
  String.append (hex2 (n / 256)) (hex2 (n mod 256)).

(** The value of a hexadecimal digit, either case, as [int(c, 16)] reads it. *)
Definition hex_value (c : ascii) : option Z :=
  let n := Z.of_nat (nat_of_ascii c) in
  if ((48 <=? n) && (n <=? 57))%Z then Some (n - 48)%Z
  else if ((65 <=? n) && (n <=? 70))%Z then Some (n - 55)%Z
  else if ((97 <=? n) && (n <=? 102))%Z then Some (n - 87)%Z
  else None.

(** ** The monad's laws, as the rewriting the proofs use *)

Lemma bind_ok {S A B} (m : ST S A) (f : A -> ST S B) s a s' :
  m s = Ok (a, s') -> (x ← m; f x) s = f a s'.
Proof. intros H. unfold mbind, st_bind. by rewrite H. Qed.

Lemma bind_err {S A B} (m : ST S A) (f : A -> ST S B) s e :
  m s = Err e -> (x ← m; f x) s = Err e.
Proof. intros H. unfold mbind, st_bind. by rewrite H. Qed.

Lemma bind_assoc {S A B C} (m : ST S A) (f : A -> ST S B) (g : B -> ST S C) s :
  (y ← (x ← m; f x); g y) s = (x ← m; y ← f x; g y) s.
Proof. unfold mbind, st_bind. by destruct (m s) as [[a s']|e]. Qed.

Lemma exec_bind {S A B} (m : ST S A) (f : A -> ST S B) s a s' :
  m s = Ok (a, s') -> exec (x ← m; f x) s = exec (f a) s'.
Proof. intros H. unfold exec. by rewrite (bind_ok _ _ _ _ _ H). Qed.

Lemma lift_ok {S A} (a : A) (s : S) : lift (Ok a) s = Ok (a, s).
Proof. done. Qed.

Lemma lift_eval {S A} (r : Result A) (a : A) (s : S) : r = Ok a -> lift r s = Ok (a, s).
Proof. by intros ->. Qed.

#[export] Hint Rewrite @lift_ok : pptx_run.

(** ** Lemmas on Python indexing *)

Lemma py_getitem_nonneg {A} (l : list A) (i : nat) :
  py_getitem l (Z.of_nat i) =
    match l !! i with Some x => Ok x | None => Err IndexError end.
Proof.
  unfold py_getitem.
  destruct (Z.ltb_spec (Z.of_nat i) 0); [lia|].
  rewrite Nat2Z.id.
  destruct (decide (i < length l)) as [Hlt|Hge].
  - rewrite (proj2 (Z.leb_le 0 _)), (proj2 (Z.ltb_lt _ _)) by lia. done.
  - rewrite (lookup_ge_None_2 l i) by lia.
    by destruct (Z.leb 0 _), (Z.ltb_spec (Z.of_nat i) (Z.of_nat (length l))); try lia.
Qed.

(** ** Lemmas on strings

    stdpp makes [String.append] opaque to [simpl]; these are its two
    equations. *)

Lemma str_app_cons a s1 s2 : String.append (String a s1) s2 = String a (String.append s1 s2).
Proof. done. Qed.

Lemma str_app_nil s : String.append EmptyString s = s.
Proof. done. Qed.

Lemma str_app_nil_r s : String.append s EmptyString = s.
Proof. induction s as [|a s IH]; [done|]. by rewrite str_app_cons, IH. Qed.

#[export] Hint Rewrite str_app_cons str_app_nil str_app_nil_r : pptx_run.

Lemma str_app_assoc s1 s2 s3 :
  String.append (String.append s1 s2) s3 = String.append s1 (String.append s2 s3).
Proof. induction s1 as [|a s1 IH]; [done|]. by rewrite !str_app_cons, IH. Qed.

Lemma str_concat_map_app f s1 s2 :
  str_concat_map f (String.append s1 s2) =
  String.append (str_concat_map f s1) (str_concat_map f s2).
Proof.
  induction s1 as [|a s1 IH]; [done|]. rewrite str_app_cons. cbn [str_concat_map].
  by rewrite IH, str_app_assoc.
Qed.

(** Two character maps that agree on the characters of [s] agree on [s]. *)
Lemma str_concat_map_ext_on f g s :
  str_forall (fun a => bool_decide (f a = g a)) s = true ->
  str_concat_map f s = str_concat_map g s.
Proof.
  induction s as [|a s IH]; [done|]. cbn. intros [Ha Hs]%andb_prop.
  apply bool_decide_eq_true in Ha. by rewrite Ha, IH.
Qed.

Lemma str_concat_map_id_on f s :
  str_forall (fun a => bool_decide (f a = String a EmptyString)) s = true ->
  str_concat_map f s = s.
Proof.
  induction s as [|a s IH]; [done|]. cbn. intros [Ha Hs]%andb_prop.
  apply bool_decide_eq_true in Ha. by rewrite Ha, IH.
Qed.

(** A character map that keeps the separator commutes with [join_with]. *)
Lemma str_concat_map_join f sep l :
  f sep = String sep EmptyString ->
  str_concat_map f (join_with sep l) = join_with sep (map (str_concat_map f) l).
Proof.
  intros Hsep. induction l as [|x [|y l] IH]; [done|done|].
  cbn [join_with map] in *. rewrite str_concat_map_app. cbn [str_concat_map].
  by rewrite Hsep, IH.
Qed.

#[export] Hint Rewrite str_app_assoc str_concat_map_app : pptx_run.

Lemma str_map_ext f g s : (forall a, f a = g a) -> str_map f s = str_map g s.
Proof. intros Hfg. induction s as [|a s IH]; [done|]. cbn. by rewrite Hfg, IH. Qed.

Lemma str_forall_impl (p q : ascii -> bool) s :
  (forall a, p a = true -> q a = true) -> str_forall p s = true -> str_forall q s = true.
Proof.
  intros Hpq. induction s as [|a s IH]; [done|]. cbn.
  intros [Ha Hs]%andb_prop. by rewrite (Hpq a Ha), IH.
Qed.

Lemma str_forall_app p s1 s2 :
  str_forall p (String.append s1 s2) = str_forall p s1 && str_forall p s2.
Proof.
  induction s1 as [|a s1 IH]; [done|]. rewrite str_app_cons. cbn [str_forall].
  by rewrite IH, andb_assoc.
Qed.

(** Every piece [f] writes for a character passing [q] passes [p]: then
    so does the whole of [str_concat_map f] on a string passing [q]. *)
Lemma str_forall_concat_map (p q : ascii -> bool) f s :
  (forall a, q a = true -> str_forall p (f a) = true) ->
  str_forall q s = true -> str_forall p (str_concat_map f s) = true.
Proof.
  intros Hf. induction s as [|a s IH]; [done|]. cbn [str_concat_map str_forall].
  intros [Ha Hs]%andb_prop. rewrite str_forall_app, (Hf a Ha). by apply IH.
Qed.

(** Two functions that agree on the elements satisfying [P] agree on a
    list of them. *)
Lemma map_ext_on {A B} (P : A -> Prop) (f g : A -> B) (l : list A) :
  Forall P l -> (forall x, P x -> f x = g x) -> map f l = map g l.
Proof. intros Hl Hfg. induction Hl as [|x l Hx _ IH]; [done|]. cbn. by rewrite Hfg, IH. Qed.

(** ** Lemmas on splitting and joining *)

Lemma split_by_cons p s : exists r rs, split_by p s = r :: rs.
Proof.
  induction s as [|a s' [r [rs IH]]]; [by eexists _, []|]. cbn. rewrite IH.
  destruct (p a); eauto.
Qed.

Lemma split_by_ne_nil p s : split_by p s <> [].
Proof. by destruct (split_by_cons p s) as (r & rs & ->). Qed.

Lemma join_with_cons sep a r rs :
  join_with sep (String a r :: rs) = String a (join_with sep (r :: rs)).
Proof. by destruct rs. Qed.

(** Joining the pieces again replaces every separator by [sep]. *)
Lemma join_split_by sep p s :
  join_with sep (split_by p s) = str_map (fun a => if p a then sep else a) s.
Proof.
  induction s as [|a s' IH]; [done|]. cbn.
  destruct (split_by_cons p s') as (r & rs & E). rewrite E in IH |- *.
  destruct (p a); [by rewrite <- IH|]. by rewrite join_with_cons, IH.
Qed.

Lemma str_map_id_on f s :
  str_forall (fun a => bool_decide (f a = a)) s = true -> str_map f s = s.
Proof.
  induction s as [|a s' IH]; [done|]. cbn. intros [Ha Hs]%andb_prop.
  apply bool_decide_eq_true in Ha. by rewrite Ha, IH.
Qed.

(** No piece of a split contains a separator. *)
Lemma split_by_pieces p s :
  Forall (fun r => str_forall (fun a => negb (p a)) r = true) (split_by p s).
Proof.
  induction s as [|a s' IH]; [by repeat constructor|]. cbn.
  destruct (split_by_cons p s') as (r & rs & E). rewrite E in IH |- *.
  apply Forall_cons in IH as [Hr Hrs].
  destruct (p a) eqn:Ha; constructor; cbn; rewrite ?Ha; auto.
Qed.

(** Splitting at a separator and joining with it gives the string back. *)
Lemma join_split_by_sep sep p s :
  (forall a, p a = true -> a = sep) -> join_with sep (split_by p s) = s.
Proof.
  intros Hp. rewrite join_split_by.
  induction s as [|a s IH]; [done|]. cbn. rewrite IH. f_equal.
  destruct (p a) eqn:E; [by rewrite (Hp a E)|done].
Qed.

Lemma join_with_cons_fold sep x l :
  join_with sep (x :: l) =
  String.append x (fold_right (fun y acc => String sep (String.append y acc)) EmptyString l).
Proof.
  revert x. induction l as [|y l IH]; intros x; cbn [fold_right].
  - by rewrite str_app_nil_r.
  - change (join_with sep (x :: y :: l)) with
      (String.append x (String sep (join_with sep (y :: l)))). by rewrite IH.
Qed.

(** A string with no separator is one piece. *)
Lemma split_by_none p s : str_forall (fun a => negb (p a)) s = true -> split_by p s = [s].
Proof.
  induction s as [|a s IH]; [done|]. cbn. intros [Ha Hs]%andb_prop.
  apply negb_true_iff in Ha. by rewrite Ha, IH.
Qed.

(** ** Checking a property on a finite range of integers by computation *)

Lemma Z_range_decide (P : Z -> Prop) `{!forall z, Decision (P z)} (lo n : Z) :
  forallb (fun z => bool_decide (P z)) (seqZ lo n) = true ->
  forall z, (lo <= z < lo + n)%Z -> P z.
Proof.
  intros Hall z Hz. apply forallb_forall with (x := z) in Hall.
  - by apply bool_decide_eq_true in Hall.
  - apply list_elem_of_In, elem_of_seqZ. lia.
Qed.

Lemma hex_value_digit n : (0 <= n < 16)%Z -> hex_value (hex_digit n) = Some n.
Proof.
  apply (Z_range_decide (fun k => hex_value (hex_digit k) = Some k) 0 16).
  by vm_compute.
Qed.

#[export] Hint Resolve split_by_ne_nil : pptx.

(** ** Lemmas on indexed updates and maxima *)

Lemma update_at_length {A} i f (l l' : list A) :
  update_at i f l = Ok l' -> length l' = length l.
Proof.
  unfold update_at. destruct (l !! i); [|done]. destruct (f a); [|done].
  intros [= <-]. apply length_insert.
Qed.

(** A property that [f] preserves is preserved by [update_at]. *)
Lemma update_at_Forall {A} (P : A -> Prop) i f (l l' : list A) :
  (forall x y, P x -> f x = Ok y -> P y) ->
  update_at i f l = Ok l' -> Forall P l -> Forall P l'.
Proof.
  intros Hf. unfold update_at. destruct (l !! i) as [x|] eqn:Ex; [|done].
  destruct (f x) as [y|] eqn:Ey; [|done]. intros [= <-] Hl.
  apply Forall_insert; [done|]. eapply Hf; [|exact Ey]. by eapply Forall_lookup_1.
Qed.

(** When [f] keeps a projection [g], so does [update_at]. *)
Lemma update_at_map {A B} (g : A -> B) i f (l l' : list A) :
  (forall x y, f x = Ok y -> g y = g x) ->
  update_at i f l = Ok l' -> map g l' = map g l.
Proof.
  intros Hf. unfold update_at. destruct (l !! i) as [x|] eqn:Ex; [|done].
  destruct (f x) as [y|] eqn:Ey; [|done]. intros [= <-].
  revert i Ex. induction l as [|z l IH]; intros [|i] Ex; cbn in *; try done.
  - injection Ex as ->. by rewrite (Hf _ _ Ey).
  - by rewrite IH.
Qed.

Lemma update_at_forallb {A} (P : A -> bool) i f (l l' : list A) :
  (forall x y, P x = true -> f x = Ok y -> P y = true) ->
  update_at i f l = Ok l' -> forallb P l = true -> forallb P l' = true.
Proof.
  intros Hf E Hl. apply forallb_forall. intros x Hx%list_elem_of_In. revert x Hx.
  apply Forall_forall. eapply update_at_Forall; [|exact E|].
  - intros y z Hy Hz. exact (Hf y z Hy Hz).
  - apply Forall_forall. intros y Hy%list_elem_of_In. by apply (proj1 (forallb_forall P l)).
Qed.

(** [update_at] of an update that succeeds at position [i] is [alter]. *)
Lemma update_at_alter {A} i f g (l : list A) x :
  l !! i = Some x -> f x = Ok (g x) -> update_at i f l = Ok (alter g i l).
Proof.
  intros Hl Hf. unfold update_at. rewrite Hl, Hf. f_equal.
  rewrite list_insert_alter. apply list_alter_ext; [|done]. intros y Hy. congruence.
Qed.

Lemma alter_id_at {A} (f : A -> A) i (l : list A) x :
  l !! i = Some x -> f x = x -> alter f i l = l.
Proof.
  intros Hl Hf. transitivity (alter (fun y => y) i l); [|by apply list_alter_id].
  apply list_alter_ext; [|done]. intros y Hy. congruence.
Qed.

Lemma max_list_ge d l : Forall (fun u => (u <= max_list d l)%Z) (d :: l).
Proof.
  unfold max_list. induction l as [|u l IH]; cbn [fold_right].
  - constructor; [lia|constructor].
  - apply Forall_cons in IH as [Hd IH]. cbv beta in Hd.
    constructor; [cbv beta; lia|]. constructor; [cbv beta; lia|].
    eapply Forall_impl; [exact IH|]. cbv beta. intros x Hx. lia.
Qed.

(** ** The last element of a list *)

(** The largest element is the default or an element of the list. *)
Lemma max_list_in d l : max_list d l = d \/ max_list d l ∈ l.
Proof.
  unfold max_list. induction l as [|u l IH]; [by left|]. cbn [fold_right].
  destruct (Z.max_spec u (fold_right Z.max d l)) as [[_ ->]|[_ ->]].
  - destruct IH as [->|IH]; [by left|right; by apply elem_of_cons; right].
  - right. by apply elem_of_cons; left.
Qed.

Lemma lookup_last {A} (l : list A) x : (l ++ [x]) !! length l = Some x.
Proof. induction l; cbn; done. Qed.

Lemma insert_last {A} (l : list A) x y : <[length l := y]> (l ++ [x]) = l ++ [y].
Proof. pose proof (insert_app_r l [x] 0 y) as H. by rewrite Nat.add_0_r in H. Qed.

Lemma update_at_last {A} (l : list A) x f :
  update_at (length l) f (l ++ [x]) = match f x with Ok y => Ok (l ++ [y]) | Err e => Err e end.
Proof. unfold update_at. rewrite lookup_last. destruct (f x); [by rewrite insert_last|done]. Qed.

Lemma py_index_nat n i : (i < n)%nat -> py_index n (Z.of_nat i) = Ok i.
Proof.
  intros Hi. unfold py_index.
  rewrite (proj2 (Z.ltb_ge (Z.of_nat i) 0)) by lia.
  rewrite (proj2 (Z.leb_le 0 (Z.of_nat i))), (proj2 (Z.ltb_lt (Z.of_nat i) (Z.of_nat n))) by lia.
  cbn. by rewrite Nat2Z.id.
Qed.

Lemma py_index_zero (n : nat) : (0 < n)%nat -> py_index n 0 = Ok 0%nat.
Proof.
  intros Hn. unfold py_index. cbn -[Z.of_nat].
  destruct (Z.ltb_spec 0 (Z.of_nat n)); [done|lia].
Qed.
