(* ===== verification/Units.v ===== *)
(** * Lengths: [pptx.util.Inches], [Pt] and [Length.centipoints]

    python-pptx measures lengths as integers in English Metric Units
    (EMU).  [Inches(x)] is [int(x * 914400)] and [Pt(x)] is
    [int(x * 12700)].  The argument [x] is a Python number, so an int
    argument is multiplied exactly, and a float argument is multiplied in
    binary64 and then truncated toward zero by [int()].  The model keeps
    both cases: a float is a primitive binary64 float, and its
    multiplication is [PrimFloat.mul], which is IEEE multiplication with
    round-to-nearest-even, exactly as CPython computes it.

    [Length.centipoints] is [self // 127], Python's floor division. *)

From Stdlib Require Import Floats PrimInt63 Uint63.
From S2P Require Import Prelude.

Open Scope float_scope.
#[local] Set Warnings "-inexact-float".

Module Units.

(** A Python number: an [int] or a [float]. *)
Inductive PyNum :=
  | PyInt (z : Z)
  | PyFloat (f : float).

Definition EMUS_PER_INCH : Z := 914400.
Definition EMUS_PER_PT : Z := 12700.
Definition EMUS_PER_CENTIPOINT : Z := 127.

(** A small non-negative int converted to a float, exactly as Python
    converts the int operand of [float * int]. *)
Definition float_of_small (k : Z) : float := PrimFloat.of_uint63 (Uint63.of_Z k).

(** [x * k] for an int constant [k]: an int times an int stays an int,
    and a float times an int is a float product. *)
Definition py_mul (x : PyNum) (k : Z) : PyNum :=
  match x with
  | PyInt z => PyInt (z * k)
  | PyFloat f => PyFloat (PrimFloat.mul f (float_of_small k))
  end.

(** Python's [int(f)] on a float: truncation toward zero.  It raises
    [OverflowError] on an infinity and [ValueError] on a NaN.  A finite
    float is [m * 2^e] with a positive mantissa [m]. *)
Definition py_int_of_float (f : float) : Result Z :=
  match Prim2SF f with
  | S754_zero _ => Ok 0%Z
  | S754_infinity _ => Err OverflowError
  | S754_nan => Err ValueError
  | S754_finite s m e =>
      let a := if (0 <=? e)%Z then Z.shiftl (Zpos m) e else Z.shiftr (Zpos m) (- e) in
      Ok (if s then (- a)%Z else a)
  end.

(** [int(x)] on a Python number. *)
Definition py_int (x : PyNum) : Result Z :=
  match x with
  | PyInt z => Ok z
  | PyFloat f => py_int_of_float f
  end.

(** [class Inches(Length): __new__(cls, inches): emu = int(inches * Length._EMUS_PER_INCH)] *)
Definition Inches (x : PyNum) : Result Z := py_int (py_mul x EMUS_PER_INCH).

(** [class Pt(Length): __new__(cls, points): emu = int(points * Length._EMUS_PER_PT)] *)
Definition Pt (x : PyNum) : Result Z := py_int (py_mul x EMUS_PER_PT).

(** [Length.centipoints]: [self // self._EMUS_PER_CENTIPOINT]. *)
Definition centipoints (emu : Z) : Z := (emu / EMUS_PER_CENTIPOINT)%Z.

(** The [float] literals of inches the script passes to [Inches], each
    with its value in tenths of an inch. *)
Definition script_inch_floats : list (float * Z) :=
  [(7.5, 75%Z); (2.5, 25%Z); (0.8, 8%Z); (0.5, 5%Z); (1.8, 18%Z);
   (1.5, 15%Z); (4.5, 45%Z); (5.5, 55%Z)].

(** ** Properties *)

(** An int number of points converts to exactly [100 * n] centipoints,
    the unit in which python-pptx stores a font size or a spacing. *)
Lemma Pt_int_centipoints (n : Z) :
  Pt (PyInt n) = Ok (n * EMUS_PER_PT)%Z /\
  centipoints (n * EMUS_PER_PT) = (100 * n)%Z.
Proof.
  split; [done|]. unfold centipoints, EMUS_PER_PT, EMUS_PER_CENTIPOINT.
  replace (n * 12700)%Z with ((100 * n) * 127)%Z by lia.
  apply Z.div_mul. lia.
Qed.

(** Every float literal of inches in the script converts to the exact
    EMU value of its decimal: binary64 rounding and the truncation of
    [int()] lose nothing on these literals. *)
Lemma Inches_script_literals_exact :
  Forall (fun '(f, tenths) => Inches (PyFloat f) = Ok (tenths * 91440)%Z)
    script_inch_floats.
Proof. repeat constructor; vm_compute; reflexivity. Qed.

(** [Inches(4.1)] is one EMU short of 4.1 inches: [4.1 * 914400] is a
    binary64 value just below 3749040, and [int()] truncates it. *)
Lemma Inches_4_1_truncates : Inches (PyFloat 4.1) = Ok 3749039%Z.
Proof. vm_compute. reflexivity. Qed.

(** Truncation is toward zero, not toward minus infinity. *)
Lemma py_int_truncates_toward_zero :
  py_int (PyFloat (-2.5)) = Ok (-2)%Z /\ py_int (PyFloat 2.5) = Ok 2%Z.
Proof. split; vm_compute; reflexivity. Qed.

End Units.
