(* ===== verification/Color.v ===== *)
(** * Colours: [pptx.dml.color.RGBColor]

    [RGBColor(r, g, b)] is a tuple of three ints.  Its constructor raises
    [ValueError] unless each component is in [0, 255].  [str(c)] is
    ["%02X%02X%02X" % c].  [RGBColor.from_string(s)] parses [s[:2]],
    [s[2:4]] and [s[4:]] with [int(_, 16)] and passes the results to the
    constructor.  A font colour is stored as the [val] attribute of an
    [a:srgbClr] element.  That attribute has the XML type
    [ST_HexColorRGB], which accepts six hexadecimal digits, and the
    colour getter reads the attribute back through [from_string].

    [int(s, 16)] is modelled on strings of hexadecimal digits of either
    case, and the empty string raises [ValueError].  The sign,
    whitespace, [0x] prefix and underscores that CPython's [int] also
    accepts are outside the model.  They never occur in a value written
    by [__str__]. *)

From S2P Require Import Prelude.

Module Color.

(** The value of an [RGBColor]: its tuple [(r, g, b)]. *)
Record RGB := mkRGB { rgb_r : Z; rgb_g : Z; rgb_b : Z }.

#[export] Instance RGB_eq_dec : EqDecision RGB.
Proof. solve_decision. Defined.

Definition component_ok (v : Z) : bool := ((0 <=? v) && (v <=? 255))%Z.

(** [RGBColor.__new__]: each of [r], [g], [b] must be an int in [0, 255]. *)
Definition RGBColor (r g b : Z) : Result RGB :=
  if component_ok r && component_ok g && component_ok b
  then Ok (mkRGB r g b) else Err ValueError.

(** [RGBColor.__str__]: ["%02X%02X%02X" % self]. *)
Definition rgb_str (c : RGB) : string :=
  String.append (hex2 (rgb_r c)) (String.append (hex2 (rgb_g c)) (hex2 (rgb_b c))).

(** [int(s, 16)] on a string of hexadecimal digits. *)
Fixpoint hex_acc (s : string) (acc : Z) : option Z :=
  match s with
  | EmptyString => Some acc
  | String c s' =>
      match hex_value c with
      | Some d => hex_acc s' (16 * acc + d)%Z
      | None => None
      end
  end.

Definition py_int16 (s : string) : Result Z :=
  match s with
  | EmptyString => Err ValueError
  | _ => match hex_acc s 0 with Some n => Ok n | None => Err ValueError end
  end.

(** [RGBColor.from_string]: [r = int(s[:2], 16)], [g = int(s[2:4], 16)],
    [b = int(s[4:], 16)], then [cls(r, g, b)]. *)
Definition from_string (s : string) : Result RGB :=
  r ← py_int16 (substring 0 2 s);
  g ← py_int16 (substring 2 2 s);
  b ← py_int16 (substring 4 (String.length s) s);
  RGBColor r g b.

(** [ST_HexColorRGB.validate]: a string of length 6 that [int(_, 16)]
    accepts. *)
Definition hex_color_ok (s : string) : bool :=
  bool_decide (String.length s = 6%nat) &&
  match py_int16 s with Ok _ => true | Err _ => false end.

(** A colour whose three components pass the constructor's check. *)
Definition rgb_valid (c : RGB) : bool :=
  component_ok (rgb_r c) && component_ok (rgb_g c) && component_ok (rgb_b c).

(** ** Helper lemmas *)

Lemma component_ok_spec v : component_ok v = true <-> (0 <= v <= 255)%Z.
Proof. unfold component_ok. rewrite andb_true_iff, Z.leb_le, Z.leb_le. done. Qed.

Lemma hex_acc_hex2 n s acc :
  (0 <= n < 256)%Z -> hex_acc (String.append (hex2 n) s) acc = hex_acc s (256 * acc + n)%Z.
Proof.
  intros Hn. unfold hex2. rewrite !str_app_cons, str_app_nil. cbn [hex_acc].
  rewrite (hex_value_digit (n / 16)%Z), (hex_value_digit (n mod 16)%Z) by zlia.
  f_equal. zlia.
Qed.

Lemma hex2_parse n : (0 <= n < 256)%Z -> py_int16 (hex2 n) = Ok n.
Proof.
  intros Hn. pose proof (hex_acc_hex2 n EmptyString 0 Hn) as H.
  rewrite str_app_nil_r in H. unfold py_int16. unfold hex2 in H |- *.
  rewrite H. cbn. by rewrite Z.add_0_l.
Qed.

Lemma rgb_valid_bounds c :
  rgb_valid c = true ->
  (0 <= rgb_r c < 256)%Z /\ (0 <= rgb_g c < 256)%Z /\ (0 <= rgb_b c < 256)%Z.
Proof.
  unfold rgb_valid. rewrite !andb_true_iff, !component_ok_spec. lia.
Qed.

(** ** Properties *)

(** The constructor succeeds exactly on three components in [0, 255],
    and otherwise raises [ValueError]. *)
Lemma RGBColor_spec r g b :
  RGBColor r g b =
    if bool_decide ((0 <= r <= 255) /\ (0 <= g <= 255) /\ (0 <= b <= 255))%Z
    then Ok (mkRGB r g b) else Err ValueError.
Proof.
  unfold RGBColor. case_bool_decide as H.
  - by rewrite (proj2 (component_ok_spec r)), (proj2 (component_ok_spec g)),
      (proj2 (component_ok_spec b)) by lia.
  - destruct (component_ok r) eqn:Er, (component_ok g) eqn:Eg,
      (component_ok b) eqn:Eb; try done.
    apply component_ok_spec in Er, Eg, Eb. lia.
Qed.

(** A colour the constructor returns reads back from its string:
    [RGBColor.from_string(str(c)) == c]. *)
Lemma from_string_rgb_str r g b c :
  RGBColor r g b = Ok c -> from_string (rgb_str c) = Ok c.
Proof.
  unfold RGBColor. destruct (component_ok r && component_ok g && component_ok b) eqn:E;
    intros H; inversion H; subst c; clear H.
  pose proof (rgb_valid_bounds (mkRGB r g b) E) as (Hr & Hg & Hb); cbn in Hr, Hg, Hb.
  unfold from_string.
  change (substring 0 2 (rgb_str (mkRGB r g b))) with (hex2 r).
  change (substring 2 2 (rgb_str (mkRGB r g b))) with (hex2 g).
  change (substring 4 (String.length (rgb_str (mkRGB r g b))) (rgb_str (mkRGB r g b)))
    with (hex2 b).
  rewrite !hex2_parse by lia. cbn. unfold RGBColor. by rewrite E.
Qed.

(** [str(c)] of a constructed colour is always accepted by the
    [ST_HexColorRGB] check of the [val] attribute, so the colour setter
    never raises. *)
Lemma rgb_str_hex_color_ok r g b c :
  RGBColor r g b = Ok c -> hex_color_ok (rgb_str c) = true.
Proof.
  unfold RGBColor. destruct (component_ok r && component_ok g && component_ok b) eqn:E;
    intros H; inversion H; subst c; clear H.
  pose proof (rgb_valid_bounds (mkRGB r g b) E) as (Hr & Hg & Hb); cbn in Hr, Hg, Hb.
  unfold hex_color_ok, py_int16, rgb_str. cbn [rgb_r rgb_g rgb_b].
  rewrite <- (str_app_nil_r (hex2 b)), !hex_acc_hex2 by lia. unfold hex2.
  autorewrite with pptx_run. cbn. by rewrite bool_decide_true.
Qed.

End Color.
