(* ===== verification/Text.v ===== *)
(** * Text frames and paragraphs: [pptx.text.text]

    A text frame ([a:txBody]) holds body properties and a list of
    paragraphs ([a:p]).  A paragraph holds its properties ([a:pPr]: the
    alignment, the indent level, the space before it, and the default
    run properties [a:defRPr] that [_Paragraph.font] edits) and its
    content: runs ([a:r]) and line breaks ([a:br]).

    Operations, as python-pptx implements them:
    - [TextFrame.text = s] removes every paragraph, then for each piece
      of [s.split("\n")] adds a new empty paragraph and appends the
      piece with [append_text] ([tf_set_text]);
    - [append_text] splits at ["\n"] and ["\v"], puts a break between
      pieces and a run for each non-empty piece, whose text is passed
      through [_escape_ctrl_chars] ([text_children]);
    - [_Paragraph.text = s] removes the paragraph's runs and breaks,
      keeps its properties, and appends [s] ([para_set_text]);
    - the getters join the runs' texts, reading a break as ["\v"]
      ([para_text]), and join the paragraphs with ["\n"] ([tf_text]);
    - [TextFrame.add_paragraph] appends a new empty paragraph;
    - the font and paragraph setters, with the XML type checks that
      raise [ValueError]: [ST_TextFontSize] (100 to 400000
      centipoints), [ST_TextSpacingPoint] (0 to 20116800 EMU),
      [ST_TextIndentLevelType] (0 to 8) and [ST_HexColorRGB]. *)

From S2P Require Import Prelude Units Color.

Module Text.

(** ** Data *)

(** [PP_ALIGN]: the alignments that have an XML value. *)
Inductive Align :=
  | CENTER | DISTRIBUTE | JUSTIFY | JUSTIFY_LOW | LEFT | RIGHT | THAI_DISTRIBUTE.

#[export] Instance Align_eq_dec : EqDecision Align.
Proof. solve_decision. Defined.

(** [MSO_AUTO_SIZE]: the [a:bodyPr] autofit child. *)
Inductive AutoSize := AUTO_NONE | SHAPE_TO_FIT_TEXT | TEXT_TO_FIT_SHAPE.

(** The content children of a paragraph. *)
Inductive PChild :=
  | PRun (t : string)
  | PBreak.

(** [a:defRPr]: [sz] in centipoints, [b], and the [val] of
    [a:solidFill/a:srgbClr]. *)
Record Font := mkFont {
  f_size : option Z;
  f_bold : option bool;
  f_color : option string
}.

(** [a:p]: [p_level] is the [lvl] attribute read with its default 0,
    and [p_space_before] is [a:spcBef/a:spcPts/@val] in centipoints. *)
Record Paragraph := mkPara {
  p_children : list PChild;
  p_font : Font;
  p_align : option Align;
  p_space_before : option Z;
  p_level : Z
}.

(** [a:txBody]: [tf_wrap] is [bodyPr/@wrap] ([Some true] for
    ["square"], [Some false] for ["none"]), and [tf_auto_size] is the
    autofit child. *)
Record TextFrame := mkTF {
  tf_wrap : option bool;
  tf_auto_size : option AutoSize;
  tf_paras : list Paragraph
}.

#[export] Instance AutoSize_eq_dec : EqDecision AutoSize.
Proof. solve_decision. Defined.
#[export] Instance PChild_eq_dec : EqDecision PChild.
Proof. solve_decision. Defined.
#[export] Instance Font_eq_dec : EqDecision Font.
Proof. solve_decision. Defined.
#[export] Instance Paragraph_eq_dec : EqDecision Paragraph.
Proof. solve_decision. Defined.
#[export] Instance TextFrame_eq_dec : EqDecision TextFrame.
Proof. solve_decision. Defined.

Definition no_font : Font := mkFont None None None.

(** [txBody.add_p()] creates [<a:p/>]. *)
Definition new_p : Paragraph := mkPara [] no_font None None 0.

(** The text body of a new text box ([CT_Shape.new_textbox_sp]):
    [<a:bodyPr wrap="none"><a:spAutoFit/></a:bodyPr><a:lstStyle/><a:p/>]. *)
Definition new_textbox_tf : TextFrame := mkTF (Some false) (Some SHAPE_TO_FIT_TEXT) [new_p].

Definition with_children (p : Paragraph) (cs : list PChild) : Paragraph :=
  mkPara cs (p_font p) (p_align p) (p_space_before p) (p_level p).

Definition with_font (p : Paragraph) (f : Font) : Paragraph :=
  mkPara (p_children p) f (p_align p) (p_space_before p) (p_level p).

Definition with_paras (tf : TextFrame) (ps : list Paragraph) : TextFrame :=
  mkTF (tf_wrap tf) (tf_auto_size tf) ps.

(** ** Escaping and splitting *)

Definition LF : ascii := ascii_of_nat 10.
Definition VT : ascii := ascii_of_nat 11.

Definition is_lf (a : ascii) : bool := bool_decide (a = LF).
Definition is_line_break (a : ascii) : bool := bool_decide (a = LF) || bool_decide (a = VT).

(** The class [[\x00-\x08\x0B-\x1F]] of [_escape_ctrl_chars]. *)
Definition in_escape_class (a : ascii) : bool :=
  let n := nat_of_ascii a in (n <=? 8)%nat || ((11 <=? n)%nat && (n <=? 31)%nat).

(** A character after [_escape_ctrl_chars]: ["_x%04X_" % ord(c)] for a
    character of the class, the character itself otherwise. *)
Definition escape_char (a : ascii) : string :=
  if in_escape_class a
  then String.append "_x" (String.append (hex4 (Z.of_nat (nat_of_ascii a))) "_")
  else String a EmptyString.

(** [CT_RegularTextRun._escape_ctrl_chars]. *)
Definition escape_ctrl_chars (s : string) : string := str_concat_map escape_char s.

(** [CT_TextParagraph.append_text]: for each piece of
    [re.split("\n|\v", text)], a break before every piece but the first,
    then a run if the piece is not empty. *)
Fixpoint text_children (first : bool) (pieces : list string) : list PChild :=
  match pieces with
  | [] => []
  | r :: rs =>
      (if first then [] else [PBreak]) ++
      (match r with EmptyString => [] | _ => [PRun (escape_ctrl_chars r)] end) ++
      text_children false rs
  end.

Definition append_text (cs : list PChild) (text : string) : list PChild :=
  cs ++ text_children true (split_by is_line_break text).

(** ** Text setters and getters *)

(** [_Paragraph.text = text]: [self.clear()] then [append_text]. *)
Definition para_set_text (p : Paragraph) (text : string) : Paragraph :=
  with_children p (append_text [] text).

Definition child_text (c : PChild) : string :=
  match c with PRun t => t | PBreak => String VT EmptyString end.

Definition children_text (cs : list PChild) : string :=
  fold_right (fun c acc => String.append (child_text c) acc) EmptyString cs.

(** [_Paragraph.text] (getter). *)
Definition para_text (p : Paragraph) : string := children_text (p_children p).

(** [TextFrame.text = text]: [clear_content()], then one new paragraph
    per piece of [text.split("\n")], filled by [append_text]. *)
Definition tf_set_text (tf : TextFrame) (text : string) : TextFrame :=
  with_paras tf (map (para_set_text new_p) (split_by is_lf text)).

(** [TextFrame.text] (getter): ["\n".join(p.text for p in self.paragraphs)]. *)
Definition tf_text (tf : TextFrame) : string :=
  join_with LF (map para_text (tf_paras tf)).

(** [TextFrame.add_paragraph()]: a new empty paragraph at the end; the
    result is its index. *)
Definition tf_add_paragraph (tf : TextFrame) : nat * TextFrame :=
  (length (tf_paras tf), with_paras tf (tf_paras tf ++ [new_p])).

(** ** Font and paragraph properties *)

(** [Font.size = emu] on a paragraph's [a:defRPr]:
    [rPr.sz = Emu(emu).centipoints], checked by [ST_TextFontSize]. *)
Definition font_set_size (v : option Z) (f : Font) : Result Font :=
  match v with
  | None => Ok (mkFont None (f_bold f) (f_color f))
  | Some emu =>
      let c := Units.centipoints emu in
      if ((100 <=? c) && (c <=? 400000))%Z
      then Ok (mkFont (Some c) (f_bold f) (f_color f)) else Err ValueError
  end.

(** [Font.bold = v]. *)
Definition font_set_bold (v : option bool) (f : Font) : Font :=
  mkFont (f_size f) v (f_color f).

(** [font.color.rgb = c]: a [a:solidFill/a:srgbClr] whose [val] is
    [str(c)], checked by [ST_HexColorRGB]. *)
Definition font_set_rgb (c : Color.RGB) (f : Font) : Result Font :=
  let v := Color.rgb_str c in
  if Color.hex_color_ok v then Ok (mkFont (f_size f) (f_bold f) (Some v)) else Err ValueError.

(** [font.color.rgb] (getter) of an [srgbClr] colour:
    [RGBColor.from_string(srgbClr.val)]; [None] when no colour is set. *)
Definition font_rgb (f : Font) : option (Result Color.RGB) :=
  match f_color f with Some v => Some (Color.from_string v) | None => None end.

(** [_Paragraph.font]: an update of the paragraph's [a:defRPr]. *)
Definition para_update_font (g : Font -> Result Font) (p : Paragraph) : Result Paragraph :=
  f ← g (p_font p); Ok (with_font p f).

(** [_Paragraph.alignment = a]. *)
Definition para_set_alignment (a : option Align) (p : Paragraph) : Paragraph :=
  mkPara (p_children p) (p_font p) a (p_space_before p) (p_level p).

(** [_Paragraph.space_before = v]: [ST_TextSpacingPoint] accepts 0 to
    20116800 EMU and stores centipoints. *)
Definition para_set_space_before (v : option Z) (p : Paragraph) : Result Paragraph :=
  match v with
  | None => Ok (mkPara (p_children p) (p_font p) (p_align p) None (p_level p))
  | Some emu =>
      if ((0 <=? emu) && (emu <=? 20116800))%Z
      then Ok (mkPara (p_children p) (p_font p) (p_align p)
                 (Some (Units.centipoints emu)) (p_level p))
      else Err ValueError
  end.

(** [_Paragraph.level = n]: [ST_TextIndentLevelType] accepts 0 to 8. *)
Definition para_set_level (n : Z) (p : Paragraph) : Result Paragraph :=
  if ((0 <=? n) && (n <=? 8))%Z
  then Ok (mkPara (p_children p) (p_font p) (p_align p) (p_space_before p) n)
  else Err ValueError.

(** [TextFrame.word_wrap = v]. *)
Definition tf_set_word_wrap (v : option bool) (tf : TextFrame) : TextFrame :=
  mkTF v (tf_auto_size tf) (tf_paras tf).

(** ** What the getters read back

    A vertical tab becomes a break and reads back as itself.  Every
    other character reads back as [_escape_ctrl_chars] wrote it. *)
Definition readback_char (a : ascii) : string :=
  if bool_decide (a = VT) then String VT EmptyString else escape_char a.

Definition readback : string -> string := str_concat_map readback_char.

(** A string that reads back unchanged: no character of the escape
    class other than ["\v"]. *)
Definition text_ok (s : string) : bool :=
  str_forall (fun a => negb (in_escape_class a) || bool_decide (a = VT)) s.

(** ** The XML schema types of the stored values

    What python-pptx's validation and escaping guarantee of the values
    it stores.  A run's text holds no character of the class
    [_escape_ctrl_chars] replaces and no line feed: no control byte
    other than tab and carriage return.  (The check is per byte: the
    UTF-8 sequences of U+FFFE and U+FFFF, on which lxml raises
    [ValueError], pass it, and the setters are modelled without that
    [ValueError].)  [sz] is an [ST_TextFontSize] (100 to
    400000 centipoints), the colour is an [ST_HexColorRGB], [spcPts] is
    an [ST_TextSpacingPoint] (0 to 158400 centipoints, that is 0 to
    20116800 EMU) and [lvl] is an [ST_TextIndentLevelType] (0 to 8). *)
Definition run_char (a : ascii) : bool := negb (in_escape_class a) && negb (is_lf a).

Definition child_typed (c : PChild) : bool :=
  match c with PRun t => str_forall run_char t | PBreak => true end.

(** An optional attribute: absent, or present with a valid value. *)
Definition opt_ok {A} (ok : A -> bool) (o : option A) : bool :=
  match o with Some x => ok x | None => true end.

Definition font_typed (f : Font) : bool :=
  opt_ok (fun c => (100 <=? c) && (c <=? 400000))%Z (f_size f) &&
  opt_ok Color.hex_color_ok (f_color f).

Definition para_typed (q : Paragraph) : bool :=
  forallb child_typed (p_children q) && font_typed (p_font q) &&
  opt_ok (fun c => (0 <=? c) && (c <=? 158400))%Z (p_space_before q) &&
  ((0 <=? p_level q) && (p_level q <=? 8))%Z.

Definition tf_typed (tf : TextFrame) : bool := forallb para_typed (tf_paras tf).

(** ** Helper lemmas on the text model *)

Lemma children_text_app xs ys :
  children_text (xs ++ ys) = String.append (children_text xs) (children_text ys).
Proof.
  induction xs as [|c xs IH]; [done|]. cbn [app children_text fold_right] in *.
  fold (children_text (xs ++ ys)) (children_text xs). by rewrite IH, str_app_assoc.
Qed.

Lemma run_piece_text r :
  children_text (match r with EmptyString => [] | _ => [PRun (escape_ctrl_chars r)] end) =
  escape_ctrl_chars r.
Proof. destruct r; cbn; [done|]. by rewrite str_app_nil_r. Qed.

Lemma text_children_later l :
  children_text (text_children false l) =
  fold_right (fun y acc => String VT (String.append (escape_ctrl_chars y) acc)) EmptyString l.
Proof.
  induction l as [|r rs IH]; [done|]. cbn [text_children app fold_right].
  change (children_text (PBreak :: ?cs)) with (String.append (String VT EmptyString) (children_text cs)).
  by rewrite str_app_cons, str_app_nil, children_text_app, run_piece_text, IH.
Qed.

(** The paragraph getter after the setter: the escaped pieces joined
    by the breaks. *)
Lemma para_text_set_text_pieces p t :
  para_text (para_set_text p t) =
  join_with VT (map escape_ctrl_chars (split_by is_line_break t)).
Proof.
  unfold para_text, para_set_text, append_text. cbn [p_children with_children app].
  destruct (split_by_cons is_line_break t) as (r & rs & ->).
  cbn [text_children app map]. rewrite children_text_app, run_piece_text, text_children_later.
  rewrite join_with_cons_fold. f_equal.
  induction rs as [|y rs IH]; [done|]. cbn. by rewrite IH.
Qed.

Lemma readback_char_LF : readback_char LF = String LF EmptyString.
Proof. done. Qed.

Lemma readback_char_VT : readback_char VT = String VT EmptyString.
Proof. done. Qed.

(** On a piece with no line break, reading back is escaping. *)
Lemma readback_piece t :
  str_forall (fun a => negb (is_line_break a)) t = true -> readback t = escape_ctrl_chars t.
Proof.
  intros H. apply str_concat_map_ext_on. revert H. apply str_forall_impl.
  intros a Ha. apply bool_decide_eq_true. unfold readback_char.
  destruct (decide (a = VT)) as [->|HV].
  - unfold is_line_break in Ha. by rewrite (bool_decide_true (VT = VT)), orb_true_r in Ha.
  - by rewrite bool_decide_false.
Qed.

(** [_Paragraph.text] after [_Paragraph.text = t]: [t] with every line
    feed read back as a vertical tab (both became breaks) and every other
    control character of the escape class written as [_xHHHH_]. *)
Lemma para_text_set_text p t :
  para_text (para_set_text p t) =
  readback (str_map (fun a => if is_lf a then VT else a) t).
Proof.
  rewrite para_text_set_text_pieces. symmetry. unfold readback.
  replace (str_map _ t) with (join_with VT (split_by is_line_break t)).
  2:{ rewrite join_split_by. apply str_map_ext. intros a. unfold is_line_break, is_lf.
      destruct (decide (a = VT)) as [->|HV].
      - rewrite (bool_decide_true (VT = VT)), orb_true_r by done.
        by destruct (bool_decide (VT = LF)).
      - by rewrite (bool_decide_false (a = VT)), orb_false_r. }
  rewrite str_concat_map_join by apply readback_char_VT. f_equal.
  apply (map_ext_on _ _ _ _ (split_by_pieces is_line_break t)). apply readback_piece.
Qed.

Lemma para_text_set_text_nolf p t :
  str_forall (fun a => negb (is_lf a)) t = true -> para_text (para_set_text p t) = readback t.
Proof.
  intros Hlf. rewrite para_text_set_text, str_map_id_on; [done|]. revert Hlf.
  apply str_forall_impl. intros a Ha. apply bool_decide_eq_true.
  apply negb_true_iff in Ha. by rewrite Ha.
Qed.

(** [TextFrame.text = s] in terms of the first piece of [s]. *)
Lemma tf_set_text_split tf s r rs :
  split_by is_lf s = r :: rs ->
  tf_set_text tf s = with_paras tf (para_set_text new_p r :: map (para_set_text new_p) rs).
Proof. intros H. unfold tf_set_text. by rewrite H. Qed.

(** After [TextFrame.text = s] there is at least one paragraph, so
    [paragraphs[0]] exists. *)
Lemma tf_set_text_paras_ne tf s : (0 < length (tf_paras (tf_set_text tf s)))%nat.
Proof.
  destruct (split_by_cons is_lf s) as (r & rs & H).
  rewrite (tf_set_text_split _ _ _ _ H). cbn. lia.
Qed.

(** On a string of the round-trip class, reading back is the identity. *)
Lemma readback_ok s : text_ok s = true -> readback s = s.
Proof.
  intros H. apply str_concat_map_id_on. revert H.
  apply str_forall_impl. intros a Ha. apply bool_decide_eq_true.
  unfold readback_char, escape_char. destruct (decide (a = VT)) as [->|HV]; [done|].
  rewrite bool_decide_false by done. apply orb_true_iff in Ha as [Ha|Ha].
  - apply negb_true_iff in Ha. by rewrite Ha.
  - by apply bool_decide_eq_true in Ha.
Qed.

(** A plain string: one line, and nothing that reads back differently. *)
Definition plain (s : string) : bool := text_ok s && str_forall (fun a => negb (is_lf a)) s.

Lemma para_text_set_text_plain q s : plain s = true -> para_text (para_set_text q s) = s.
Proof.
  intros [Hok Hlf]%andb_prop. rewrite para_text_set_text_nolf by done. by apply readback_ok.
Qed.

(** A plain string fills exactly one paragraph, which reads back as it. *)
Lemma tf_set_text_plain tf s : plain s = true -> map para_text (tf_paras (tf_set_text tf s)) = [s].
Proof.
  intros Hp. pose proof Hp as [_ Hlf]%andb_prop. unfold tf_set_text. cbn [tf_paras with_paras].
  rewrite (split_by_none _ _ Hlf). cbn [map]. by rewrite para_text_set_text_plain.
Qed.

(** ** Properties *)

(** [TextFrame.text] after [TextFrame.text = s] is [s] with every
    control character of the escape class other than ["\v"] written as
    [_xHHHH_]. *)
Theorem tf_text_set_text tf s : tf_text (tf_set_text tf s) = readback s.
Proof.
  unfold tf_text, tf_set_text. cbn [tf_paras with_paras]. rewrite map_map.
  rewrite (map_ext_on _ _ readback _ (split_by_pieces is_lf s))
    by (intros; by apply para_text_set_text_nolf).
  unfold readback. rewrite <- (str_concat_map_join readback_char LF) by apply readback_char_LF.
  f_equal. apply join_split_by_sep. intros a Ha. by apply bool_decide_eq_true in Ha.
Qed.

(** The text round trip: on a string with no control character of the
    escape class other than ["\v"], [TextFrame.text] reads back exactly
    what was assigned. *)
Theorem tf_text_roundtrip tf s : text_ok s = true -> tf_text (tf_set_text tf s) = s.
Proof. intros H. by rewrite tf_text_set_text, readback_ok. Qed.

(** A carriage return does not survive the round trip: it reads back
    as the six characters [_x000D_]. *)
Example tf_text_carriage_return :
  tf_text (tf_set_text new_textbox_tf (String (ascii_of_nat 13) EmptyString)) = "_x000D_"%string.
Proof. vm_compute. reflexivity. Qed.

(** ** Every setter stores values of their schema types *)

(** Checked on the 256 characters: what [_escape_ctrl_chars] writes for
    a character other than a line break holds only run characters. *)
Lemma escape_char_typed a : is_line_break a || str_forall run_char (escape_char a) = true.
Proof. destruct a as [[] [] [] [] [] [] [] []]; reflexivity. Qed.

Lemma text_children_typed first pieces :
  Forall (fun r => str_forall (fun a => negb (is_line_break a)) r = true) pieces ->
  forallb child_typed (text_children first pieces) = true.
Proof.
  revert first. induction pieces as [|r rs IH]; intros first Hp; [done|].
  apply Forall_cons in Hp as [Hr Hrs]. cbn [text_children].
  rewrite !forallb_app, (IH false Hrs), andb_true_r.
  apply andb_true_intro. split; [by destruct first|].
  destruct r as [|a r']; [done|]. cbn [forallb child_typed]. rewrite andb_true_r.
  unfold escape_ctrl_chars. eapply str_forall_concat_map; [|exact Hr].
  intros b Hb. pose proof (escape_char_typed b) as E. apply negb_true_iff in Hb.
  by rewrite Hb in E.
Qed.

Lemma para_set_text_typed q s : para_typed q = true -> para_typed (para_set_text q s) = true.
Proof.
  unfold para_typed, para_set_text, with_children, append_text. cbn [p_children p_font
    p_space_before p_level app]. intros H. apply andb_prop in H as [H Hl].
  apply andb_prop in H as [H Hsb]. apply andb_prop in H as [_ Hf].
  rewrite text_children_typed, Hf, Hsb, Hl; [done|]. apply split_by_pieces.
Qed.

Lemma new_p_typed : para_typed new_p = true.
Proof. reflexivity. Qed.

Lemma tf_set_text_typed tf s : tf_typed (tf_set_text tf s) = true.
Proof.
  unfold tf_typed, tf_set_text, with_paras. cbn [tf_paras]. apply forallb_forall.
  intros q (r & <- & _)%in_map_iff. apply para_set_text_typed, new_p_typed.
Qed.

Lemma tf_add_paragraph_typed tf : tf_typed tf = true -> tf_typed (tf_add_paragraph tf).2 = true.
Proof. unfold tf_typed. cbn. rewrite forallb_app. by intros ->. Qed.

Lemma font_set_size_typed v f f' :
  font_typed f = true -> font_set_size v f = Ok f' -> font_typed f' = true.
Proof.
  unfold font_typed, font_set_size. intros [_ Hc]%andb_prop.
  destruct v as [emu|]; [|by intros [= <-]; cbn; rewrite Hc].
  destruct ((100 <=? Units.centipoints emu) && (Units.centipoints emu <=? 400000))%Z eqn:E;
    [|done]. intros [= <-]. cbn. by rewrite E, Hc.
Qed.

Lemma font_set_rgb_typed c f f' :
  font_typed f = true -> font_set_rgb c f = Ok f' -> font_typed f' = true.
Proof.
  unfold font_typed, font_set_rgb. intros [Hs _]%andb_prop.
  destruct (Color.hex_color_ok _) eqn:E; [|done]. intros [= <-]. cbn. by rewrite Hs, E.
Qed.

(** A font update that keeps fonts typed keeps the paragraph typed. *)
Lemma para_update_font_typed g q q' :
  (forall f f', font_typed f = true -> g f = Ok f' -> font_typed f' = true) ->
  para_typed q = true -> para_update_font g q = Ok q' -> para_typed q' = true.
Proof.
  intros Hg. unfold para_typed, para_update_font, mbind, result_bind, with_font.
  intros [[[Hc Hf]%andb_prop Hsb]%andb_prop Hl]%andb_prop.
  destruct (g (p_font q)) as [f'|] eqn:E; [|done]. intros [= <-]. cbn.
  by rewrite Hc, (Hg _ _ Hf E), Hsb, Hl.
Qed.

Lemma para_set_space_before_typed v q q' :
  para_typed q = true -> para_set_space_before v q = Ok q' -> para_typed q' = true.
Proof.
  unfold para_typed, para_set_space_before. intros [[Hcf _]%andb_prop Hl]%andb_prop.
  destruct v as [emu|]; [|intros [= <-]; cbn; by rewrite Hcf, Hl].
  destruct ((0 <=? emu) && (emu <=? 20116800))%Z eqn:E; [|done]. intros [= <-]. cbn. rewrite Hcf, Hl, andb_true_r.
  apply andb_prop in E as [E1 E2]. apply Z.leb_le in E1, E2.
  unfold Units.centipoints, Units.EMUS_PER_CENTIPOINT.
  repeat match goal with |- context [(?a <=? ?b)%Z] => rewrite (proj2 (Z.leb_le a b)) by zlia end.
  done.
Qed.

Lemma para_set_level_typed n q q' :
  para_typed q = true -> para_set_level n q = Ok q' -> para_typed q' = true.
Proof.
  unfold para_typed, para_set_level. intros [Hq _]%andb_prop.
  destruct ((0 <=? n) && (n <=? 8))%Z eqn:E; [|done]. intros [= <-]. cbn. by rewrite Hq, E.
Qed.

Lemma para_set_alignment_typed a q :
  para_typed q = true -> para_typed (para_set_alignment a q) = true.
Proof. done. Qed.

End Text.
