(* ===== verification/Presentation.v ===== *)
(** * The presentation and its slides and shapes: [pptx.presentation],
      [pptx.slide], [pptx.shapes.shapetree]

    The state of the whole program is one [Presentation].  It records
    the slide size ([p:sldSz]), the slide layouts of the template, and
    the slides in [p:sldIdLst] order.  Each slide has its slide id, the
    index of its layout, and its shape tree.  A shape has its [cNvPr]
    id and name, its position and extent ([a:xfrm], absent when it is
    inherited from the layout), and its text body.

    The Python proxies the script holds ([slide], [title_box],
    [title_frame], [title_p], ...) are references: a slide by its
    position, a shape by slide and position, and a paragraph by shape
    and position.  Every write through a proxy is an update of the one
    presentation, threaded by the state monad [PyM].

    Operations: [Presentation()] ([Presentation_new], the default
    template), the [slide_width] and [slide_height] setters,
    [slide_layouts[i]], [slides.add_slide] (the slide id from
    [CT_SlideIdList._next_id], and the layout placeholders cloned),
    [shapes.add_textbox] (the shape id from [_next_shape_id], the name
    ["TextBox %d" % (id - 1)]), and access to the text frame and to its
    paragraphs. *)

From S2P Require Import Prelude Units Color Text.

Module Presentation.

(** ** Data *)

(** A placeholder of a layout that [add_slide] clones: the base name
    [_next_ph_name] gives it, and whether its type has a text body. *)
Record PhSpec := mkPh { ph_basename : string; ph_has_text : bool }.

(** A slide layout: its name and its cloneable placeholders (date, footer
    and slide-number placeholders are never cloned). *)
Record SlideLayout := mkLayout { lay_name : string; lay_placeholders : list PhSpec }.

Record Shape := mkShape {
  sp_id : Z;
  sp_name : string;
  sp_xfrm : option (Z * Z * Z * Z);
  sp_tf : option Text.TextFrame
}.

Record Slide := mkSlide { sl_id : Z; sl_layout : nat; sl_shapes : list Shape }.

Record Presentation := mkPres {
  prs_slide_width : Z;
  prs_slide_height : Z;
  prs_layouts : list SlideLayout;
  prs_slides : list Slide
}.

Abbreviation PyM := (ST Presentation).

(** A shape proxy: the slide's position and the shape's position in its tree. *)
Record ShapeRef := mkShapeRef { ref_slide : nat; ref_shape : nat }.

(** A paragraph proxy: its text frame's shape and its position. *)
Record ParaRef := mkParaRef { pref_shape : ShapeRef; pref_para : nat }.

Definition with_slides (p : Presentation) (sls : list Slide) : Presentation :=
  mkPres (prs_slide_width p) (prs_slide_height p) (prs_layouts p) sls.

Definition with_shapes (sl : Slide) (shs : list Shape) : Slide :=
  mkSlide (sl_id sl) (sl_layout sl) shs.

Definition with_tf (sh : Shape) (tf : Text.TextFrame) : Shape :=
  mkShape (sp_id sh) (sp_name sh) (sp_xfrm sh) (Some tf).

(** ** The default template *)

Definition ph (n : string) (t : bool) : PhSpec := mkPh n t.

(** The eleven layouts of python-pptx's default template, in order. *)
Definition default_layouts : list SlideLayout := [
  mkLayout "Title Slide" [ph "Title" true; ph "Subtitle" true];
  mkLayout "Title and Content" [ph "Title" true; ph "Content Placeholder" true];
  mkLayout "Section Header" [ph "Title" true; ph "Text Placeholder" true];
  mkLayout "Two Content"
    [ph "Title" true; ph "Content Placeholder" true; ph "Content Placeholder" true];
  mkLayout "Comparison"
    [ph "Title" true; ph "Text Placeholder" true; ph "Content Placeholder" true;
     ph "Text Placeholder" true; ph "Content Placeholder" true];
  mkLayout "Title Only" [ph "Title" true];
  mkLayout "Blank" [];
  mkLayout "Content with Caption"
    [ph "Title" true; ph "Content Placeholder" true; ph "Text Placeholder" true];
  mkLayout "Picture with Caption"
    [ph "Title" true; ph "Picture Placeholder" false; ph "Text Placeholder" true];
  mkLayout "Title and Vertical Text" [ph "Title" true; ph "Vertical Text Placeholder" true];
  mkLayout "Vertical Title and Text"
    [ph "Vertical Title" true; ph "Vertical Text Placeholder" true]]%string.

(** [Presentation()]: the default template, a 4:3 slide of
    9144000 x 6858000 EMU and no slide. *)
Definition Presentation_new : Presentation := mkPres 9144000 6858000 default_layouts [].

(** ** Slide size *)

(** [ST_SlideSizeCoordinate]: 914400 to 51206400 EMU. *)
Definition slide_size_ok (v : Z) : bool := ((914400 <=? v) && (v <=? 51206400))%Z.

(** [prs.slide_width = v]: [sldSz.cx = v]. *)
Definition set_slide_width (v : Z) : PyM unit :=
  update (fun p =>
    if slide_size_ok v
    then Ok (mkPres v (prs_slide_height p) (prs_layouts p) (prs_slides p))
    else Err ValueError).

(** [prs.slide_height = v]: [sldSz.cy = v]. *)
Definition set_slide_height (v : Z) : PyM unit :=
  update (fun p =>
    if slide_size_ok v
    then Ok (mkPres (prs_slide_width p) v (prs_layouts p) (prs_slides p))
    else Err ValueError).

(** [prs.slide_layouts[i]]: the layout's position, or [IndexError]. *)
Definition slide_layouts (i : Z) : PyM nat :=
  n ← gets (fun p => length (prs_layouts p)); lift (py_index n i).

(** ** Slide ids: [CT_SlideIdList._next_id] *)

Definition MIN_SLIDE_ID : Z := 256.
Definition MAX_SLIDE_ID : Z := 2147483647.

(** The first candidate, counting from [cand], that differs from the
    sorted used id at the same position. *)
Fixpoint first_unused (cand : Z) (sorted : list Z) : option Z :=
  match sorted with
  | [] => None
  | u :: us => if bool_decide (cand = u) then first_unused (cand + 1)%Z us else Some cand
  end.

(** One more than the largest id in use when that is at most
    [MAX_SLIDE_ID]; otherwise, when no valid id is in use, [256]; and
    otherwise the first gap in the sorted valid ids, with
    [StopIteration] from [next()] when there is none. *)
Definition next_slide_id (used : list Z) : Result Z :=
  let simple_next := (max_list (MIN_SLIDE_ID - 1) used + 1)%Z in
  if (simple_next <=? MAX_SLIDE_ID)%Z then Ok simple_next
  else
    let valid := merge_sort Z.le
                   (filter (fun u => MIN_SLIDE_ID <= u <= MAX_SLIDE_ID)%Z used) in
    match valid with
    | [] => Ok MIN_SLIDE_ID
    | _ :: _ =>
        match first_unused MIN_SLIDE_ID valid with
        | Some c => Ok c
        | None => Err StopIteration
        end
    end.

(** ** Shape ids and new shapes *)

(** [_next_shape_id]: one more than the largest [@id] of the slide,
    counting the shape tree's own [id="1"]. *)
Definition next_shape_id (sl : Slide) : Z := (max_list 1 (map sp_id (sl_shapes sl)) + 1)%Z.

(** [CT_TextBody.new()]: [<a:bodyPr/><a:lstStyle/><a:p/>]. *)
Definition new_txbody : Text.TextFrame := Text.mkTF None None [Text.new_p].

(** [clone_placeholder]: a placeholder shape with the next id, named
    ["%s %d" % (basename, id - 1)] (ids are fresh, so the name is), no
    own [a:xfrm], and a text body for the text placeholder types. *)
Definition clone_placeholder (sl : Slide) (phs : PhSpec) : Slide :=
  let id := next_shape_id sl in
  with_shapes sl (sl_shapes sl ++
    [mkShape id (String.append (ph_basename phs) (String.append " " (pretty (id - 1)%Z)))
       None (if ph_has_text phs then Some new_txbody else None)]).

(** [slides.add_slide(layout)]: a new slide part on the layout, its
    cloneable placeholders cloned, and a [p:sldId] with the next slide
    id appended.  The result is the new slide's position.  python-pptx
    creates and relates the slide part before [_next_id] runs, so when
    [_next_id] raises, python-pptx's package keeps a related slide part
    that no [p:sldId] lists; the model raises before any change.  The
    two differ only by that part, which a program that goes on to save
    would write; the script stops on the exception. *)
Definition add_slide (layout : nat) : PyM nat :=
  p ← gets id;
  match prs_layouts p !! layout with
  | None => raise IndexError
  | Some lay =>
      sid ← lift (next_slide_id (map sl_id (prs_slides p)));
      let sl := foldl clone_placeholder (mkSlide sid layout []) (lay_placeholders lay) in
      put (with_slides p (prs_slides p ++ [sl]));;
      mret (length (prs_slides p))
  end.

(** The shape [CT_Shape.new_textbox_sp] builds. *)
Definition new_textbox (id x y cx cy : Z) : Shape :=
  mkShape id (String.append "TextBox " (pretty (id - 1)%Z)) (Some (x, y, cx, cy))
    (Some Text.new_textbox_tf).

(** [slide.shapes.add_textbox(left, top, width, height)]. *)
Definition add_textbox (sr : nat) (left top width height : Z) : PyM ShapeRef :=
  fun p =>
    match prs_slides p !! sr with
    | None => Err IndexError
    | Some sl =>
        let sh := new_textbox (next_shape_id sl) left top width height in
        Ok (mkShapeRef sr (length (sl_shapes sl)),
            with_slides p (<[sr := with_shapes sl (sl_shapes sl ++ [sh])]> (prs_slides p)))
    end.

(** ** Access through proxies *)

(** A write to the slide at position [sr]. *)
Definition modify_slide (sr : nat) (f : Slide -> Result Slide) : PyM unit :=
  update (fun p => sls ← update_at sr f (prs_slides p); Ok (with_slides p sls)).

(** A write to the shape a proxy designates. *)
Definition modify_shape (r : ShapeRef) (f : Shape -> Result Shape) : PyM unit :=
  modify_slide (ref_slide r)
    (fun sl => shs ← update_at (ref_shape r) f (sl_shapes sl); Ok (with_shapes sl shs)).

(** [shape.text_frame]: [AttributeError] on a shape with no text body. *)
Definition shape_update_tf (g : Text.TextFrame -> Result Text.TextFrame) (sh : Shape)
    : Result Shape :=
  match sp_tf sh with
  | Some tf => tf' ← g tf; Ok (with_tf sh tf')
  | None => Err AttributeError
  end.

(** A write to the text frame of a shape. *)
Definition modify_tf (r : ShapeRef) (g : Text.TextFrame -> Result Text.TextFrame) : PyM unit :=
  modify_shape r (shape_update_tf g).

(** The shape a proxy designates, or [IndexError]. *)
Definition lookup_shape (p : Presentation) (r : ShapeRef) : option Shape :=
  sl ← prs_slides p !! ref_slide r; sl_shapes sl !! ref_shape r.

(** The presentation after a write that replaces the text frame of the
    shape [r] designates by [tf]. *)
Definition put_tf (p : Presentation) (r : ShapeRef) (tf : Text.TextFrame) : Presentation :=
  with_slides p (alter (fun sl => with_shapes sl
                          (alter (fun sh => with_tf sh tf) (ref_shape r) (sl_shapes sl)))
                       (ref_slide r) (prs_slides p)).

(** [shape.text_frame] (read). *)
Definition get_tf (r : ShapeRef) : PyM Text.TextFrame :=
  fun p =>
    match lookup_shape p r with
    | Some sh => match sp_tf sh with Some tf => Ok (tf, p) | None => Err AttributeError end
    | None => Err IndexError
    end.

(** [text_frame.text = s]. *)
Definition set_text (r : ShapeRef) (s : string) : PyM unit :=
  modify_tf r (fun tf => Ok (Text.tf_set_text tf s)).

(** [text_frame.word_wrap = v]. *)
Definition set_word_wrap (r : ShapeRef) (v : option bool) : PyM unit :=
  modify_tf r (fun tf => Ok (Text.tf_set_word_wrap v tf)).

(** [text_frame.paragraphs[i]]: a proxy for the paragraph, or [IndexError]. *)
Definition paragraph (r : ShapeRef) (i : Z) : PyM ParaRef :=
  tf ← get_tf r;
  j ← lift (py_index (length (Text.tf_paras tf)) i);
  mret (mkParaRef r j).

(** [text_frame.add_paragraph()]: a proxy for the new last paragraph. *)
Definition add_paragraph (r : ShapeRef) : PyM ParaRef :=
  tf ← get_tf r;
  modify_tf r (fun tf => Ok (snd (Text.tf_add_paragraph tf)));;
  mret (mkParaRef r (fst (Text.tf_add_paragraph tf))).

(** A write to the paragraph a proxy designates. *)
Definition modify_para (pr : ParaRef) (f : Text.Paragraph -> Result Text.Paragraph) : PyM unit :=
  modify_tf (pref_shape pr)
    (fun tf => ps ← update_at (pref_para pr) f (Text.tf_paras tf); Ok (Text.with_paras tf ps)).

(** [p.text = s]. *)
Definition para_set_text (pr : ParaRef) (s : string) : PyM unit :=
  modify_para pr (fun q => Ok (Text.para_set_text q s)).

(** [p.font.size = v]. *)
Definition font_size (pr : ParaRef) (v : Z) : PyM unit :=
  modify_para pr (Text.para_update_font (Text.font_set_size (Some v))).

(** [p.font.bold = b]. *)
Definition font_bold (pr : ParaRef) (b : bool) : PyM unit :=
  modify_para pr (Text.para_update_font (fun f => Ok (Text.font_set_bold (Some b) f))).

(** [p.font.color.rgb = c]. *)
Definition font_color_rgb (pr : ParaRef) (c : Color.RGB) : PyM unit :=
  modify_para pr (Text.para_update_font (Text.font_set_rgb c)).

(** [p.alignment = a]. *)
Definition alignment (pr : ParaRef) (a : Text.Align) : PyM unit :=
  modify_para pr (fun q => Ok (Text.para_set_alignment (Some a) q)).

(** [p.space_before = v]. *)
Definition space_before (pr : ParaRef) (v : Z) : PyM unit :=
  modify_para pr (Text.para_set_space_before (Some v)).

(** [p.level = n]. *)
Definition level (pr : ParaRef) (n : Z) : PyM unit :=
  modify_para pr (Text.para_set_level n).

(** ** Operations on the newest slide

    After [add_slide], the script writes only to the slide it has just
    added, which is the last one.  These equations evaluate each
    operation there, whatever the earlier slides are. *)
Section LastSlide.
Context (p : Presentation) (l : list Slide).

Lemma modify_slide_last sl f :
  modify_slide (length l) f (with_slides p (l ++ [sl])) =
  match f sl with Ok sl' => Ok (tt, with_slides p (l ++ [sl'])) | Err e => Err e end.
Proof. unfold modify_slide, update. cbn. rewrite update_at_last. by destruct (f sl). Qed.

Lemma add_textbox_last sl x y cx cy :
  add_textbox (length l) x y cx cy (with_slides p (l ++ [sl])) =
  Ok (mkShapeRef (length l) (length (sl_shapes sl)),
      with_slides p (l ++ [with_shapes sl (sl_shapes sl ++
                            [new_textbox (next_shape_id sl) x y cx cy])])).
Proof. unfold add_textbox. cbn. by rewrite lookup_last, insert_last. Qed.

Lemma get_tf_last sl i :
  get_tf (mkShapeRef (length l) i) (with_slides p (l ++ [sl])) =
  match sl_shapes sl !! i with
  | Some sh => match sp_tf sh with
               | Some tf => Ok (tf, with_slides p (l ++ [sl]))
               | None => Err AttributeError end
  | None => Err IndexError
  end.
Proof. unfold get_tf, lookup_shape. cbn. by rewrite lookup_last. Qed.

Context (sl : Slide) (i : nat) (sh : Shape) (tf : Text.TextFrame).
Hypothesis (Hsh : sl_shapes sl !! i = Some sh) (Htf : sp_tf sh = Some tf).

Lemma get_tf_last_ok :
  get_tf (mkShapeRef (length l) i) (with_slides p (l ++ [sl])) =
  Ok (tf, with_slides p (l ++ [sl])).
Proof. by rewrite get_tf_last, Hsh, Htf. Qed.

Lemma modify_tf_last g tf' :
  g tf = Ok tf' ->
  modify_tf (mkShapeRef (length l) i) g (with_slides p (l ++ [sl])) =
  Ok (tt, with_slides p (l ++ [with_shapes sl (<[i := with_tf sh tf']> (sl_shapes sl))])).
Proof.
  intros Hg. unfold modify_tf, modify_shape. cbn [ref_slide ref_shape].
  rewrite modify_slide_last. unfold update_at at 1. rewrite Hsh. cbn.
  unfold shape_update_tf. rewrite Htf, Hg. done.
Qed.

Lemma modify_para_last j q f q' :
  Text.tf_paras tf !! j = Some q -> f q = Ok q' ->
  modify_para (mkParaRef (mkShapeRef (length l) i) j) f (with_slides p (l ++ [sl])) =
  Ok (tt, with_slides p (l ++ [with_shapes sl (<[i := with_tf sh
        (Text.with_paras tf (<[j := q']> (Text.tf_paras tf)))]> (sl_shapes sl))])).
Proof.
  intros Hq Hf. unfold modify_para. cbn [pref_shape pref_para].
  apply modify_tf_last. unfold update_at. by rewrite Hq, Hf.
Qed.

Lemma paragraph_last_ok k :
  (k < length (Text.tf_paras tf))%nat ->
  paragraph (mkShapeRef (length l) i) (Z.of_nat k) (with_slides p (l ++ [sl])) =
  Ok (mkParaRef (mkShapeRef (length l) i) k, with_slides p (l ++ [sl])).
Proof.
  intros Hk. unfold paragraph. rewrite (bind_ok _ _ _ _ _ get_tf_last_ok). cbv beta.
  rewrite (bind_ok _ _ _ k (with_slides p (l ++ [sl]))); [done|].
  unfold lift. by rewrite py_index_nat.
Qed.

Lemma paragraph0_last_ok :
  (0 < length (Text.tf_paras tf))%nat ->
  paragraph (mkShapeRef (length l) i) 0 (with_slides p (l ++ [sl])) =
  Ok (mkParaRef (mkShapeRef (length l) i) 0, with_slides p (l ++ [sl])).
Proof. apply (paragraph_last_ok 0). Qed.

Lemma add_paragraph_last :
  add_paragraph (mkShapeRef (length l) i) (with_slides p (l ++ [sl])) =
  Ok (mkParaRef (mkShapeRef (length l) i) (length (Text.tf_paras tf)),
      with_slides p (l ++ [with_shapes sl (<[i := with_tf sh
        (Text.with_paras tf (Text.tf_paras tf ++ [Text.new_p]))]> (sl_shapes sl))])).
Proof.
  unfold add_paragraph. rewrite (bind_ok _ _ _ _ _ get_tf_last_ok). cbv beta.
  rewrite (bind_ok _ _ _ _ _ (modify_tf_last (fun tf => Ok (snd (Text.tf_add_paragraph tf)))
             (Text.with_paras tf (Text.tf_paras tf ++ [Text.new_p])) eq_refl)).
  done.
Qed.
End LastSlide.

(** ** Writes through a proxy to any shape

    The same operations on any shape with a text frame, wherever it is:
    a write replaces that shape's text frame and nothing else. *)

Lemma put_tf_put_tf p r tf1 tf2 : put_tf (put_tf p r tf1) r tf2 = put_tf p r tf2.
Proof.
  unfold put_tf, with_slides. cbn [prs_slides prs_slide_width prs_slide_height prs_layouts].
  f_equal. rewrite list_alter_alter_eq. apply list_alter_ext; [|done]. intros sl _.
  unfold with_shapes, compose. cbn [sl_id sl_layout sl_shapes]. f_equal.
  rewrite list_alter_alter_eq. by apply list_alter_ext.
Qed.

Section AnyShape.
Context (p : Presentation) (r : ShapeRef) (sh : Shape) (tf : Text.TextFrame).
Hypothesis (Hsh : lookup_shape p r = Some sh) (Htf : sp_tf sh = Some tf).

Lemma lookup_shape_Some :
  exists sl, prs_slides p !! ref_slide r = Some sl /\ sl_shapes sl !! ref_shape r = Some sh.
Proof.
  unfold lookup_shape in Hsh. destruct (prs_slides p !! ref_slide r) as [sl|]; [|done].
  by exists sl.
Qed.

Lemma lookup_put_tf tf' : lookup_shape (put_tf p r tf') r = Some (with_tf sh tf').
Proof.
  destruct lookup_shape_Some as (sl & Esl & Esh). unfold lookup_shape, put_tf, with_slides.
  cbn [prs_slides]. rewrite list_lookup_alter_eq, Esl. cbn. by rewrite list_lookup_alter_eq, Esh.
Qed.

Lemma put_tf_same : put_tf p r tf = p.
Proof.
  destruct lookup_shape_Some as (sl & Esl & Esh). unfold put_tf.
  rewrite (alter_id_at _ _ _ sl Esl); [by destruct p|].
  rewrite (alter_id_at _ _ _ sh Esh); [by destruct sl|].
  destruct sh. cbn in Htf. by subst.
Qed.

Lemma get_tf_at : get_tf r p = Ok (tf, p).
Proof. unfold get_tf. by rewrite Hsh, Htf. Qed.

Lemma modify_tf_at g tf' : g tf = Ok tf' -> modify_tf r g p = Ok (tt, put_tf p r tf').
Proof.
  intros Hg. destruct lookup_shape_Some as (sl & Esl & Esh).
  unfold modify_tf, modify_shape, modify_slide, update, put_tf.
  erewrite (update_at_alter _ _ _ _ sl Esl); [done|]. unfold mbind, result_bind.
  erewrite (update_at_alter _ _ _ _ sh Esh); [done|].
  unfold shape_update_tf. by rewrite Htf, Hg.
Qed.

Lemma add_paragraph_at :
  add_paragraph r p =
  Ok (mkParaRef r (length (Text.tf_paras tf)),
      put_tf p r (Text.with_paras tf (Text.tf_paras tf ++ [Text.new_p]))).
Proof.
  unfold add_paragraph. rewrite (bind_ok _ _ _ _ _ get_tf_at). cbv beta.
  by rewrite (bind_ok _ _ _ _ _
    (modify_tf_at (fun tf => Ok (snd (Text.tf_add_paragraph tf))) _ eq_refl)).
Qed.

End AnyShape.

(** A write to the last paragraph of the frame after earlier writes. *)
Lemma modify_last_para_at p r sh tf ps q f q' :
  lookup_shape p r = Some sh -> sp_tf sh = Some tf -> f q = Ok q' ->
  modify_para (mkParaRef r (length ps)) f (put_tf p r (Text.with_paras tf (ps ++ [q]))) =
  Ok (tt, put_tf p r (Text.with_paras tf (ps ++ [q']))).
Proof.
  intros Hsh Htf Hf. unfold modify_para. cbn [pref_shape pref_para].
  rewrite (modify_tf_at (put_tf p r _) r (with_tf sh _) _ (lookup_put_tf p r sh Hsh _) eq_refl _
             (Text.with_paras (Text.with_paras tf (ps ++ [q])) (ps ++ [q']))).
  - by rewrite put_tf_put_tf.
  - unfold update_at. cbn [Text.tf_paras Text.with_paras]. rewrite lookup_last, Hf.
    by rewrite insert_last.
Qed.

(** ** Adding a slide on a layout without placeholders *)

Lemma slide_layouts_nat p (i : nat) :
  (i < length (prs_layouts p))%nat -> slide_layouts (Z.of_nat i) p = Ok (i, p).
Proof. intros Hi. unfold slide_layouts, mbind, st_bind, gets, lift. by rewrite py_index_nat. Qed.

Lemma add_slide_empty_layout p i lay sid :
  prs_layouts p !! i = Some lay -> lay_placeholders lay = [] ->
  next_slide_id (map sl_id (prs_slides p)) = Ok sid ->
  add_slide i p = Ok (length (prs_slides p), with_slides p (prs_slides p ++ [mkSlide sid i []])).
Proof.
  intros H1 H2 H3. unfold add_slide.
  rewrite (bind_ok _ _ p p p eq_refl). cbv beta. rewrite H1.
  rewrite (bind_ok _ _ p sid p); [|unfold lift; by rewrite H3]. cbv beta.
  by rewrite H2.
Qed.

(** ** When the fallback search for a slide id stops *)

Lemma first_unused_seqZ m k : first_unused m (seqZ m (Z.of_nat k)) = None.
Proof.
  revert m. induction k as [|k IH]; intros m; [done|].
  rewrite seqZ_cons by lia. cbn [first_unused]. rewrite bool_decide_eq_true_2 by done.
  replace (Z.pred (Z.of_nat (S k))) with (Z.of_nat k) by lia. rewrite <- Z.add_1_r. apply IH.
Qed.

Lemma seqZ_sorted m k : Sorted Z.le (seqZ m (Z.of_nat k)).
Proof.
  revert m. induction k as [|k IH]; intros m; [constructor|].
  rewrite seqZ_cons by lia. replace (Z.pred (Z.of_nat (S k))) with (Z.of_nat k) by lia.
  constructor; [apply IH|]. destruct k as [|k]; [constructor|].
  rewrite seqZ_cons by lia. constructor. lia.
Qed.

Lemma filter_Forall_id {A} (P : A -> Prop) `{!forall x, Decision (P x)} l :
  Forall P l -> filter P l = l.
Proof. induction 1 as [|x l Hx _ IH]; [done|]. rewrite filter_cons_True by done. by f_equal. Qed.

(** python-pptx's fallback search zips [range(256, 2147483647)] with
    the sorted valid ids and stops when the ids run out: when an id
    above [MAX_SLIDE_ID] is in use and the valid ids are
    [256 .. 256 + k - 1] without a gap, with [k > 0], [_next_id] raises
    [StopIteration] although [256 + k] is free.  (With no valid id it
    returns [256].) *)
Lemma next_slide_id_stops k big :
  (0 < k)%nat -> (MAX_SLIDE_ID < big)%Z -> (Z.of_nat k <= MAX_SLIDE_ID - MIN_SLIDE_ID)%Z ->
  next_slide_id (seqZ MIN_SLIDE_ID (Z.of_nat k) ++ [big]) = Err StopIteration.
Proof.
  intros Hk0 Hbig Hk. unfold next_slide_id.
  pose proof (max_list_ge (MIN_SLIDE_ID - 1) (seqZ MIN_SLIDE_ID (Z.of_nat k) ++ [big])) as Hmax.
  rewrite Forall_cons, Forall_app, Forall_singleton in Hmax.
  rewrite (proj2 (Z.leb_gt _ _)) by lia.
  rewrite filter_app, filter_Forall_id, filter_cons_False, filter_nil, app_nil_r.
  - assert (Hs : merge_sort Z.le (seqZ MIN_SLIDE_ID (Z.of_nat k)) = seqZ MIN_SLIDE_ID (Z.of_nat k)).
    { apply (Sorted_unique Z.le); [apply (Sorted_merge_sort Z.le)|apply seqZ_sorted|].
      apply merge_sort_Permutation. }
    rewrite Hs. destruct (seqZ MIN_SLIDE_ID (Z.of_nat k)) as [|u us] eqn:E.
    + apply (f_equal length) in E. rewrite length_seqZ in E. cbn in E. lia.
    + by rewrite <- E, first_unused_seqZ.
  - intros [_ Hle]. unfold MIN_SLIDE_ID, MAX_SLIDE_ID in *. lia.
  - apply Forall_forall. intros x Hx. apply elem_of_seqZ in Hx. unfold MIN_SLIDE_ID, MAX_SLIDE_ID in *. lia.
Qed.

Lemma add_slide_err p i lay e :
  prs_layouts p !! i = Some lay -> next_slide_id (map sl_id (prs_slides p)) = Err e ->
  add_slide i p = Err e.
Proof.
  intros H1 H2. unfold add_slide.
  rewrite (bind_ok _ _ p p p eq_refl). cbv beta. rewrite H1.
  apply bind_err. unfold lift. by rewrite H2.
Qed.

(** ** Automation: running the script's statements on the newest slide

    [norm_state] puts the presentation back into the form
    [with_slides p (l ++ [mkSlide ...])].  [st_step] runs the first
    statement of the goal [(x ← m; k) s = r] with the equation of [m]
    on the newest slide. *)
Ltac norm_state :=
  try unfold with_shapes, with_tf, Text.with_paras, new_textbox, Text.tf_set_word_wrap;
  cbn [sl_shapes sl_id sl_layout sp_tf sp_id sp_name sp_xfrm
       Text.tf_paras Text.tf_wrap Text.tf_auto_size insert list_insert app length
       ref_slide ref_shape pref_shape pref_para];
  rewrite ?insert_last.

Ltac st_step :=
  rewrite ?bind_assoc;
  first
  [ erewrite bind_ok; [ | apply lift_eval; cbv; reflexivity]
  | erewrite bind_ok; [ | apply add_textbox_last]
  | erewrite bind_ok; [ | eapply add_paragraph_last; reflexivity]
  | erewrite bind_ok;
      [ | eapply paragraph0_last_ok;
          [reflexivity|reflexivity|first [apply Text.tf_set_text_paras_ne | cbn; lia]]]
  | erewrite bind_ok;
      [ | eapply modify_para_last;
          [reflexivity|reflexivity|cbn [Text.tf_paras]; first [apply lookup_last|reflexivity]
          |reflexivity]]
  | erewrite bind_ok; [ | eapply modify_tf_last; [reflexivity|reflexivity|reflexivity]]
  | erewrite bind_ok; [ | reflexivity] ];
  cbv beta; norm_state.

End Presentation.
