(* ===== verification/Inv.v ===== *)
(** * Invariants of a presentation: the interface between the library
      model and the script

    [keeps I m] says that a run of [m] from a presentation satisfying
    [I] that does not raise ends in one satisfying [I]: a unary program
    logic on the state-and-exception monad, with a rule for [≫=], a rule
    for the computations that only read, and a rule for conjunction.

    [PrsInvariant I] is what an invariant promises to a client: it holds
    of [Presentation()] and every state-changing operation of the
    modelled python-pptx API keeps it.  A client (the script, in
    [Generate]) proves once, against this class, that it keeps every such
    invariant; each invariant ([Wf.prs_wf], [Typed.prs_typed]) discharges
    the class in its own file.

    The step relation [reachable] collects the presentations a Python
    program builds by API calls from [Presentation()];
    [reachable_inv] shows that all of them satisfy every invariant of the
    class. *)

From S2P Require Import Prelude Color Text Presentation.

Module Inv.
Import Presentation.

(** A run of [m] from a state satisfying [I] ends in one. *)
Definition keeps (I : Presentation -> Prop) {A} (m : PyM A) : Prop :=
  forall p a p', I p -> m p = Ok (a, p') -> I p'.

(** What an invariant of the presentation promises: it holds initially
    and every operation with a state change keeps it. *)
Class PrsInvariant (I : Presentation -> Prop) : Prop := {
  inv_new : I Presentation_new;
  inv_set_slide_width : forall v, keeps I (set_slide_width v);
  inv_set_slide_height : forall v, keeps I (set_slide_height v);
  inv_add_slide : forall l, keeps I (add_slide l);
  inv_add_textbox : forall sr x y cx cy, keeps I (add_textbox sr x y cx cy);
  inv_set_text : forall r s, keeps I (set_text r s);
  inv_set_word_wrap : forall r v, keeps I (set_word_wrap r v);
  inv_add_paragraph : forall r, keeps I (add_paragraph r);
  inv_para_set_text : forall pr s, keeps I (para_set_text pr s);
  inv_font_size : forall pr v, keeps I (font_size pr v);
  inv_font_bold : forall pr b, keeps I (font_bold pr b);
  inv_font_color_rgb : forall pr c, keeps I (font_color_rgb pr c);
  inv_alignment : forall pr a, keeps I (alignment pr a);
  inv_space_before : forall pr v, keeps I (space_before pr v);
  inv_level : forall pr n, keeps I (level pr n)
}.

(** ** The python-pptx API as a step relation

    One constructor per operation with a state change that a program
    reaches through a presentation, its slides and its shapes. *)
Inductive api_call :=
  | CSetSlideWidth (v : Z)
  | CSetSlideHeight (v : Z)
  | CAddSlide (layout : nat)
  | CAddTextbox (sr : nat) (left top width height : Z)
  | CSetText (r : ShapeRef) (s : string)
  | CSetWordWrap (r : ShapeRef) (v : option bool)
  | CAddParagraph (r : ShapeRef)
  | CParaSetText (pr : ParaRef) (s : string)
  | CFontSize (pr : ParaRef) (v : Z)
  | CFontBold (pr : ParaRef) (b : bool)
  | CFontColor (pr : ParaRef) (c : Color.RGB)
  | CAlignment (pr : ParaRef) (a : Text.Align)
  | CSpaceBefore (pr : ParaRef) (v : Z)
  | CLevel (pr : ParaRef) (n : Z).

Definition run_call (c : api_call) : PyM unit :=
  match c with
  | CSetSlideWidth v => set_slide_width v
  | CSetSlideHeight v => set_slide_height v
  | CAddSlide l => add_slide l;; mret tt
  | CAddTextbox sr x y cx cy => add_textbox sr x y cx cy;; mret tt
  | CSetText r s => set_text r s
  | CSetWordWrap r v => set_word_wrap r v
  | CAddParagraph r => add_paragraph r;; mret tt
  | CParaSetText pr s => para_set_text pr s
  | CFontSize pr v => font_size pr v
  | CFontBold pr b => font_bold pr b
  | CFontColor pr c => font_color_rgb pr c
  | CAlignment pr a => alignment pr a
  | CSpaceBefore pr v => space_before pr v
  | CLevel pr n => level pr n
  end.

(** The presentations a program builds from [Presentation()]. *)
Inductive reachable : Presentation -> Prop :=
  | reach_new : reachable Presentation_new
  | reach_step p c p' : reachable p -> run_call c p = Ok (tt, p') -> reachable p'.

(** ** Rules of [keeps] *)

Section Rules.
Context (I : Presentation -> Prop).

Lemma keeps_bind {A B} (m : PyM A) (f : A -> PyM B) :
  keeps I m -> (forall a, keeps I (f a)) -> keeps I (m ≫= f).
Proof.
  intros Hm Hf p b p'' Hp. unfold mbind, st_bind.
  destruct (m p) as [[a p']|] eqn:E; [|done]. intros H. exact (Hf a _ _ _ (Hm _ _ _ Hp E) H).
Qed.

(** A computation that does not change the state keeps every invariant. *)
Lemma keeps_pure {A} (m : PyM A) :
  (forall p a p', m p = Ok (a, p') -> p' = p) -> keeps I m.
Proof. intros Hm p a p' Hp E. by rewrite (Hm _ _ _ E). Qed.

Lemma keeps_lift {A} (r : Result A) : keeps I (lift r).
Proof. apply keeps_pure. intros p a p'. destruct r; [|done]. by intros [= _ <-]. Qed.

Lemma keeps_mret {A} (a : A) : keeps I (mret a).
Proof. by apply keeps_pure; intros p b p' [= _ <-]. Qed.

Lemma keeps_gets {A} (f : Presentation -> A) : keeps I (gets f).
Proof. by apply keeps_pure; intros p b p' [= _ <-]. Qed.

Lemma keeps_get_tf r : keeps I (get_tf r).
Proof.
  apply keeps_pure. intros p tf p'. unfold get_tf.
  destruct (lookup_shape p r) as [sh|]; [|done]. destruct (sp_tf sh); [|done]. by intros [= _ <-].
Qed.

Lemma keeps_slide_layouts i : keeps I (slide_layouts i).
Proof. apply keeps_bind; [apply keeps_gets|intros; apply keeps_lift]. Qed.

Lemma keeps_paragraph r i : keeps I (paragraph r i).
Proof.
  apply keeps_bind; [apply keeps_get_tf|]. intros tf.
  apply keeps_bind; [apply keeps_lift|intros; apply keeps_mret].
Qed.

End Rules.

(** Two invariants kept by a run: their conjunction is kept. *)
Lemma keeps_and (I J : Presentation -> Prop) {A} (m : PyM A) :
  keeps I m -> keeps J m -> keeps (fun p => I p /\ J p) m.
Proof. intros HI HJ p a p' [Hi Hj] E. split; [exact (HI _ _ _ Hi E)|exact (HJ _ _ _ Hj E)]. Qed.

#[export] Hint Resolve keeps_lift keeps_mret keeps_gets keeps_get_tf keeps_slide_layouts
  keeps_paragraph : pptx.
#[export] Hint Resolve inv_set_slide_width inv_set_slide_height inv_add_slide inv_add_textbox
  inv_set_text inv_set_word_wrap inv_add_paragraph inv_para_set_text inv_font_size
  inv_font_bold inv_font_color_rgb inv_alignment inv_space_before inv_level : pptx.

(** Proves [keeps I m] for a program [m] built from the API by binds:
    each leaf is closed by a field of the class or a rule above. *)
Ltac keeps_run :=
  repeat first [ solve [eauto with pptx] | apply keeps_bind; [|intros ?] ].

(** The conjunction of two invariants is an invariant. *)
#[export] Instance PrsInvariant_and I J `{!PrsInvariant I} `{!PrsInvariant J} :
  PrsInvariant (fun p => I p /\ J p).
Proof.
  split; [split; apply inv_new|..];
    repeat match goal with |- keeps _ _ => fail 1 | |- _ => intro end;
    apply keeps_and; keeps_run.
Qed.

(** ** Every invariant of the class holds in every reachable state *)

Section Reachable.
Context (I : Presentation -> Prop) `{!PrsInvariant I}.

Lemma run_call_keeps c : keeps I (run_call c).
Proof. destruct c; cbn [run_call]; keeps_run. Qed.

Lemma reachable_inv p : reachable p -> I p.
Proof.
  induction 1 as [|p c p' _ IH E]; [apply inv_new|].
  exact (run_call_keeps c _ _ _ IH E).
Qed.

End Reachable.

End Inv.
