(* ===== verification/Wf.v ===== *)
(** * Well-formedness of a presentation, and its preservation

    [prs_wf] is the invariant python-pptx keeps for the parts of a
    presentation this development models:
    - the slide width and height satisfy [ST_SlideSizeCoordinate];
    - the [p:sldId/@id] values are distinct and in the range of
      [CT_SlideIdList._next_id];
    - each slide names an existing layout;
    - the shape ids of each slide are distinct and at least 2 (id 1 is
      the shape tree's own [p:nvGrpSpPr]).

    It depends only on the sizes, the number of layouts and each slide's
    [slide_key], so that writes to text frames keep it outright.  Every
    operation of [Presentation] keeps it ([Inv.keeps]), which discharges
    the interface [Inv.PrsInvariant]; so every presentation a program
    builds by API calls from [Presentation()] is well-formed. *)

From S2P Require Import Prelude Color Text Presentation Inv.

Module Wf.
Import Presentation Inv.

(** ** The invariant *)

Definition ids_ok (ids : list Z) : Prop := NoDup ids /\ Forall (fun i => 2 <= i)%Z ids.

(** The parts of a slide the invariant reads: its id, its layout and
    its shape ids. *)
Definition slide_key (sl : Slide) : Z * nat * list Z :=
  (sl_id sl, sl_layout sl, map sp_id (sl_shapes sl)).

Definition key_wf (nlayouts : nat) (k : Z * nat * list Z) : Prop :=
  (k.1.2 < nlayouts)%nat /\ ids_ok k.2.

Definition prs_wf (p : Presentation) : Prop :=
  slide_size_ok (prs_slide_width p) = true /\ slide_size_ok (prs_slide_height p) = true /\
  NoDup (map sl_id (prs_slides p)) /\
  Forall (fun i => MIN_SLIDE_ID <= i <= MAX_SLIDE_ID)%Z (map sl_id (prs_slides p)) /\
  Forall (fun sl => key_wf (length (prs_layouts p)) (slide_key sl)) (prs_slides p).

#[export] Instance prs_wf_dec p : Decision (prs_wf p).
Proof. unfold prs_wf, key_wf, ids_ok. apply _. Defined.

(** ** Fresh ids *)

Lemma ids_ok_snoc ids : ids_ok ids -> ids_ok (ids ++ [max_list 1 ids + 1]%Z).
Proof.
  intros [Hnd Hge]. pose proof (max_list_ge 1 ids) as Hmax.
  apply Forall_cons in Hmax as [H1 Hmax]. split.
  - apply NoDup_app. split; [done|]. split; [|apply NoDup_singleton].
    intros x Hx ->%list_elem_of_singleton. rewrite Forall_forall in Hmax.
    specialize (Hmax _ Hx). lia.
  - apply Forall_app. split; [done|]. constructor; [cbv beta; lia|constructor].
Qed.

Lemma sorted_nodup_lt (l : list Z) :
  StronglySorted Z.le l -> NoDup l -> StronglySorted Z.lt l.
Proof.
  induction l as [|u l IH]; intros Hs Hnd; [constructor|].
  apply StronglySorted_inv in Hs as [Hs Hle]. apply NoDup_cons in Hnd as [Hu Hnd].
  constructor; [by apply IH|]. rewrite Forall_forall in Hle |- *.
  intros x Hx. assert (x <> u) by (intros ->; contradiction). specialize (Hle x Hx). lia.
Qed.

(** The candidate [first_unused] returns is not in the list, is at
    least the first candidate, and is below some element of the list. *)
Lemma first_unused_spec cand l c :
  StronglySorted Z.lt l -> Forall (Z.le cand) l -> first_unused cand l = Some c ->
  (c ∉ l) /\ (cand <= c)%Z /\ Exists (Z.lt c) l.
Proof.
  revert cand. induction l as [|u l IH]; intros cand Hs Hge; cbn; [done|].
  apply StronglySorted_inv in Hs as [Hs Hlt]. apply Forall_cons in Hge as [Hu Hge].
  case_bool_decide as E.
  - subst u. intros Hc.
    destruct (IH (cand + 1)%Z Hs) as (Hn & Hle & Hex); [|done|].
    { eapply Forall_impl; [exact Hlt|]. cbv beta. lia. }
    split; [|split; [lia|by apply Exists_cons; right]].
    intros [->|Hin]%elem_of_cons; [lia|done].
  - intros [= <-]. assert (cand < u)%Z by lia.
    split; [|split; [lia|by apply Exists_cons; left]].
    intros [->|Hin]%elem_of_cons; [lia|].
    rewrite Forall_forall in Hlt. specialize (Hlt _ Hin). lia.
Qed.

(** [_next_id] returns an id in range that no slide uses, as long as the
    used ids are distinct (both branches). *)
Lemma next_slide_id_fresh used c :
  NoDup used -> next_slide_id used = Ok c ->
  (c ∉ used) /\ (MIN_SLIDE_ID <= c <= MAX_SLIDE_ID)%Z.
Proof.
  intros Hnd. unfold next_slide_id. pose proof (max_list_ge (MIN_SLIDE_ID - 1) used) as Hmax.
  apply Forall_cons in Hmax as [H0 Hmax]. destruct (Z.leb_spec (max_list (MIN_SLIDE_ID - 1) used + 1) MAX_SLIDE_ID) as [Hle|Hgt].
  - intros [= <-]. split; [|lia]. intros Hin. rewrite Forall_forall in Hmax.
    specialize (Hmax _ Hin). cbv beta in Hmax. lia.
  - set (valid := merge_sort Z.le (filter (fun u => MIN_SLIDE_ID <= u <= MAX_SLIDE_ID)%Z used)).
    assert (Hperm : valid ≡ₚ filter (fun u => MIN_SLIDE_ID <= u <= MAX_SLIDE_ID)%Z used)
      by apply merge_sort_Permutation.
    assert (Hin : forall x, x ∈ valid <-> (MIN_SLIDE_ID <= x <= MAX_SLIDE_ID)%Z /\ x ∈ used)
      by (intros x; by rewrite Hperm, list_elem_of_filter).
    assert (Hss : StronglySorted Z.lt valid).
    { apply sorted_nodup_lt; [apply (StronglySorted_merge_sort Z.le)|]. idtac.
      rewrite Hperm. by apply NoDup_filter. }
    clearbody valid. destruct valid as [|v vs].
    { intros [= <-]. split; [|unfold MIN_SLIDE_ID, MAX_SLIDE_ID; lia]. intros Hc.
      apply (proj1 (elem_of_nil MIN_SLIDE_ID)), Hin. split; [unfold MIN_SLIDE_ID, MAX_SLIDE_ID; lia|done]. }
    set (valid := v :: vs) in *.
    destruct (first_unused MIN_SLIDE_ID valid) as [c'|] eqn:E; [intros [= <-]|done].
    assert (Hge : Forall (Z.le MIN_SLIDE_ID) valid).
    { apply Forall_forall. intros x Hx. apply Hin in Hx. lia. }
    destruct (first_unused_spec _ _ _ Hss Hge E) as (Hn & Hlo & Hex).
    apply Exists_exists in Hex as (u & Hu & Hcu). apply Hin in Hu.
    split; [|lia]. intros Hc. apply Hn, Hin. split; [lia|done].
Qed.

(** When the scan finds no gap, every id is below [cand + length l]. *)
Lemma first_unused_none cand l :
  first_unused cand l = None -> Forall (fun x => x < cand + Z.of_nat (length l))%Z l.
Proof.
  revert cand. induction l as [|u l IH]; intros cand; cbn; [constructor|].
  case_bool_decide as E; [|done]. subst u. intros Hn.
  constructor; [lia|]. eapply Forall_impl; [exact (IH _ Hn)|]. cbv beta. lia.
Qed.

(** [_next_id] always returns an id while the used ids are distinct, in
    range, and fewer than the [MAX_SLIDE_ID - MIN_SLIDE_ID] candidates of
    its scan: when [max + 1] is out of range, [MAX_SLIDE_ID] is used, and
    the sorted ids cannot fill the whole range, so the scan finds a gap. *)
Lemma next_slide_id_total used :
  NoDup used -> Forall (fun i => MIN_SLIDE_ID <= i <= MAX_SLIDE_ID)%Z used ->
  (Z.of_nat (length used) <= MAX_SLIDE_ID - MIN_SLIDE_ID)%Z ->
  exists c, next_slide_id used = Ok c.
Proof.
  intros Hnd Hrange Hlen. unfold next_slide_id.
  destruct (Z.leb_spec (max_list (MIN_SLIDE_ID - 1) used + 1) MAX_SLIDE_ID) as [Hle|Hgt];
    [by eexists|].
  set (valid := merge_sort Z.le (filter (fun u => MIN_SLIDE_ID <= u <= MAX_SLIDE_ID)%Z used)).
  assert (Hperm : valid ≡ₚ filter (fun u => MIN_SLIDE_ID <= u <= MAX_SLIDE_ID)%Z used)
    by apply merge_sort_Permutation.
  clearbody valid. destruct valid as [|v vs]; [by eexists|]. set (valid := v :: vs) in *.
  destruct (first_unused MIN_SLIDE_ID valid) as [c|] eqn:E; [by eexists|exfalso].
  assert (Hmax : MAX_SLIDE_ID ∈ used).
  { destruct (max_list_in (MIN_SLIDE_ID - 1) used) as [Hd|Hin]; [rewrite Hd in Hgt; done|].
    rewrite Forall_forall in Hrange. pose proof (Hrange _ Hin). by replace MAX_SLIDE_ID
      with (max_list (MIN_SLIDE_ID - 1) used) by lia. }
  assert (Hv : MAX_SLIDE_ID ∈ valid) by (rewrite Hperm; by apply list_elem_of_filter).
  pose proof (first_unused_none _ _ E) as Hb. rewrite Forall_forall in Hb.
  specialize (Hb _ Hv). rewrite (Permutation_length Hperm) in Hb.
  pose proof (length_filter (fun u => MIN_SLIDE_ID <= u <= MAX_SLIDE_ID)%Z used). lia.
Qed.

(** ** Operations *)

Lemma prs_wf_same_keys p p' :
  prs_slide_width p' = prs_slide_width p -> prs_slide_height p' = prs_slide_height p ->
  length (prs_layouts p') = length (prs_layouts p) ->
  map slide_key (prs_slides p') = map slide_key (prs_slides p) ->
  prs_wf p -> prs_wf p'.
Proof.
  intros Hw Hh Hl Hk. unfold prs_wf. rewrite Hw, Hh, Hl.
  assert (Hid : map sl_id (prs_slides p') = map sl_id (prs_slides p)).
  { change sl_id with (fun sl => (slide_key sl).1.1).
    by rewrite <- !(map_map slide_key (fun k => k.1.1)), Hk. }
  rewrite Hid, <- !(Forall_map slide_key (key_wf _)), Hk. done.
Qed.

(** A write to a slide that keeps its key keeps the invariant. *)
Lemma modify_slide_preserves sr f :
  (forall sl sl', f sl = Ok sl' -> slide_key sl' = slide_key sl) ->
  keeps prs_wf (modify_slide sr f).
Proof.
  intros Hf p [] p' Hp. unfold modify_slide, update, mbind, result_bind.
  destruct (update_at sr f (prs_slides p)) as [sls|] eqn:E; [|done]. intros [= <-].
  apply (prs_wf_same_keys p); [done..| |exact Hp]. cbn. exact (update_at_map _ _ _ _ _ Hf E).
Qed.

Lemma modify_shape_preserves r f :
  (forall sh sh', f sh = Ok sh' -> sp_id sh' = sp_id sh) -> keeps prs_wf (modify_shape r f).
Proof.
  intros Hf. apply modify_slide_preserves. intros sl sl'. unfold mbind, result_bind.
  destruct (update_at _ _ _) as [shs|] eqn:E; [|done]. intros [= <-].
  unfold slide_key. cbn. by rewrite (update_at_map _ _ _ _ _ Hf E).
Qed.

Lemma modify_tf_preserves r g : keeps prs_wf (modify_tf r g).
Proof.
  apply modify_shape_preserves. intros sh sh'. unfold shape_update_tf, mbind, result_bind.
  destruct (sp_tf sh); [|done]. destruct (g _); [|done]. by intros [= <-].
Qed.

Lemma modify_para_preserves pr f : keeps prs_wf (modify_para pr f).
Proof. apply modify_tf_preserves. Qed.

#[export] Hint Resolve modify_tf_preserves modify_para_preserves : pptx.

Lemma set_slide_width_preserves v : keeps prs_wf (set_slide_width v).
Proof.
  intros p [] p' (Hw & Hrest). unfold set_slide_width, update.
  destruct (slide_size_ok v) eqn:E; [|done]. intros [= <-]. by split.
Qed.

Lemma set_slide_height_preserves v : keeps prs_wf (set_slide_height v).
Proof.
  intros p [] p' (Hw & Hh & Hrest). unfold set_slide_height, update.
  destruct (slide_size_ok v) eqn:E; [|done]. intros [= <-]. by split; [|split].
Qed.

(** Cloning placeholders adds shapes with fresh ids. *)
Lemma clone_placeholders_key phs sl :
  ids_ok (map sp_id (sl_shapes sl)) ->
  (slide_key (foldl clone_placeholder sl phs)).1 = (slide_key sl).1 /\
  ids_ok (slide_key (foldl clone_placeholder sl phs)).2.
Proof.
  revert sl. induction phs as [|ph phs IH]; intros sl Hids; cbn [foldl]; [done|].
  assert (Hc : ids_ok (map sp_id (sl_shapes (clone_placeholder sl ph)))).
  { unfold clone_placeholder, with_shapes. cbn. rewrite map_app. by apply ids_ok_snoc. }
  destruct (IH _ Hc) as [-> Hok]. by split.
Qed.

Lemma add_slide_preserves l : keeps prs_wf (add_slide l).
Proof.
  intros p n p' Hp. unfold add_slide, gets, raise, mbind, st_bind.
  change (id p) with p. destruct (prs_layouts p !! l) as [lay|] eqn:El; [|done].
  unfold lift. destruct (next_slide_id _) as [sid|] eqn:Es; [|done]. intros [= _ <-].
  destruct Hp as (Hw & Hh & Hnd & Hrange & Hkeys).
  destruct (next_slide_id_fresh _ _ Hnd Es) as [Hfresh Hsid].
  destruct (clone_placeholders_key (lay_placeholders lay) (mkSlide sid l [])) as [Hk Hok].
  { split; constructor. }
  unfold prs_wf, with_slides. cbn [prs_slide_width prs_slide_height prs_layouts prs_slides].
  rewrite map_app. cbn [map]. change (sl_id ?s) with (slide_key s).1.1. rewrite !Hk. cbn.
  repeat split; try done.
  - apply NoDup_app. repeat split; [done| |apply NoDup_singleton].
    by intros x Hx ->%list_elem_of_singleton.
  - apply Forall_app. split; [done|by constructor].
  - apply Forall_app. split; [done|]. apply Forall_singleton. split; [|exact Hok].
    rewrite Hk. cbn. apply lookup_lt_is_Some. by rewrite El.
Qed.

Lemma add_textbox_preserves sr x y cx cy : keeps prs_wf (add_textbox sr x y cx cy).
Proof.
  intros p r p' (Hw & Hh & Hnd & Hrange & Hkeys). unfold add_textbox.
  destruct (prs_slides p !! sr) as [sl|] eqn:E; [|done]. intros [= _ <-].
  set (f := fun sl => Ok (with_shapes sl (sl_shapes sl ++
              [new_textbox (next_shape_id sl) x y cx cy])) : Result Slide).
  assert (Hu : update_at sr f (prs_slides p) = Ok (<[sr := with_shapes sl (sl_shapes sl ++
              [new_textbox (next_shape_id sl) x y cx cy])]> (prs_slides p)))
    by (unfold update_at; by rewrite E).
  unfold prs_wf, with_slides. cbn [prs_slide_width prs_slide_height prs_layouts prs_slides].
  rewrite (update_at_map sl_id _ f _ _ ltac:(by intros ? ? [= <-]) Hu).
  repeat split; try done.
  eapply update_at_Forall; [|exact Hu|exact Hkeys].
  intros s s' [Hl Hok] [= <-]. split; [done|]. unfold slide_key, with_shapes in *. cbn in *.
  rewrite map_app. by apply ids_ok_snoc.
Qed.

#[export] Hint Resolve set_slide_width_preserves set_slide_height_preserves
  add_slide_preserves add_textbox_preserves : pptx.

Lemma Presentation_new_wf : prs_wf Presentation_new.
Proof. repeat split; constructor. Qed.

(** [prs_wf] is an invariant of the presentation. *)
#[export] Instance prs_wf_invariant : PrsInvariant prs_wf.
Proof.
  split; [exact Presentation_new_wf|..]; intros;
    unfold set_text, set_word_wrap, add_paragraph, para_set_text, font_size, font_bold,
      font_color_rgb, alignment, space_before, level; keeps_run.
Qed.

(** ** Properties *)

(** Every presentation a program builds from [Presentation()] by
    calls of the modelled API is well-formed: its slide size is in
    range, its slide ids are distinct and in [256, 2^31 - 1], its slides
    name existing layouts, and the shape ids of each slide are distinct
    and at least 2. *)
Theorem reachable_wf p : reachable p -> prs_wf p.
Proof. apply reachable_inv, _. Qed.

Lemma reachable_wf_witness :
  reachable (mkPres 9144000 6858000 default_layouts [mkSlide 256 6 []]) /\
  prs_wf (mkPres 9144000 6858000 default_layouts [mkSlide 256 6 []]).
Proof.
  pose proof (reach_step Presentation_new (CAddSlide 6)
    (mkPres 9144000 6858000 default_layouts [mkSlide 256 6 []]) reach_new eq_refl) as H.
  split; [exact H|exact (reachable_wf _ H)].
Defined.

End Wf.
