(* ===== verification/Typed.v ===== *)
(** * Schema typing of a presentation, and its preservation

    [prs_typed] says that every value python-pptx has stored in a text
    frame of the presentation has the XML schema type it is written
    with ([Text.tf_typed]): font sizes, spacings and levels in their
    ranges, colours six hexadecimal digits, and run texts free of the
    control bytes [_escape_ctrl_chars] replaces and of line feeds.  The
    setters validate or escape what they store, so every operation
    keeps [prs_typed]: this discharges the interface
    [Inv.PrsInvariant], and the saved file never holds an attribute
    value its schema rejects. *)

From S2P Require Import Prelude Color Text Presentation Inv.

Module Typed.
Import Presentation Inv.

Definition shape_typed (sh : Shape) : bool := Text.opt_ok Text.tf_typed (sp_tf sh).

Definition slide_typed (sl : Slide) : bool := forallb shape_typed (sl_shapes sl).

Definition prs_typed (p : Presentation) : Prop := forallb slide_typed (prs_slides p) = true.

#[export] Instance prs_typed_dec p : Decision (prs_typed p).
Proof. unfold prs_typed. apply _. Defined.

(** ** Operations *)

(** A write to a text frame that keeps frames typed keeps the
    presentation typed. *)
Lemma modify_tf_typed r g :
  (forall tf tf', Text.tf_typed tf = true -> g tf = Ok tf' -> Text.tf_typed tf' = true) ->
  keeps prs_typed (modify_tf r g).
Proof.
  intros Hg p [] p' Hp. unfold modify_tf, modify_shape, modify_slide, update, mbind, result_bind.
  destruct (update_at _ _ (prs_slides p)) as [sls|] eqn:E; [|done]. intros [= <-].
  unfold prs_typed. cbn. eapply update_at_forallb; [|exact E|exact Hp].
  intros sl sl' Hsl. cbv beta. destruct (update_at (ref_shape r) (shape_update_tf g) (sl_shapes sl)) as [shs|] eqn:E2;
    [|done].
  intros [= <-]. unfold slide_typed. cbn. eapply update_at_forallb; [|exact E2|exact Hsl].
  intros sh sh' Hsh. unfold shape_update_tf, shape_typed in *.
  destruct (sp_tf sh) as [tf|]; [|done]. destruct (g tf) as [tf'|] eqn:Eg; [|done].
  intros [= <-]. exact (Hg _ _ Hsh Eg).
Qed.

(** A write to a paragraph that keeps paragraphs typed. *)
Lemma modify_para_typed pr f :
  (forall q q', Text.para_typed q = true -> f q = Ok q' -> Text.para_typed q' = true) ->
  keeps prs_typed (modify_para pr f).
Proof.
  intros Hf. apply modify_tf_typed. intros tf tf' Htf. unfold mbind, result_bind.
  destruct (update_at _ _ (Text.tf_paras tf)) as [ps|] eqn:E; [|done]. intros [= <-].
  exact (update_at_forallb _ _ _ _ _ Hf E Htf).
Qed.

Lemma set_slide_size_typed v :
  keeps prs_typed (set_slide_width v) /\ keeps prs_typed (set_slide_height v).
Proof.
  split; intros p [] p' Hp; unfold set_slide_width, set_slide_height, update;
    (destruct (slide_size_ok v); [|done]); by intros [= <-].
Qed.

Lemma clone_placeholders_typed phs sl :
  slide_typed sl = true -> slide_typed (foldl clone_placeholder sl phs) = true.
Proof.
  revert sl. induction phs as [|ph phs IH]; intros sl Hsl; cbn [foldl]; [done|].
  apply IH. unfold slide_typed, clone_placeholder, with_shapes in *. cbn.
  rewrite forallb_app, Hsl. cbn. by destruct (ph_has_text ph).
Qed.

Lemma add_slide_typed l : keeps prs_typed (add_slide l).
Proof.
  intros p n p' Hp. unfold add_slide, gets, raise, mbind, st_bind.
  change (id p) with p. destruct (prs_layouts p !! l) as [lay|]; [|done].
  unfold lift. destruct (next_slide_id _) as [sid|]; [|done]. intros [= _ <-].
  unfold prs_typed, with_slides. cbn. rewrite forallb_app, Hp. cbn.
  by rewrite clone_placeholders_typed.
Qed.

Lemma add_textbox_typed sr x y cx cy : keeps prs_typed (add_textbox sr x y cx cy).
Proof.
  intros p r p' Hp. unfold add_textbox.
  destruct (prs_slides p !! sr) as [sl|] eqn:E; [|done]. intros [= _ <-].
  set (f := fun sl => Ok (with_shapes sl (sl_shapes sl ++
              [new_textbox (next_shape_id sl) x y cx cy])) : Result Slide).
  assert (Hu : update_at sr f (prs_slides p) = Ok (<[sr := with_shapes sl (sl_shapes sl ++
              [new_textbox (next_shape_id sl) x y cx cy])]> (prs_slides p)))
    by (unfold update_at; by rewrite E).
  unfold prs_typed, with_slides. cbn. eapply update_at_forallb; [|exact Hu|exact Hp].
  intros s s' Hs [= <-]. unfold slide_typed, with_shapes in *. cbn.
  by rewrite forallb_app, Hs.
Qed.

Lemma Presentation_new_typed : prs_typed Presentation_new.
Proof. reflexivity. Qed.

(** [prs_typed] is an invariant of the presentation. *)
#[export] Instance prs_typed_invariant : PrsInvariant prs_typed.
Proof.
  split.
  - exact Presentation_new_typed.
  - intros v. apply set_slide_size_typed.
  - intros v. apply set_slide_size_typed.
  - exact add_slide_typed.
  - exact add_textbox_typed.
  - intros r s. apply modify_tf_typed. intros tf tf' _ [= <-]. apply Text.tf_set_text_typed.
  - intros r v. apply modify_tf_typed. by intros tf tf' H [= <-].
  - intros r. apply keeps_bind; [apply keeps_get_tf|intros tf].
    apply keeps_bind; [|intros; apply keeps_mret]. apply modify_tf_typed.
    intros t t' H [= <-]. by apply Text.tf_add_paragraph_typed.
  - intros pr s. apply modify_para_typed. intros q q' H [= <-]. by apply Text.para_set_text_typed.
  - intros pr v. apply modify_para_typed. intros q q'.
    apply Text.para_update_font_typed, Text.font_set_size_typed.
  - intros pr b. apply modify_para_typed. intros q q'.
    apply Text.para_update_font_typed. intros f f' Hf [= <-]. exact Hf.
  - intros pr c. apply modify_para_typed. intros q q'.
    apply Text.para_update_font_typed, Text.font_set_rgb_typed.
  - intros pr a. apply modify_para_typed. intros q q' H [= <-].
    by apply Text.para_set_alignment_typed.
  - intros pr v. apply modify_para_typed. intros q q'. apply Text.para_set_space_before_typed.
  - intros pr n. apply modify_para_typed. intros q q'. apply Text.para_set_level_typed.
Qed.

(** Every presentation a program builds from [Presentation()] by calls
    of the modelled API is well-typed. *)
Theorem reachable_typed p : reachable p -> prs_typed p.
Proof. apply reachable_inv, _. Qed.

End Typed.
