(* ===== verification/Xml.v ===== *)
(** * XML element trees, their serialisation and a reader

    python-pptx keeps every part of a package as an lxml element tree
    and writes it with [etree.tostring] ([pptx.opc.oxml.serialize_part_xml]);
    libxml2 does the escaping.  [xnode] is an element tree restricted to
    what a presentation part holds: elements with a (prefixed) tag, their
    attributes in the order lxml keeps them, and text.

    - [esc_text] is libxml2's escaping of character data
      ([xmlEscapeContent]): [&], [<], [>] and carriage return;
    - [esc_attr] is its escaping of attribute values
      ([xmlBufAttrSerializeTxtContent]): the same, and the double quote,
      line feed and tab;
    - [render] writes a tree the way [tostring] does: an element without
      children as [<t a="v"/>], text escaped, attributes in order;
    - [parse_nodes] reads a sequence of nodes back, decoding the five
      predefined entities and decimal character references.  It recurses
      on a fuel argument; [parse_xml] gives it one more than the length
      of its input, which [parse_nodes_fuel] shows is always enough.

    The reader covers the subset of XML [render] produces (no comments,
    processing instructions, CDATA or namespace declarations); it
    returns [None] on anything else. *)

From S2P Require Import Prelude.

#[local] Set Warnings "-register-all".

Module Xml.

Definition QUOT : ascii := ascii_of_nat 34.
Definition TAB : ascii := ascii_of_nat 9.
Definition NL : ascii := ascii_of_nat 10.
Definition CR : ascii := ascii_of_nat 13.

(** ** Trees *)

Inductive xnode :=
  | XElem (tag : string) (attrs : list (string * string)) (kids : list xnode)
  | XText (s : string).

(** ** Escaping *)

Definition esc_text_char (a : ascii) : string :=
  if bool_decide (a = "&"%char) then "&amp;"
  else if bool_decide (a = "<"%char) then "&lt;"
  else if bool_decide (a = ">"%char) then "&gt;"
  else if bool_decide (a = CR) then "&#13;"
  else String a EmptyString.

Definition esc_attr_char (a : ascii) : string :=
  if bool_decide (a = QUOT) then "&quot;"
  else if bool_decide (a = NL) then "&#10;"
  else if bool_decide (a = TAB) then "&#9;"
  else esc_text_char a.

Definition esc_text : string -> string := str_concat_map esc_text_char.
Definition esc_attr : string -> string := str_concat_map esc_attr_char.

(** ** Serialisation *)

Definition render_attr (kv : string * string) : string :=
  " " +:+ kv.1 +:+ String "=" (String QUOT (esc_attr kv.2 +:+ String QUOT EmptyString)).

Definition render_attrs (ats : list (string * string)) : string :=
  foldr (fun kv acc => render_attr kv +:+ acc) EmptyString ats.

Fixpoint render (n : xnode) : string :=
  match n with
  | XText s => esc_text s
  | XElem t ats ks =>
      match ks with
      | [] => "<" +:+ t +:+ render_attrs ats +:+ "/>"
      | _ => "<" +:+ t +:+ render_attrs ats +:+ ">" +:+
             (fix go (l : list xnode) : string :=
                match l with [] => EmptyString | k :: l' => render k +:+ go l' end) ks
             +:+ "</" +:+ t +:+ ">"
      end
  end.

Definition render_nodes : list xnode -> string :=
  fix go (l : list xnode) : string :=
    match l with [] => EmptyString | k :: l' => render k +:+ go l' end.

(** ** Well-formed trees

    Tags and attribute names are XML names (letters, digits and [:_-.]),
    text nodes are not empty and no two text nodes are adjacent: the
    trees that read back as themselves. *)

Definition name_char (a : ascii) : bool :=
  let n := nat_of_ascii a in
  ((97 <=? n) && (n <=? 122)) || ((65 <=? n) && (n <=? 90)) || ((48 <=? n) && (n <=? 57)) ||
  bool_decide (a = ":"%char) || bool_decide (a = "_"%char) ||
  bool_decide (a = "-"%char) || bool_decide (a = "."%char).

Definition name_ok (t : string) : bool :=
  negb (bool_decide (t = EmptyString)) && str_forall name_char t.

Definition is_text (n : xnode) : bool := match n with XText _ => true | _ => false end.

Fixpoint wf_node (n : xnode) : bool :=
  match n with
  | XText s => negb (bool_decide (s = EmptyString))
  | XElem t ats ks =>
      name_ok t && forallb (fun kv => name_ok kv.1) ats &&
      (fix go (prev : bool) (l : list xnode) : bool :=
         match l with
         | [] => true
         | k :: l' => negb (prev && is_text k) && wf_node k && go (is_text k) l'
         end) false ks
  end.

Definition wf_nodes_from : bool -> list xnode -> bool :=
  fix go (prev : bool) (l : list xnode) : bool :=
    match l with
    | [] => true
    | k :: l' => negb (prev && is_text k) && wf_node k && go (is_text k) l'
    end.

Definition wf_nodes (l : list xnode) : bool := wf_nodes_from false l.

(** A well-formed element (not a text node). *)
Definition elem_wf (k : xnode) : Prop := is_text k = false /\ wf_node k = true.

(** ** Reading *)

Definition dec_digit (a : ascii) : option N :=
  let n := N_of_ascii a in if ((48 <=? n) && (n <=? 57))%N then Some (n - 48)%N else None.

Fixpoint dec_acc (acc : N) (s : string) : option N :=
  match s with
  | EmptyString => Some acc
  | String a s' => d ← dec_digit a; dec_acc (acc * 10 + d)%N s'
  end.

(** A decimal numeral, as [int()] reads an attribute value. *)
Definition dec_value (s : string) : option N :=
  match s with EmptyString => None | _ => dec_acc 0 s end.

(** The character an entity or character reference [&e;] stands for. *)
Definition entity (e : string) : option ascii :=
  if bool_decide (e = "amp") then Some "&"%char
  else if bool_decide (e = "lt") then Some "<"%char
  else if bool_decide (e = "gt") then Some ">"%char
  else if bool_decide (e = "quot") then Some QUOT
  else if bool_decide (e = "apos") then Some "'"%char
  else match e with
       | String h ds =>
           if bool_decide (h = "#"%char)
           then n ← dec_value ds; if (n <? 128)%N then Some (ascii_of_N n) else None
           else None
       | EmptyString => None
       end.

(** Character data up to [stop] (not consumed) or the end, with its
    references decoded; [ent] is the reference being read.  A [<] other
    than [stop] is an error. *)
Fixpoint read_chars (stop : ascii) (ent : option string) (s : string) : option (string * string) :=
  match s with
  | EmptyString => match ent with None => Some (EmptyString, EmptyString) | Some _ => None end
  | String a s' =>
      match ent with
      | Some e =>
          if bool_decide (a = ";"%char)
          then c ← entity e; '(t, r) ← read_chars stop None s'; Some (String c t, r)
          else read_chars stop (Some (e +:+ String a EmptyString)) s'
      | None =>
          if bool_decide (a = stop) then Some (EmptyString, s)
          else if bool_decide (a = "<"%char) then None
          else if bool_decide (a = "&"%char) then read_chars stop (Some EmptyString) s'
          else '(t, r) ← read_chars stop None s'; Some (String a t, r)
      end
  end.

Fixpoint read_name (s : string) : string * string :=
  match s with
  | String a s' => if name_char a then let '(n, r) := read_name s' in (String a n, r)
                   else (EmptyString, s)
  | EmptyString => (EmptyString, EmptyString)
  end.

Fixpoint strip_prefix (p s : string) : option string :=
  match p, s with
  | EmptyString, _ => Some s
  | String a p', String b s' => if bool_decide (a = b) then strip_prefix p' s' else None
  | String _ _, EmptyString => None
  end.

(** The attributes [ k="v"] of a start tag. *)
Fixpoint read_attrs (fuel : nat) (s : string) : option (list (string * string) * string) :=
  match fuel with
  | O => None
  | S f =>
      match strip_prefix " " s with
      | None => Some ([], s)
      | Some s1 =>
          let '(k, r) := read_name s1 in
          if bool_decide (k = EmptyString) then None else
          r2 ← strip_prefix (String "=" (String QUOT EmptyString)) r;
          '(v, r3) ← read_chars QUOT None r2;
          r4 ← strip_prefix (String QUOT EmptyString) r3;
          '(kvs, r5) ← read_attrs f r4;
          Some ((k, v) :: kvs, r5)
      end
  end.

(** A sequence of sibling nodes, up to an end tag (not consumed) or the
    end of the input. *)
Fixpoint parse_nodes (fuel : nat) (s : string) : option (list xnode * string) :=
  match fuel with
  | O => None
  | S f =>
      match s with
      | EmptyString => Some ([], EmptyString)
      | String a s1 =>
          if bool_decide (a = "<"%char) then
            match s1 with
            | EmptyString => None
            | String b _ =>
                if bool_decide (b = "/"%char) then Some ([], s) else
                let '(t, r) := read_name s1 in
                if bool_decide (t = EmptyString) then None else
                '(ats, r1) ← read_attrs f r;
                match strip_prefix "/>" r1 with
                | Some r2 =>
                    '(ns, r3) ← parse_nodes f r2; Some (XElem t ats [] :: ns, r3)
                | None =>
                    r2 ← strip_prefix ">" r1;
                    '(ks, r3) ← parse_nodes f r2;
                    r4 ← strip_prefix ("</" +:+ t +:+ ">") r3;
                    '(ns, r5) ← parse_nodes f r4; Some (XElem t ats ks :: ns, r5)
                end
            end
          else
            '(t, r) ← read_chars "<" None s;
            '(ns, r') ← parse_nodes f r; Some (XText t :: ns, r')
      end
  end.

(** The reader of a whole document fragment. *)
Definition parse_xml (s : string) : option (list xnode) :=
  match parse_nodes (S (String.length s)) s with
  | Some (ns, EmptyString) => Some ns
  | _ => None
  end.

(** [r] does not go on with a name character. *)
Definition name_stop (r : string) : bool :=
  match r with String a _ => negb (name_char a) | EmptyString => true end.

(** Reading [esc a] in front of [r] reads [a] in front of what [r]
    reads: the law of an escaping function for the reader. *)
Definition reads_back (stop : ascii) (esc : ascii -> string) : Prop :=
  forall a r t r', read_chars stop None r = Some (t, r') ->
  read_chars stop None (esc a +:+ r) = Some (String a t, r').

(** [r] is empty or starts a tag: where character data stops. *)
Definition lt_stop (r : string) : bool :=
  match r with String a _ => bool_decide (a = "<"%char) | EmptyString => true end.

(** [r] is empty or starts an end tag: where a sequence of siblings
    stops. *)
Definition end_ok (r : string) : bool :=
  match r with
  | EmptyString => true
  | String a (String b _) => bool_decide (a = "<"%char) && bool_decide (b = "/"%char)
  | String _ EmptyString => false
  end.

(** ** Strings *)

Lemma str_length_app s1 s2 :
  String.length (s1 +:+ s2) = (String.length s1 + String.length s2)%nat.
Proof. induction s1 as [|a s1 IH]; [done|]. rewrite str_app_cons. cbn. by rewrite IH. Qed.

Lemma strip_prefix_app p r : strip_prefix p (p +:+ r) = Some r.
Proof.
  induction p as [|a p IH]; [done|]. rewrite str_app_cons. cbn.
  by rewrite bool_decide_eq_true_2.
Qed.

Lemma read_name_app t r :
  str_forall name_char t = true -> name_stop r = true -> read_name (t +:+ r) = (t, r).
Proof.
  intros Ht Hr. induction t as [|a t IH].
  - destruct r as [|b r]; [done|]. cbn [name_stop] in Hr. rewrite str_app_nil. cbn [read_name].
    by destruct (name_char b).
  - cbn in Ht. apply andb_prop in Ht as [Ha Ht]. rewrite str_app_cons. cbn.
    by rewrite Ha, IH.
Qed.

(** ** Escaped character data reads back *)

Section ReadEscaped.
Context (stop : ascii) (esc : ascii -> string).

Lemma read_chars_escaped s r t r' :
  reads_back stop esc -> read_chars stop None r = Some (t, r') ->
  read_chars stop None (str_concat_map esc s +:+ r) = Some (s +:+ t, r').
Proof.
  intros Hesc Hr. induction s as [|a s IH]; [done|]. cbn [str_concat_map].
  rewrite str_app_assoc, str_app_cons. by apply Hesc.
Qed.

End ReadEscaped.

(** The character data of [esc_text_char a] reads back as [a] whatever
    the stop character, as long as [&] is not one. *)
Lemma esc_text_char_reads stop a r t r' :
  stop <> "&"%char -> a <> stop -> read_chars stop None r = Some (t, r') ->
  read_chars stop None (esc_text_char a +:+ r) = Some (String a t, r').
Proof.
  intros Hs Ha Hr. unfold esc_text_char.
  repeat case_bool_decide; subst;
    rewrite ?str_app_cons, ?str_app_nil; cbn;
    repeat (case_bool_decide; [congruence|]); cbn; by rewrite ?Hr.
Qed.

Lemma esc_text_reads : reads_back "<" esc_text_char.
Proof. intros a r t r'. destruct (decide (a = "<"%char)) as [->|Ha].
  - intros Hr. simpl. by rewrite str_app_nil, Hr.
  - by apply esc_text_char_reads.
Qed.

Lemma esc_attr_reads : reads_back QUOT esc_attr_char.
Proof.
  intros a r t r' Hr. unfold esc_attr_char.
  repeat case_bool_decide; subst;
    [simpl; by rewrite str_app_nil, Hr..|].
  apply esc_text_char_reads; [done|done|exact Hr].
Qed.

Lemma read_chars_stop stop r : read_chars stop None (String stop r) = Some (EmptyString, String stop r).
Proof. cbn. by case_bool_decide. Qed.

Lemma read_chars_lt_stop r : lt_stop r = true -> read_chars "<" None r = Some (EmptyString, r).
Proof. destruct r as [|a r]; [done|]. cbn [lt_stop]. intros ->%bool_decide_eq_true. apply read_chars_stop. Qed.

(** Escaped character data followed by its stop reads back as itself. *)
Lemma read_esc_text s r : lt_stop r = true -> read_chars "<" None (esc_text s +:+ r) = Some (s, r).
Proof.
  intros Hr. rewrite <- (str_app_nil_r s) at 2.
  apply read_chars_escaped; [apply esc_text_reads|by apply read_chars_lt_stop].
Qed.

Lemma read_esc_attr v r :
  read_chars QUOT None (esc_attr v +:+ String QUOT r) = Some (v, String QUOT r).
Proof.
  rewrite <- (str_app_nil_r v) at 2.
  apply read_chars_escaped; [apply esc_attr_reads|apply read_chars_stop].
Qed.

(** ** Attributes read back *)

Lemma render_attr_length kv : (0 < String.length (render_attr kv))%nat.
Proof. unfold render_attr. rewrite str_app_cons. cbn. lia. Qed.

Lemma read_attrs_step f k v r :
  name_ok k = true ->
  read_attrs (S f) (render_attr (k, v) +:+ r) =
    '(kvs, r') ← read_attrs f r; Some ((k, v) :: kvs, r').
Proof.
  intros Hk. apply andb_prop in Hk as [Hk Hn]. unfold render_attr. cbn [fst snd read_attrs].
  rewrite !str_app_assoc, (strip_prefix_app " "). cbv beta iota.
  rewrite read_name_app by done. cbv beta iota.
  rewrite (bool_decide_eq_false_2 (k = EmptyString)) by (intros ->; done).
  rewrite !str_app_cons, ?str_app_nil. cbn [strip_prefix]. rewrite !bool_decide_eq_true_2 by done.
  cbn [mbind option_bind]. rewrite str_app_assoc, str_app_cons, str_app_nil, read_esc_attr.
  cbn [mbind option_bind]. by rewrite bool_decide_eq_true_2.
Qed.

Lemma read_attrs_render f ats r :
  forallb (fun kv => name_ok kv.1) ats = true -> strip_prefix " " r = None ->
  (String.length (render_attrs ats +:+ r) < f)%nat ->
  read_attrs f (render_attrs ats +:+ r) = Some (ats, r).
Proof.
  revert f. induction ats as [|[k v] ats IH]; intros [|f] Hn Hr Hl;
    [lia|cbn [render_attrs foldr read_attrs]; by rewrite str_app_nil, Hr|lia|].
  cbn [forallb fst] in Hn. apply andb_prop in Hn as [Hk Hn].
  change (render_attrs ((k, v) :: ats)) with (render_attr (k, v) +:+ render_attrs ats) in *.
  rewrite str_app_assoc, read_attrs_step by done.
  rewrite str_app_assoc, str_length_app in Hl. pose proof (render_attr_length (k, v)).
  rewrite IH by (done || lia). done.
Qed.

(** ** Trees read back *)

Lemma render_nodes_cons n ns : render_nodes (n :: ns) = render n +:+ render_nodes ns.
Proof. reflexivity. Qed.

Lemma render_elem t ats ks :
  ks <> [] ->
  render (XElem t ats ks) =
    "<" +:+ t +:+ render_attrs ats +:+ ">" +:+ render_nodes ks +:+ "</" +:+ t +:+ ">".
Proof. by destruct ks. Qed.

Lemma wf_node_elem t ats ks :
  wf_node (XElem t ats ks) = name_ok t && forallb (fun kv => name_ok kv.1) ats && wf_nodes ks.
Proof. reflexivity. Qed.

Lemma name_stop_attrs ats c r :
  name_char c = false -> name_stop (render_attrs ats +:+ String c r) = true.
Proof.
  intros Hc. destruct ats as [|kv ats]; cbn [render_attrs foldr].
  - rewrite str_app_nil. cbn [name_stop]. by rewrite Hc.
  - unfold render_attr. by rewrite !str_app_assoc, str_app_cons.
Qed.

Lemma end_ok_lt_stop r : end_ok r = true -> lt_stop r = true.
Proof. destruct r as [|a [|b r]]; cbn; [done|done|]. by intros [-> _]%andb_prop. Qed.

Lemma render_lt_stop k r : is_text k = false -> lt_stop (render k +:+ r) = true.
Proof.
  destruct k as [t ats [|k ks]|s]; [..|done]; intros _; cbn [render];
    rewrite !str_app_cons, str_app_nil; cbn; by case_bool_decide.
Qed.

Lemma esc_text_length s : s <> EmptyString -> (0 < String.length (esc_text s))%nat.
Proof.
  destruct s as [|a s]; [done|]. intros _. unfold esc_text. cbn [str_concat_map].
  rewrite str_length_app. unfold esc_text_char. repeat case_bool_decide; cbn; lia.
Qed.

Lemma strip_prefix_gt r : strip_prefix "/>" (">" +:+ r) = None.
Proof. reflexivity. Qed.

Lemma strip_close t r : strip_prefix ("</" +:+ t +:+ ">") ("</" +:+ t +:+ ">" +:+ r) = Some r.
Proof. rewrite <- !str_app_assoc. apply strip_prefix_app. Qed.

(** One start tag: the tag name, then the attributes. *)
Lemma parse_nodes_tag f t r :
  name_ok t = true -> name_stop r = true ->
  parse_nodes (S f) ("<" +:+ t +:+ r) =
    '(ats, r1) ← read_attrs f r;
    match strip_prefix "/>" r1 with
    | Some r2 => '(ns, r3) ← parse_nodes f r2; Some (XElem t ats [] :: ns, r3)
    | None =>
        r2 ← strip_prefix ">" r1;
        '(ks, r3) ← parse_nodes f r2;
        r4 ← strip_prefix ("</" +:+ t +:+ ">") r3;
        '(ns, r5) ← parse_nodes f r4; Some (XElem t ats ks :: ns, r5)
    end.
Proof.
  intros Ht Hr. destruct t as [|b t']; [done|]. pose proof Ht as Ht'.
  apply andb_prop in Ht' as [_ Hn]. cbn [str_forall] in Hn. apply andb_prop in Hn as [Hb _].
  rewrite !str_app_cons, str_app_nil. cbn [parse_nodes].
  rewrite bool_decide_eq_true_2 by done.
  rewrite (bool_decide_eq_false_2 (b = "/"%char)) by (intros ->; done).
  rewrite <- str_app_cons, read_name_app by (by apply andb_prop in Ht as [_ ?]).
  cbv beta iota. by rewrite (bool_decide_eq_false_2 (String b t' = EmptyString)).
Qed.

(** Character data up to the next tag. *)
Lemma parse_nodes_text f s r :
  s <> EmptyString -> lt_stop r = true ->
  parse_nodes (S f) (esc_text s +:+ r) = '(ns, r') ← parse_nodes f r; Some (XText s :: ns, r').
Proof.
  intros Hs Hr. pose proof (read_esc_text s r Hr) as E.
  destruct s as [|a s]; [done|].
  assert (Hh : exists c x, esc_text (String a s) +:+ r = String c x /\ c <> "<"%char).
  { unfold esc_text. cbn [str_concat_map]. unfold esc_text_char.
    repeat case_bool_decide; (eexists _, _; split; [by rewrite !str_app_cons|]); done. }
  destruct Hh as (c & x & Ex & Hc). rewrite Ex in E |- *. cbn [parse_nodes].
  rewrite (bool_decide_eq_false_2 (c = "<"%char)) by done. by rewrite E.
Qed.

Ltac len_lia H :=
  repeat rewrite str_length_app in H; repeat rewrite str_length_app;
  cbn [String.length] in H |- *; lia.

(** A well-formed sequence of siblings, followed by an end tag or the
    end of the input, reads back as itself when the fuel exceeds the
    length of what is read. *)
Lemma parse_render f prev ns rest :
  wf_nodes_from prev ns = true -> end_ok rest = true ->
  (String.length (render_nodes ns +:+ rest) < f)%nat ->
  parse_nodes f (render_nodes ns +:+ rest) = Some (ns, rest).
Proof.
  revert prev ns rest. induction f as [|f IH]; intros prev ns rest Hwf Hr Hl; [lia|].
  destruct ns as [|k ns].
  { cbn [render_nodes]. rewrite str_app_nil. destruct rest as [|a [|b r]]; [done|done|].
    cbn in Hr. apply andb_prop in Hr as [Ha Hb].
    apply bool_decide_eq_true in Ha, Hb. subst. cbn [parse_nodes].
    by rewrite !bool_decide_eq_true_2. }
  rewrite render_nodes_cons, str_app_assoc in *. cbn [wf_nodes_from] in Hwf.
  apply andb_prop in Hwf as [Hwf Hns]. apply andb_prop in Hwf as [_ Hk].
  destruct k as [t ats ks|s].
  - rewrite wf_node_elem in Hk. apply andb_prop in Hk as [Hk Hks]. apply andb_prop in Hk as [Ht Hats].
    destruct ks as [|k1 ks].
    + cbn [render] in *. rewrite !str_app_assoc in *. rewrite parse_nodes_tag by (done || by apply name_stop_attrs).
      rewrite read_attrs_render by (done || len_lia Hl). cbn [mbind option_bind].
      rewrite (strip_prefix_app "/>"). cbn [mbind option_bind].
      by rewrite (IH false) by (done || len_lia Hl).
    + rewrite render_elem, !str_app_assoc in * by done.
      rewrite parse_nodes_tag by (done || by apply name_stop_attrs).
      rewrite read_attrs_render by (done || len_lia Hl). cbn [mbind option_bind].
      rewrite strip_prefix_gt, (strip_prefix_app ">"). cbn [mbind option_bind].
      rewrite (IH false) by (done || len_lia Hl). cbn [mbind option_bind].
      rewrite strip_close. cbn [mbind option_bind].
      by rewrite (IH false) by (done || len_lia Hl).
  - assert (Hrest : lt_stop (render_nodes ns +:+ rest) = true).
    { destruct ns as [|k' ns]; [rewrite str_app_nil; by apply end_ok_lt_stop|].
      cbn [wf_nodes_from] in Hns. apply andb_prop in Hns as [Hns _].
      apply andb_prop in Hns as [Hp _]. rewrite render_nodes_cons, str_app_assoc.
      apply render_lt_stop. by destruct (is_text k'). }
    cbn [render] in *. rewrite parse_nodes_text; [|by destruct s|done]. cbn [mbind option_bind].
    assert (Hs : (0 < String.length (esc_text s))%nat) by (apply esc_text_length; by destruct s).
    by rewrite (IH true) by (done || len_lia Hl).
Qed.

(** ** The reader's fuel

    Every call of [parse_nodes] and [read_attrs] consumes input before
    it recurses, so fuel beyond the length of the input never changes
    the answer. *)

Lemma option_bind_ext_on {A B} (m : option A) (f g : A -> option B) :
  (forall a, m = Some a -> f a = g a) -> m ≫= f = m ≫= g.
Proof. destruct m; cbn; [auto|done]. Qed.

Lemma strip_prefix_split p s r : strip_prefix p s = Some r -> s = p +:+ r.
Proof.
  revert s. induction p as [|a p IH]; intros [|b s]; cbn [strip_prefix];
    [by intros [= <-]..|done|].
  destruct (bool_decide (a = b)) eqn:Eab; [|done]. apply bool_decide_eq_true in Eab as ->.
  intros E. by rewrite str_app_cons, <- (IH s E).
Qed.

Lemma read_name_split s : s = (read_name s).1 +:+ (read_name s).2.
Proof.
  induction s as [|a s IH]; [done|]. cbn. destruct (name_char a); [|done].
  destruct (read_name s) as [n r]. cbn in *. by rewrite str_app_cons, <- IH.
Qed.

Lemma read_chars_length stop e s t r :
  read_chars stop e s = Some (t, r) -> (String.length r <= String.length s)%nat.
Proof.
  revert e t. induction s as [|a s IH]; intros [e|] t; cbn.
  - done.
  - by intros [= _ <-].
  - case_bool_decide; [|intros E; apply IH in E; lia].
    destruct (entity e); cbn; [|done].
    destruct (read_chars stop None s) as [[t' r']|] eqn:E; cbn; [|done].
    intros [= _ <-]. apply IH in E. lia.
  - case_bool_decide; [by intros [= _ <-]|]. case_bool_decide; [done|].
    case_bool_decide; [intros E; apply IH in E; lia|].
    destruct (read_chars stop None s) as [[t' r']|] eqn:E; cbn; [|done].
    intros [= _ <-]. apply IH in E. lia.
Qed.

Ltac split_len H := apply strip_prefix_split in H; subst; rewrite ?str_length_app in *.

Lemma read_attrs_length f s ats r :
  read_attrs f s = Some (ats, r) -> (String.length r <= String.length s)%nat.
Proof.
  revert s ats r. induction f as [|f IH]; intros s ats r; [done|]. cbn [read_attrs].
  destruct (strip_prefix " " s) as [s1|] eqn:E1; [|by intros [= _ <-]].
  pose proof (read_name_split s1) as Hn. destruct (read_name s1) as [k r0]. cbn in Hn.
  case_bool_decide; [done|].
  destruct (strip_prefix (String "=" (String QUOT EmptyString)) r0) as [r2|] eqn:E2; cbn [mbind option_bind]; [|done].
  destruct (read_chars QUOT None r2) as [[v r3]|] eqn:E3; cbn [mbind option_bind]; [|done].
  destruct (strip_prefix (String QUOT EmptyString) r3) as [r4|] eqn:E4; cbn [mbind option_bind]; [|done].
  destruct (read_attrs f r4) as [[kvs r5]|] eqn:E5; cbn [mbind option_bind]; [|done].
  intros [= _ <-]. apply IH in E5. apply read_chars_length in E3.
  split_len E1. split_len E2. split_len E4. rewrite ?str_length_app in *. cbn in *. lia.
Qed.

Lemma read_chars_length_cons a s t r :
  a <> "<"%char -> read_chars "<" None (String a s) = Some (t, r) ->
  (String.length r <= String.length s)%nat.
Proof.
  intros Ha. cbn [read_chars]. rewrite !(bool_decide_eq_false_2 (a = "<"%char)) by done.
  destruct (bool_decide (a = "&"%char)); [apply read_chars_length|].
  destruct (read_chars "<" None s) as [[t' r']|] eqn:E; cbn [mbind option_bind]; [|done].
  intros [= _ <-]. by apply read_chars_length in E.
Qed.

Lemma read_name_tag b s t r :
  read_name (String b s) = (t, r) -> t <> EmptyString ->
  (String.length r < S (String.length s))%nat.
Proof.
  intros E Ht. pose proof (read_name_split (String b s)) as Hn. rewrite E in Hn. cbn in Hn.
  apply (f_equal String.length) in Hn. rewrite str_length_app in Hn. cbn in Hn.
  destruct t; [done|]. cbn in Hn. lia.
Qed.

Lemma parse_nodes_length f s ns r :
  parse_nodes f s = Some (ns, r) -> (String.length r <= String.length s)%nat.
Proof.
  revert s ns r. induction f as [|f IH]; intros s ns r; [done|].
  destruct s as [|a s1]; cbn [parse_nodes]; [by intros [= _ <-]|].
  destruct (bool_decide (a = "<"%char)) eqn:Ea.
  - destruct s1 as [|b s2]; [done|]. destruct (bool_decide (b = "/"%char)); [by intros [= _ <-]|].
    destruct (read_name (String b s2)) as [t r0] eqn:En.
    destruct (bool_decide (t = EmptyString)) eqn:Et; [done|].
    apply bool_decide_eq_false in Et. pose proof (read_name_tag _ _ _ _ En Et).
    destruct (read_attrs f r0) as [[ats r1]|] eqn:E1; cbn [mbind option_bind]; [|done].
    apply read_attrs_length in E1.
    destruct (strip_prefix "/>" r1) as [r2|] eqn:E2.
    + destruct (parse_nodes f r2) as [[ns' r3]|] eqn:E3; cbn [mbind option_bind]; [|done].
      intros [= _ <-]. apply IH in E3. split_len E2. cbn in *. lia.
    + destruct (strip_prefix ">" r1) as [r2|] eqn:E2'; cbn [mbind option_bind]; [|done].
      destruct (parse_nodes f r2) as [[ks r3]|] eqn:E3; cbn [mbind option_bind]; [|done].
      destruct (strip_prefix _ r3) as [r4|] eqn:E4; cbn [mbind option_bind]; [|done].
      destruct (parse_nodes f r4) as [[ns' r5]|] eqn:E5; cbn [mbind option_bind]; [|done].
      intros [= _ <-]. apply IH in E3, E5. split_len E2'. split_len E4. cbn in *. lia.
  - apply bool_decide_eq_false in Ea.
    destruct (read_chars "<" None (String a s1)) as [[t r0]|] eqn:E; cbn [mbind option_bind]; [|done].
    destruct (parse_nodes f r0) as [[ns' r']|] eqn:E'; cbn [mbind option_bind]; [|done].
    intros [= _ <-]. apply IH in E'. apply read_chars_length_cons in E; [|done]. cbn. lia.
Qed.

Lemma read_attrs_fuel f1 f2 s :
  (String.length s < f1)%nat -> (String.length s < f2)%nat -> read_attrs f1 s = read_attrs f2 s.
Proof.
  revert f2 s. induction f1 as [|f1 IH]; intros [|f2] s H1 H2; [lia..|]. cbn [read_attrs].
  destruct (strip_prefix " " s) as [s1|] eqn:E1; [|done].
  pose proof (read_name_split s1) as Hn. destruct (read_name s1) as [k r0]. cbn in Hn.
  destruct (bool_decide (k = EmptyString)); [done|].
  apply option_bind_ext_on. intros r2 E2. apply option_bind_ext_on. intros [v r3] E3.
  apply option_bind_ext_on. intros r4 E4. apply read_chars_length in E3.
  split_len E1. split_len E2. split_len E4. rewrite ?str_length_app in *. cbn in *.
  by rewrite (IH f2) by lia.
Qed.

Lemma parse_nodes_fuel_eq f1 f2 s :
  (String.length s < f1)%nat -> (String.length s < f2)%nat -> parse_nodes f1 s = parse_nodes f2 s.
Proof.
  revert f2 s. induction f1 as [|f1 IH]; intros [|f2] s H1 H2; [lia..|].
  destruct s as [|a s1]; [done|]. cbn [parse_nodes] in *.
  destruct (bool_decide (a = "<"%char)) eqn:Ea.
  - destruct s1 as [|b s2]; [done|]. destruct (bool_decide (b = "/"%char)); [done|].
    destruct (read_name (String b s2)) as [t r0] eqn:En.
    destruct (bool_decide (t = EmptyString)) eqn:Et; [done|].
    apply bool_decide_eq_false in Et. pose proof (read_name_tag _ _ _ _ En Et).
    cbn [String.length] in *. rewrite (read_attrs_fuel f1 f2) by lia.
    apply option_bind_ext_on. intros [ats r1] E1. apply read_attrs_length in E1.
    destruct (strip_prefix "/>" r1) as [r2|] eqn:E2.
    + split_len E2. cbn in *. by rewrite (IH f2) by lia.
    + apply option_bind_ext_on. intros r2 E2'. split_len E2'. cbn in *.
      rewrite (IH f2) by lia. apply option_bind_ext_on. intros [ks r3] E3.
      apply parse_nodes_length in E3. apply option_bind_ext_on. intros r4 E4.
      split_len E4. by rewrite (IH f2) by lia.
  - apply bool_decide_eq_false in Ea. apply option_bind_ext_on. intros [t r0] E.
    apply read_chars_length_cons in E; [|done]. cbn [String.length] in *.
    by rewrite (IH f2) by lia.
Qed.

(** The reader terminates within its fuel on every input: with one
    more unit of fuel than the length of the input, [parse_nodes] gives
    the answer every larger fuel gives, so [parse_xml] never stops for
    want of fuel. *)
Theorem parse_nodes_fuel f s :
  (String.length s < f)%nat -> parse_nodes f s = parse_nodes (S (String.length s)) s.
Proof. intros H. apply parse_nodes_fuel_eq; lia. Qed.

(** Serialisation and reading are inverse: every well-formed sequence
    of element trees (XML names for tags and attributes, non-empty and
    non-adjacent text nodes) reads back from what [render] writes,
    whatever characters its text and attribute values hold. *)
Theorem parse_xml_render ns : wf_nodes ns = true -> parse_xml (render_nodes ns) = Some ns.
Proof.
  intros H. unfold parse_xml. rewrite <- (str_app_nil_r (render_nodes ns)) at 2.
  rewrite (parse_render _ false ns EmptyString) by (done || rewrite str_app_nil_r; lia).
  done.
Qed.

(** ** Decimal attribute values

    python-pptx writes an integer attribute with [str()], which stdpp's
    [pretty] models; [dec_value] reads it back. *)

Lemma dec_digit_char d : (d < 10)%N -> dec_digit (pretty_N_char d) = Some d.
Proof.
  intros Hd. assert (d = 0 \/ d = 1 \/ d = 2 \/ d = 3 \/ d = 4 \/ d = 5 \/ d = 6 \/ d = 7 \/
                     d = 8 \/ d = 9)%N as Hc by lia.
  by repeat destruct Hc as [->|Hc]; [..|subst].
Qed.

Lemma dec_acc_pretty x s acc :
  exists k, dec_acc acc (pretty_N_go x s) = dec_acc (acc * 10 ^ k + x)%N s.
Proof.
  revert s acc. induction (N.lt_wf_0 x) as [x _ IH]; intros s acc.
  destruct (decide (x = 0)%N) as [->|Hx].
  { exists 0%N. rewrite pretty_N_go_0. f_equal. lia. }
  rewrite pretty_N_go_step by lia.
  destruct (IH (x `div` 10)%N ltac:(apply N.div_lt; lia)
              (String (pretty_N_char (x `mod` 10)) s) acc) as [k Hk].
  exists (k + 1)%N. rewrite Hk. cbn [dec_acc]. rewrite dec_digit_char by (apply N.mod_lt; lia).
  cbn [mbind option_bind]. f_equal.
  pose proof (N.div_mod x 10 ltac:(lia)). rewrite N.pow_add_r, N.pow_1_r. nia.
Qed.

Lemma pretty_N_go_nonempty x s : s <> EmptyString -> pretty_N_go x s <> EmptyString.
Proof.
  revert s. induction (N.lt_wf_0 x) as [x _ IH]; intros s Hs.
  destruct (decide (x = 0)%N) as [->|Hx]; [by rewrite pretty_N_go_0|].
  rewrite pretty_N_go_step by lia. apply IH; [apply N.div_lt; lia|done].
Qed.

Lemma dec_value_pretty_N (x : N) : dec_value (pretty x) = Some x.
Proof.
  unfold pretty, pretty_N. case_decide as Hx; [by subst|].
  rewrite pretty_N_go_step by lia.
  destruct (pretty_N_go _ _) as [|a s] eqn:E; [by apply pretty_N_go_nonempty in E|].
  unfold dec_value. rewrite <- E, <- pretty_N_go_step by lia.
  destruct (dec_acc_pretty x EmptyString 0) as [k ->]. f_equal; lia.
Qed.

(** A sequence of well-formed elements is well-formed. *)
Lemma wf_nodes_elems prev l : Forall elem_wf l -> wf_nodes_from prev l = true.
Proof.
  intros Hl. revert prev. induction Hl as [|k l [Hk Hw] _ IH]; intros prev; [done|].
  cbn [wf_nodes_from]. rewrite Hk, Hw, IH. by destruct prev.
Qed.

Lemma elem_wf_elem t ats ks :
  name_ok t = true -> forallb (fun kv => name_ok kv.1) ats = true -> Forall elem_wf ks ->
  elem_wf (XElem t ats ks).
Proof.
  intros Ht Ha Hks. split; [done|]. rewrite wf_node_elem, Ht, Ha. by apply wf_nodes_elems.
Qed.

(** One well-formed element reads back from its serialisation. *)
Lemma parse_xml_render_elem n : elem_wf n -> parse_xml (render n) = Some [n].
Proof.
  intros Hn. unfold parse_xml.
  pose proof (parse_render (S (String.length (render n))) false [n] EmptyString) as H.
  change (render_nodes [n]) with (render n +:+ EmptyString) in H. rewrite !str_app_nil_r in H.
  rewrite H; [done|apply wf_nodes_elems; by constructor|done|lia].
Qed.

End Xml.
