(* ===== verification/Oxml.v ===== *)
(** * The XML python-pptx writes for a text frame: [pptx.oxml.text]

    python-pptx's text objects are views of an [a:txBody] element; the
    setters of [Text] edit its children and attributes, and [prs.save]
    writes them with [Xml.render].  [txbody_xml] gives the element that
    holds a [Text.TextFrame]:

    - [p:txBody] holds [a:bodyPr] (the [wrap] attribute, ["square"] or
      ["none"], and the autofit child), [a:lstStyle/] and one [a:p] per
      paragraph;
    - [a:p] holds an optional [a:pPr], then one [a:r/a:t] per run and one
      [a:br/] per break;
    - [a:pPr] carries [lvl] (deleted when set to its default 0, as
      python-pptx's [OptionalAttribute] does) and [algn], and holds
      [a:spcBef/a:spcPts/@val] before [a:defRPr] (the schema order
      python-pptx's [get_or_add] keeps);
    - [a:defRPr] carries [sz] and [b] and holds
      [a:solidFill/a:srgbClr/@val].

    Integer attributes are written with [str()] ([pretty]), booleans as
    ["1"]/["0"] ([XsdBoolean]), alignments by their [ST_TextAlignType]
    names.  The reader ([tf_of_xml]) is the other direction: it is how
    python-pptx's getters, or any consumer of the saved file, interpret
    the element.

    The model records attribute values, not whether an emptied element
    was left behind: an [a:pPr] or [a:defRPr] whose every property was
    set back to [None] is written as absent.  The script never clears a
    property, so its paragraphs are written as python-pptx writes them. *)

From S2P Require Import Prelude Color Text Presentation Xml.

Module Oxml.
Import Text Xml.

(** ** Attribute values *)

(** [PP_ALIGN]'s XML values ([ST_TextAlignType]). *)
Definition align_xml (a : Align) : string :=
  match a with
  | CENTER => "ctr" | DISTRIBUTE => "dist" | JUSTIFY => "just" | JUSTIFY_LOW => "justLow"
  | LEFT => "l" | RIGHT => "r" | THAI_DISTRIBUTE => "thaiDist"
  end.

Definition all_aligns : list Align :=
  [CENTER; DISTRIBUTE; JUSTIFY; JUSTIFY_LOW; LEFT; RIGHT; THAI_DISTRIBUTE].

Definition align_of_xml (s : string) : option Align :=
  head (filter (fun a => bool_decide (align_xml a = s)) all_aligns).

(** [XsdBoolean]: written ["1"] or ["0"]; ["true"] and ["false"] are
    read too. *)
Definition bool_xml (b : bool) : string := if b then "1" else "0".

Definition bool_of_xml (s : string) : option bool :=
  if bool_decide (s = "1") || bool_decide (s = "true") then Some true
  else if bool_decide (s = "0") || bool_decide (s = "false") then Some false
  else None.

Definition int_xml (z : Z) : string := pretty z.

(** [int()] of an attribute value: an optional minus sign, then decimal
    digits. *)
Definition int_of_xml (s : string) : option Z :=
  match s with
  | String a r =>
      if bool_decide (a = "-"%char) then (fun n => Z.opp (Z.of_N n)) <$> dec_value r
      else Z.of_N <$> dec_value s
  | EmptyString => None
  end.

Arguments int_xml : simpl never.
Arguments int_of_xml : simpl never.

Definition wrap_xml (b : bool) : string := if b then "square" else "none".

Definition wrap_of_xml (s : string) : option bool :=
  if bool_decide (s = "square") then Some true
  else if bool_decide (s = "none") then Some false else None.

Definition autofit_tag (a : AutoSize) : string :=
  match a with
  | AUTO_NONE => "a:noAutofit" | SHAPE_TO_FIT_TEXT => "a:spAutoFit"
  | TEXT_TO_FIT_SHAPE => "a:normAutofit"
  end.

Definition autofit_of_tag (t : string) : option AutoSize :=
  head (filter (fun a => bool_decide (autofit_tag a = t))
          [AUTO_NONE; SHAPE_TO_FIT_TEXT; TEXT_TO_FIT_SHAPE]).

Definition opt_attr (k : string) (o : option string) : list (string * string) :=
  match o with Some v => [(k, v)] | None => [] end.

(** ** Writing *)

Definition font_xml (f : Font) : list xnode :=
  if bool_decide (f = no_font) then [] else
  [XElem "a:defRPr" (opt_attr "sz" (int_xml <$> f_size f) ++ opt_attr "b" (bool_xml <$> f_bold f))
     (match f_color f with
      | Some v => [XElem "a:solidFill" [] [XElem "a:srgbClr" [("val", v)] []]]
      | None => []
      end)].

Definition spc_bef_xml (o : option Z) : list xnode :=
  match o with
  | Some c => [XElem "a:spcBef" [] [XElem "a:spcPts" [("val", int_xml c)] []]]
  | None => []
  end.

Definition ppr_attrs (q : Paragraph) : list (string * string) :=
  (if bool_decide (p_level q = 0%Z) then [] else [("lvl", int_xml (p_level q))]) ++
  opt_attr "algn" (align_xml <$> p_align q).

Definition ppr_xml (q : Paragraph) : list xnode :=
  match ppr_attrs q, spc_bef_xml (p_space_before q) ++ font_xml (p_font q) with
  | [], [] => []
  | ats, ks => [XElem "a:pPr" ats ks]
  end.

(** A run is [<a:r><a:t>text</a:t></a:r>]; lxml writes an empty [a:t]
    as [<a:t/>]. *)
Definition child_xml (c : PChild) : xnode :=
  match c with
  | PRun t => XElem "a:r" [] [XElem "a:t" [] (if bool_decide (t = EmptyString) then [] else [XText t])]
  | PBreak => XElem "a:br" [] []
  end.

Definition para_xml (q : Paragraph) : xnode :=
  XElem "a:p" [] (ppr_xml q ++ map child_xml (p_children q)).

Definition body_pr_xml (tf : TextFrame) : xnode :=
  XElem "a:bodyPr" (opt_attr "wrap" (wrap_xml <$> tf_wrap tf))
    (option_list ((fun a => XElem (autofit_tag a) [] []) <$> tf_auto_size tf)).

Definition txbody_xml (tf : TextFrame) : xnode :=
  XElem "p:txBody" [] (body_pr_xml tf :: XElem "a:lstStyle" [] [] :: map para_xml (tf_paras tf)).

(** What [prs.save] writes for a text frame. *)
Definition write_txbody (tf : TextFrame) : string := render (txbody_xml tf).

(** ** Slide parts

    A text box is the shape [CT_Shape.new_textbox_sp] builds from its
    template: [p:nvSpPr] with [p:cNvPr id name] and
    [p:cNvSpPr txBox="1"], then [p:spPr] with the [a:xfrm] offset and
    extent, a [rect] preset geometry and [a:noFill], then the text body.
    The script's setters change only the text body.  Shapes cloned from
    layout placeholders are not modelled ([None]): the shape record does
    not keep their placeholder type. *)
Definition sp_xml (sh : Presentation.Shape) : option xnode :=
  match Presentation.sp_xfrm sh, Presentation.sp_tf sh with
  | Some (x, y, cx, cy), Some tf =>
      Some (XElem "p:sp" []
        [XElem "p:nvSpPr" []
           [XElem "p:cNvPr" [("id", int_xml (Presentation.sp_id sh)); ("name", Presentation.sp_name sh)] [];
            XElem "p:cNvSpPr" [("txBox", "1")] [];
            XElem "p:nvPr" [] []];
         XElem "p:spPr" []
           [XElem "a:xfrm" []
              [XElem "a:off" [("x", int_xml x); ("y", int_xml y)] [];
               XElem "a:ext" [("cx", int_xml cx); ("cy", int_xml cy)] []];
            XElem "a:prstGeom" [("prst", "rect")] [XElem "a:avLst" [] []];
            XElem "a:noFill" [] []];
         txbody_xml tf])
  | _, _ => None
  end.

(** [CT_Slide.new()]: the slide part's [p:sld], whose shape tree starts
    with its own group properties and then holds the shapes in order. *)
Definition sld_xml (shs : list xnode) : xnode :=
  XElem "p:sld" []
    [XElem "p:cSld" []
       [XElem "p:spTree" []
          (XElem "p:nvGrpSpPr" []
             [XElem "p:cNvPr" [("id", "1"); ("name", EmptyString)] [];
              XElem "p:cNvGrpSpPr" [] []; XElem "p:nvPr" [] []] ::
           XElem "p:grpSpPr" [] [] :: shs)];
     XElem "p:clrMapOvr" [] [XElem "a:masterClrMapping" [] []]].

Definition slide_xml (sl : Presentation.Slide) : option xnode :=
  shs ← mapM sp_xml (Presentation.sl_shapes sl); Some (sld_xml shs).

(** What [prs.save] writes for a slide part. *)
Definition write_slide (sl : Presentation.Slide) : option string := render <$> slide_xml sl.

(** A text box whose text frame is typed: the shapes whose part this
    model writes. *)
Definition sp_saved_ok (sh : Presentation.Shape) : bool :=
  match Presentation.sp_xfrm sh, Presentation.sp_tf sh with
  | Some _, Some tf => tf_typed tf
  | _, _ => false
  end.

(** ** Reading *)

Fixpoint assoc (k : string) (ats : list (string * string)) : option string :=
  match ats with
  | [] => None
  | (k', v) :: ats' => if bool_decide (k = k') then Some v else assoc k ats'
  end.

(** The attributes and children of the first child element named [t]. *)
Fixpoint find_child (t : string) (ks : list xnode) : option (list (string * string) * list xnode) :=
  match ks with
  | [] => None
  | XElem t' ats kk :: ks' => if bool_decide (t = t') then Some (ats, kk) else find_child t ks'
  | XText _ :: ks' => find_child t ks'
  end.

(** An optional attribute read with [f]: absent is [Some None]. *)
Definition opt_read {A} (f : string -> option A) (o : option string) : option (option A) :=
  match o with Some v => Some <$> f v | None => Some None end.

Definition font_of_xml (ks : list xnode) : option Font :=
  match find_child "a:defRPr" ks with
  | None => Some no_font
  | Some (ats, kk) =>
      sz ← opt_read int_of_xml (assoc "sz" ats);
      b ← opt_read bool_of_xml (assoc "b" ats);
      let col := '(_, fk) ← find_child "a:solidFill" kk;
                 '(cats, _) ← find_child "a:srgbClr" fk; assoc "val" cats in
      Some (mkFont sz b col)
  end.

Definition spc_bef_of_xml (ks : list xnode) : option (option Z) :=
  match find_child "a:spcBef" ks with
  | None => Some None
  | Some (_, kk) => '(ats, _) ← find_child "a:spcPts" kk; v ← assoc "val" ats; Some <$> int_of_xml v
  end.

Definition child_of_xml (n : xnode) : option PChild :=
  match n with
  | XElem t _ kk =>
      if bool_decide (t = "a:br") then Some PBreak
      else if bool_decide (t = "a:r") then
        '(_, tk) ← find_child "a:t" kk;
        match tk with
        | [] => Some (PRun EmptyString)
        | [XText s] => Some (PRun s)
        | _ => None
        end
      else None
  | XText _ => None
  end.

(** The [a:pPr] of a paragraph's children, if it comes first. *)
Definition split_ppr (ks : list xnode) : list (string * string) * list xnode * list xnode :=
  match ks with
  | XElem t ats kk :: rest => if bool_decide (t = "a:pPr") then (ats, kk, rest) else ([], [], ks)
  | _ => ([], [], ks)
  end.

Definition para_of_xml (n : xnode) : option Paragraph :=
  match n with
  | XElem t _ ks =>
      if bool_decide (t = "a:p") then
        let '(pats, pks, rest) := split_ppr ks in
        cs ← mapM child_of_xml rest;
        lvl ← (match assoc "lvl" pats with Some v => int_of_xml v | None => Some 0%Z end);
        al ← opt_read align_of_xml (assoc "algn" pats);
        sb ← spc_bef_of_xml pks;
        f ← font_of_xml pks;
        Some (mkPara cs f al sb lvl)
      else None
  | XText _ => None
  end.

Definition tf_of_xml (n : xnode) : option TextFrame :=
  match n with
  | XElem t _ (XElem bp bats bks :: XElem ls _ [] :: ps) =>
      if bool_decide (t = "p:txBody") && bool_decide (bp = "a:bodyPr") &&
         bool_decide (ls = "a:lstStyle")
      then
        w ← opt_read wrap_of_xml (assoc "wrap" bats);
        au ← (match bks with
              | [] => Some None
              | [XElem a _ _] => Some <$> autofit_of_tag a
              | _ => None
              end);
        qs ← mapM para_of_xml ps;
        Some (mkTF w au qs)
      else None
  | _ => None
  end.

Arguments tf_of_xml : simpl never.

(** Reading a text body back from the saved file. *)
Definition read_txbody (s : string) : option TextFrame :=
  match parse_xml s with Some [n] => tf_of_xml n | _ => None end.

Definition elem_tag (n : xnode) : string := match n with XElem t _ _ => t | XText _ => EmptyString end.

Definition sp_of_xml (n : xnode) : option Presentation.Shape :=
  match n with
  | XElem t _ ks =>
      if bool_decide (t = "p:sp") then
        '(_, nv) ← find_child "p:nvSpPr" ks;
        '(cats, _) ← find_child "p:cNvPr" nv;
        id ← assoc "id" cats ≫= int_of_xml;
        name ← assoc "name" cats;
        '(_, sppr) ← find_child "p:spPr" ks;
        '(_, xf) ← find_child "a:xfrm" sppr;
        '(oats, _) ← find_child "a:off" xf;
        '(eats, _) ← find_child "a:ext" xf;
        x ← assoc "x" oats ≫= int_of_xml; y ← assoc "y" oats ≫= int_of_xml;
        cx ← assoc "cx" eats ≫= int_of_xml; cy ← assoc "cy" eats ≫= int_of_xml;
        '(tats, tks) ← find_child "p:txBody" ks;
        tf ← tf_of_xml (XElem "p:txBody" tats tks);
        Some (Presentation.mkShape id name (Some (x, y, cx, cy)) (Some tf))
      else None
  | XText _ => None
  end.

(** The shapes of a slide part, in shape-tree order. *)
Definition slide_shapes_of_xml (n : xnode) : option (list Presentation.Shape) :=
  match n with
  | XElem t _ ks =>
      if bool_decide (t = "p:sld") then
        '(_, cs) ← find_child "p:cSld" ks;
        '(_, tree) ← find_child "p:spTree" cs;
        mapM sp_of_xml (filter (fun k => elem_tag k = "p:sp") tree)
      else None
  | XText _ => None
  end.

(** Reading a slide part back from the saved file. *)
Definition read_slide (s : string) : option (list Presentation.Shape) :=
  match parse_xml s with Some [n] => slide_shapes_of_xml n | _ => None end.

(** ** Reading what was written *)

Lemma find_child_app t l1 l2 :
  find_child t (l1 ++ l2) = match find_child t l1 with Some x => Some x | None => find_child t l2 end.
Proof. induction l1 as [|[t' ats kk|s] l1 IH]; cbn; [done| |done]. by case_bool_decide. Qed.

Lemma int_of_xml_int z : int_of_xml (int_xml z) = Some z.
Proof.
  unfold int_xml. destruct z as [|q|q]; [done| |].
  - change (pretty (Z.pos q)) with (pretty (N.pos q)).
    pose proof (dec_value_pretty_N (N.pos q)) as H.
    destruct (pretty (N.pos q)) as [|a r] eqn:E; [done|]. unfold int_of_xml.
    case_bool_decide; [subst; done|]. by rewrite H.
  - change (pretty (Z.neg q)) with (String "-" (pretty (N.pos q))). unfold int_of_xml.
    rewrite bool_decide_eq_true_2 by done. by rewrite dec_value_pretty_N.
Qed.

Lemma child_of_xml_child c : child_of_xml (child_xml c) = Some c.
Proof.
  destruct c as [t|]; [|done]. cbn [child_xml child_of_xml]. simpl.
  case_bool_decide as Ht; [by subst|done].
Qed.

Lemma mapM_map_inv {A B} (f : B -> option A) (g : A -> B) (P : A -> Prop) l :
  Forall P l -> (forall x, P x -> f (g x) = Some x) -> mapM f (map g l) = Some l.
Proof.
  intros Hl Hfg. apply mapM_Some_2. induction Hl as [|x l Hx _ IH]; constructor; [|done].
  by apply Hfg.
Qed.

Lemma split_ppr_para q :
  split_ppr (ppr_xml q ++ map child_xml (p_children q)) =
    (ppr_attrs q, spc_bef_xml (p_space_before q) ++ font_xml (p_font q), map child_xml (p_children q)).
Proof.
  unfold ppr_xml.
  destruct (ppr_attrs q) as [|a ats], (spc_bef_xml (p_space_before q) ++ font_xml (p_font q)) as [|k ks];
    [|done..]. by destruct (p_children q) as [|[] cs].
Qed.

Lemma spc_bef_of_xml_ok o f :
  opt_ok (fun c => (0 <=? c) && (c <=? 158400))%Z o = true ->
  spc_bef_of_xml (spc_bef_xml o ++ font_xml f) = Some o.
Proof.
  unfold spc_bef_of_xml. rewrite find_child_app. destruct o as [c|]; cbn [opt_ok].
  - intros [Hc _]%andb_prop. apply Z.leb_le in Hc. simpl. by rewrite int_of_xml_int.
  - intros _. unfold font_xml. by case_bool_decide.
Qed.

Lemma font_of_xml_ok o f :
  font_typed f = true -> font_of_xml (spc_bef_xml o ++ font_xml f) = Some f.
Proof.
  unfold font_of_xml. rewrite find_child_app.
  replace (find_child "a:defRPr" (spc_bef_xml o)) with (@None (list (string * string) * list xnode))
    by (by destruct o).
  unfold font_xml. case_bool_decide as Hf; [by subst|].
  destruct f as [sz b col]. unfold font_typed. cbn [f_size f_bold f_color].
  intros [Hsz _]%andb_prop. simpl.
  assert (Hs : opt_read int_of_xml (assoc "sz" (opt_attr "sz" (int_xml <$> sz))) = Some sz).
  { destruct sz as [c|]; [|done]. simpl in Hsz |- *. apply andb_prop in Hsz as [Hc _].
    apply Z.leb_le in Hc. rewrite int_of_xml_int by lia. done. }
  destruct sz as [c|]; simpl in Hs |- *.
  - destruct (int_of_xml (int_xml c)) as [c'|]; [|done]. injection Hs as ->. simpl.
    destruct b as [[]|], col; reflexivity.
  - destruct b as [[]|], col; reflexivity.
Qed.

(** A paragraph whose values have their schema types reads back. *)
Lemma para_of_xml_para q : para_typed q = true -> para_of_xml (para_xml q) = Some q.
Proof.
  destruct q as [cs f al sb lvl]. unfold para_typed. cbn [p_children p_font p_align p_space_before p_level].
  intros H. apply andb_prop in H as [H Hl]. apply andb_prop in H as [H Hsb].
  apply andb_prop in H as [_ Hf].
  apply andb_prop in Hl as [Hl0 Hl8]. apply Z.leb_le in Hl0.
  unfold para_xml. cbn [para_of_xml]. rewrite bool_decide_eq_true_2 by done.
  rewrite split_ppr_para. cbn [p_children p_font p_space_before].
  rewrite (mapM_map_inv _ _ (fun _ => True) cs);
    [|by apply Forall_true|intros c _; apply child_of_xml_child].
  cbn [mbind option_bind].
  assert (Hlv : match assoc "lvl" (ppr_attrs (mkPara cs f al sb lvl)) with
                | Some v => int_of_xml v | None => Some 0%Z end = Some lvl).
  { unfold ppr_attrs. cbn [p_level p_align]. case_bool_decide as E; [|cbn; by apply int_of_xml_int].
    subst. by destruct al. }
  rewrite Hlv. cbn [mbind option_bind].
  assert (Hal : opt_read align_of_xml (assoc "algn" (ppr_attrs (mkPara cs f al sb lvl))) = Some al).
  { unfold ppr_attrs. cbn [p_level p_align]. by case_bool_decide; destruct al as [[]|]. }
  rewrite Hal. cbn [mbind option_bind].
  rewrite spc_bef_of_xml_ok by done. cbn [mbind option_bind].
  by rewrite font_of_xml_ok.
Qed.

(** A text frame whose values have their schema types reads back from
    its element. *)
Lemma tf_of_xml_txbody tf : tf_typed tf = true -> tf_of_xml (txbody_xml tf) = Some tf.
Proof.
  destruct tf as [w au ps]. unfold tf_typed. cbn [tf_paras]. intros Hps.
  unfold txbody_xml, body_pr_xml, tf_of_xml. cbn [tf_wrap tf_auto_size tf_paras].
  rewrite !bool_decide_eq_true_2 by done. cbn [andb].
  assert (Hw : opt_read wrap_of_xml (assoc "wrap" (opt_attr "wrap" (wrap_xml <$> w))) = Some w)
    by (by destruct w as [[]|]).
  rewrite Hw. cbn [mbind option_bind].
  rewrite (mapM_map_inv _ _ (fun q => para_typed q = true)).
  - by destruct au as [[]|].
  - apply Forall_forall. intros q Hq. apply (proj1 (forallb_forall _ _) Hps).
    by apply list_elem_of_In.
  - exact para_of_xml_para.
Qed.

(** ** The elements are well-formed *)

Lemma spc_bef_elems o : Forall elem_wf (spc_bef_xml o).
Proof. destruct o; repeat constructor. Qed.

Lemma font_elems f : Forall elem_wf (font_xml f).
Proof.
  unfold font_xml. case_bool_decide; [constructor|]. repeat constructor.
  by destruct (f_size f), (f_bold f), (f_color f).
Qed.

Lemma child_elem c : elem_wf (child_xml c).
Proof.
  destruct c as [t|]; [|done]. apply elem_wf_elem; [done|done|]. repeat constructor.
  case_bool_decide; [done|]. cbn. by rewrite bool_decide_eq_false_2.
Qed.

Lemma ppr_elems q : Forall elem_wf (ppr_xml q).
Proof.
  unfold ppr_xml.
  assert (H : Forall elem_wf [XElem "a:pPr" (ppr_attrs q)
                                (spc_bef_xml (p_space_before q) ++ font_xml (p_font q))]).
  { repeat constructor. apply elem_wf_elem; [done| |].
    - unfold ppr_attrs. by case_bool_decide; destruct (p_align q).
    - apply Forall_app. split; [apply spc_bef_elems|apply font_elems]. }
  by destruct (ppr_attrs q), (spc_bef_xml (p_space_before q) ++ font_xml (p_font q)).
Qed.

Lemma para_elem q : elem_wf (para_xml q).
Proof.
  apply elem_wf_elem; [done|done|]. apply Forall_app. split; [apply ppr_elems|].
  apply Forall_map, Forall_forall. intros c _. apply child_elem.
Qed.

Lemma txbody_elem tf : elem_wf (txbody_xml tf).
Proof.
  apply elem_wf_elem; [done|done|]. constructor; [|constructor; [repeat constructor|]].
  - unfold body_pr_xml. by destruct (tf_wrap tf) as [[]|], (tf_auto_size tf) as [[]|].
  - apply Forall_map, Forall_forall. intros q _. apply para_elem.
Qed.

(** What [prs.save] writes for a text frame whose values have their
    schema types reads back as that frame. *)
Theorem read_txbody_write tf : tf_typed tf = true -> read_txbody (write_txbody tf) = Some tf.
Proof.
  intros H. unfold read_txbody, write_txbody. rewrite parse_xml_render_elem by apply txbody_elem.
  by apply tf_of_xml_txbody.
Qed.

(** ** Slide parts read back *)

Lemma sp_xml_ok sh :
  sp_saved_ok sh = true ->
  exists n, sp_xml sh = Some n /\ elem_wf n /\ elem_tag n = "p:sp" /\ sp_of_xml n = Some sh.
Proof.
  destruct sh as [id name [[[[x y] cx] cy]|] [tf|]]; unfold sp_saved_ok; cbn; [|done..].
  intros Htf. eexists. split; [reflexivity|]. split; [|split; [done|]].
  - repeat first [exact (txbody_elem tf) | apply elem_wf_elem; [reflexivity|reflexivity|] | constructor].
  - pose proof (tf_of_xml_txbody tf Htf) as Hr.
    destruct (txbody_xml tf) as [tt tats tks|] eqn:ET; [|done].
    assert (tt = "p:txBody" /\ tats = []) as [-> ->] by (unfold txbody_xml in ET; by injection ET).
    simpl. rewrite !int_of_xml_int. simpl. by rewrite Hr.
Qed.

Lemma shapes_xml_ok shs :
  forallb sp_saved_ok shs = true ->
  exists ns, mapM sp_xml shs = Some ns /\ Forall elem_wf ns /\
    filter (fun k => elem_tag k = "p:sp") ns = ns /\ mapM sp_of_xml ns = Some shs.
Proof.
  induction shs as [|sh shs IH]; [by exists []|]. cbn [forallb]. intros [Hsh Hshs]%andb_prop.
  destruct (sp_xml_ok sh Hsh) as (n & En & Hwf & Ht & Hr).
  destruct (IH Hshs) as (ns & Ens & Hwfs & Hf & Hrs). exists (n :: ns).
  cbn [mapM]. rewrite En, Ens. cbn [mbind option_bind]. split; [done|]. split; [by constructor|].
  split; [rewrite filter_cons_True by done; by rewrite Hf|]. cbn [mapM]. by rewrite Hr, Hrs.
Qed.

(** A slide whose shapes are typed text boxes is written, and its part
    reads back as its shapes: ids, names, positions, sizes and text. *)
Lemma read_slide_write sl :
  forallb sp_saved_ok (Presentation.sl_shapes sl) = true ->
  exists s, write_slide sl = Some s /\ read_slide s = Some (Presentation.sl_shapes sl).
Proof.
  intros H. destruct (shapes_xml_ok _ H) as (ns & Ens & Hwf & Hf & Hr).
  unfold write_slide, slide_xml. rewrite Ens. eexists. split; [reflexivity|].
  unfold read_slide. rewrite parse_xml_render_elem.
  - simpl. rewrite !filter_cons_False by (cbn; congruence). rewrite Hf. exact Hr.
  - repeat first [exact Hwf | apply elem_wf_elem; [reflexivity|reflexivity|] | constructor].
Qed.

End Oxml.
