(* ===== verification/Generate.v ===== *)
(** * The script: [src/generate_ppt.py]

    The whole program as a computation of the state monad [PyM] on the
    shared presentation:
    - [setup] is lines 7-9 (the slide size);
    - [add_title_slide] is lines 11-30;
    - [add_content_slide] is lines 32-54, with its loop
      [for item in content_list] as [add_items];
    - the item lists of the thirteen content slides are lines 60-225;
    - [thank_you_slide] is lines 228-251;
    - [generate_ppt] is the whole sequence, lines 7-251.
    [prs.save] and the final [print] (lines 254-255) are modelled in
    [Saved], [Package] and [Script].

    Every [Inches(..)], [Pt(..)] and [RGBColor(..)] of the source is
    evaluated where Python evaluates it, with its error case.  A proxy
    the source names ([slide], [title_box], [title_p], [p]) is a
    reference into the presentation. *)

From Stdlib Require Import Floats.
From S2P Require Import Prelude Units Color Text Presentation Inv Wf Typed.


#[local] Set Warnings "-inexact-float".
Local Open Scope Z_scope.

Module Generate.

Import Units Presentation Inv Wf Typed.

(** [Inches(x)], [Pt(x)] and [RGBColor(r, g, b)] inside the script. *)
Definition inches (x : PyNum) : PyM Z := lift (Inches x).
Definition pt (x : PyNum) : PyM Z := lift (Pt x).
Definition rgb (r g b : Z) : PyM Color.RGB := lift (Color.RGBColor r g b).

(** Lines 7-9: [prs = Presentation()] is the initial state
    [Presentation_new]; then [prs.slide_width = Inches(10)] and
    [prs.slide_height = Inches(7.5)]. *)
Definition setup : PyM unit :=
  w ← inches (PyInt 10); set_slide_width w;;
  h ← inches (PyFloat 7.5%float); set_slide_height h.

(** Lines 11-30: [add_title_slide(title, subtitle)]. *)
Definition add_title_slide (title subtitle : string) : PyM nat :=
  layout ← slide_layouts 6;
  slide ← add_slide layout;
  x ← inches (PyInt 1); y ← inches (PyFloat 2.5%float); cx ← inches (PyInt 8); cy ← inches (PyInt 1);
  title_box ← add_textbox slide x y cx cy;
  set_text title_box title;;
  title_p ← paragraph title_box 0;
  sz ← pt (PyInt 54); font_size title_p sz;;
  font_bold title_p true;;
  c ← rgb 75 107 251; font_color_rgb title_p c;;
  alignment title_p Text.CENTER;;
  x ← inches (PyInt 1); y ← inches (PyInt 4); cx ← inches (PyInt 8); cy ← inches (PyFloat 0.8%float);
  subtitle_box ← add_textbox slide x y cx cy;
  set_text subtitle_box subtitle;;
  subtitle_p ← paragraph subtitle_box 0;
  sz ← pt (PyInt 24); font_size subtitle_p sz;;
  alignment subtitle_p Text.CENTER;;
  mret slide.

(** Lines 47-52: [for item in content_list:] a new paragraph with the
    item's text, 18 pt, 12 pt of space before, level 0. *)
Fixpoint add_items (text_frame : ShapeRef) (content_list : list string) : PyM unit :=
  match content_list with
  | [] => mret tt
  | item :: rest =>
      p ← add_paragraph text_frame;
      para_set_text p item;;
      sz ← pt (PyInt 18); font_size p sz;;
      sb ← pt (PyInt 12); space_before p sb;;
      level p 0;;
      add_items text_frame rest
  end.

(** Lines 32-54: [add_content_slide(title, content_list)]. *)
Definition add_content_slide (title : string) (content_list : list string) : PyM nat :=
  layout ← slide_layouts 6;
  slide ← add_slide layout;
  x ← inches (PyFloat 0.5%float); y ← inches (PyFloat 0.5%float); cx ← inches (PyInt 9);
  cy ← inches (PyFloat 0.8%float);
  title_box ← add_textbox slide x y cx cy;
  set_text title_box title;;
  title_p ← paragraph title_box 0;
  sz ← pt (PyInt 36); font_size title_p sz;;
  font_bold title_p true;;
  c ← rgb 75 107 251; font_color_rgb title_p c;;
  x ← inches (PyInt 1); y ← inches (PyFloat 1.8%float); cx ← inches (PyInt 8); cy ← inches (PyInt 5);
  content_box ← add_textbox slide x y cx cy;
  set_word_wrap content_box (Some true);;
  add_items content_box content_list;;
  mret slide.

(** ** The slide data *)

(** [generate_ppt.py], lines 60-66: the items of "Project Overview". *)
Definition project_overview : list string := [
   "🌐 EcoSystem - Seamless cross-device file sharing solution";
   "📱 Share files between devices using simple 6-character codes";
   "☁️ Cloud-based storage powered by Cloudinary";
   "🔒 Secure authentication with JWT tokens";
   "📊 Real-time storage tracking and management"]%string.

(** [generate_ppt.py], lines 69-76: the items of "Key Features". *)
Definition key_features : list string := [
   "📤 File Upload - Support for images, videos, documents (up to 500MB)";
   "🔑 Access Codes - Generate unique 6-character codes for sharing";
   "📱 QR Code Generation - Scan to retrieve files instantly";
   "💬 Text Sharing - Share text content alongside files";
   "⬇️ Cross-Device Retrieval - Access files from any device";
   "📊 Storage Dashboard - Track usage with 25GB free storage"]%string.

(** [generate_ppt.py], lines 79-91: the items of "Technology Stack". *)
Definition technology_stack : list string := [
   "Frontend:";
   "  • React.js - Modern UI framework";
   "  • Framer Motion - Smooth animations";
   "  • Axios - HTTP client";
   "  • QRCode.js - QR code generation";
   "";
   "Backend:";
   "  • Node.js + Express.js - REST API";
   "  • JWT - Authentication";
   "  • Bcrypt - Password hashing";
   "  • Cloudinary - File storage & CDN"]%string.

(** [generate_ppt.py], lines 94-105: the items of "System Architecture". *)
Definition system_architecture : list string := [
   "Frontend (React) → Vercel Hosting";
   "  ↓";
   "Backend API (Express) → Render Hosting";
   "  ↓";
   "Cloudinary Storage → File CDN";
   "";
   "Authentication Flow:";
   "  • User signup/login with JWT tokens";
   "  • Persistent user storage in JSON file";
   "  • Secure password hashing with bcrypt"]%string.

(** [generate_ppt.py], lines 108-119: the items of "How It Works". *)
Definition how_it_works : list string := [
   "1️⃣ Upload Process:";
   "   • User selects files or enters text";
   "   • System generates unique 6-character code";
   "   • Files uploaded to Cloudinary with code tag";
   "   • QR code generated for easy sharing";
   "";
   "2️⃣ Retrieval Process:";
   "   • User enters access code or scans QR";
   "   • System searches Cloudinary by code tag";
   "   • Files displayed with download options"]%string.

(** [generate_ppt.py], lines 122-129: the items of "User Interface Highlights". *)
Definition user_interface : list string := [
   "🏠 Home Page - Welcome screen with project intro";
   "📊 Dashboard - File management and storage tracking";
   "📤 Upload Modal - Drag-and-drop file selection";
   "🔍 Retrieve Modal - Code entry with validation";
   "📱 Mobile Responsive - Optimized for all devices";
   "🎨 Modern Design - Clean, intuitive interface"]%string.

(** [generate_ppt.py], lines 132-139: the items of "Security & Privacy". *)
Definition security_privacy : list string := [
   "🔐 JWT Authentication - Secure token-based auth";
   "🔒 Password Hashing - Bcrypt encryption";
   "🌐 CORS Protection - Controlled API access";
   "👤 User Isolation - Personal file management";
   "🔑 Unique Access Codes - Random 6-char generation";
   "⏰ Session Management - 24-hour token expiry"]%string.

(** [generate_ppt.py], lines 142-155: the items of "Deployment Details". *)
Definition deployment_details : list string := [
   "Production URLs:";
   "  • Frontend: https://eco-stemm-ewx3.vercel.app";
   "  • Backend: https://ecosystem-file-share-1.onrender.com";
   "";
   "Hosting Platforms:";
   "  • Vercel - Frontend deployment with auto-deploy";
   "  • Render - Backend API with persistent storage";
   "  • Cloudinary - 25GB free cloud storage";
   "";
   "Environment:";
   "  • Node.js runtime";
   "  • Production-ready configuration"]%string.

(** [generate_ppt.py], lines 158-168: the items of "Storage Management". *)
Definition storage_management : list string := [
   "📊 Real-time Usage Tracking";
   "  • Visual progress bar";
   "  • Used vs. Available display";
   "  • 25GB free storage limit";
   "";
   "🗑️ Developer Tools";
   "  • Clear all storage (dev@secureshare.com only)";
   "  • Storage analytics";
   "  • File management dashboard"]%string.

(** [generate_ppt.py], lines 171-185: the items of "User Accounts". *)
Definition user_accounts : list string := [
   "Test Account:";
   "  • Email: test@test.com";
   "  • Password: test123";
   "";
   "Developer Account:";
   "  • Email: dev@secureshare.com";
   "  • Password: dev123";
   "  • Additional privileges: Storage management";
   "";
   "Features:";
   "  • Persistent user storage";
   "  • Secure authentication";
   "  • Personal file tracking"]%string.

(** [generate_ppt.py], lines 188-197: the items of "Recent Optimizations". *)
Definition recent_optimizations : list string := [
   "✅ Fixed mobile keyboard input lag";
   "✅ Optimized upload speed (500MB support)";
   "✅ Improved download functionality";
   "✅ Enhanced error handling";
   "✅ Added upload progress tracking";
   "✅ Mobile-responsive design";
   "✅ QR code persistence management";
   "✅ Cross-device file retrieval"]%string.

(** [generate_ppt.py], lines 200-210: the items of "Future Roadmap". *)
Definition future_roadmap : list string := [
   "🚀 Planned Features:";
   "  • File expiration settings";
   "  • Password-protected shares";
   "  • Bulk file operations";
   "  • File preview functionality";
   "  • Share history tracking";
   "  • Email notifications";
   "  • Advanced search filters";
   "  • Multi-language support"]%string.

(** [generate_ppt.py], lines 213-225: the items of "Challenges Overcome". *)
Definition challenges_overcome : list string := [
   "⚡ Input Lag Issue:";
   "  • Problem: Mobile keyboard vanishing on input";
   "  • Solution: React.memo + ref-based state management";
   "";
   "📤 Upload Performance:";
   "  • Problem: Slow uploads for large files";
   "  • Solution: Chunked uploads + timeout handling";
   "";
   "⬇️ Download Errors:";
   "  • Problem: CORS issues with blob downloads";
   "  • Solution: Direct link downloads"]%string.

(** Lines 228-251: the closing slide, written inline. *)
Definition thank_you_slide : PyM unit :=
  layout ← slide_layouts 6;
  slide ← add_slide layout;
  x ← inches (PyInt 1); y ← inches (PyFloat 2.5%float); cx ← inches (PyInt 8); cy ← inches (PyFloat 1.5%float);
  title_box ← add_textbox slide x y cx cy;
  set_text title_box "Thank You!";;
  title_p ← paragraph title_box 0;
  sz ← pt (PyInt 54); font_size title_p sz;;
  font_bold title_p true;;
  c ← rgb 75 107 251; font_color_rgb title_p c;;
  alignment title_p Text.CENTER;;
  x ← inches (PyInt 1); y ← inches (PyFloat 4.5%float); cx ← inches (PyInt 8); cy ← inches (PyInt 1);
  subtitle_box ← add_textbox slide x y cx cy;
  set_text subtitle_box "EcoSystem - Share Files Seamlessly";;
  subtitle_p ← paragraph subtitle_box 0;
  sz ← pt (PyInt 24); font_size subtitle_p sz;;
  alignment subtitle_p Text.CENTER;;
  x ← inches (PyInt 1); y ← inches (PyFloat 5.5%float); cx ← inches (PyInt 8); cy ← inches (PyFloat 0.8%float);
  contact_box ← add_textbox slide x y cx cy;
  set_text contact_box "https://eco-stemm-ewx3.vercel.app";;
  contact_p ← paragraph contact_box 0;
  sz ← pt (PyInt 18); font_size contact_p sz;;
  c ← rgb 100 100 100; font_color_rgb contact_p c;;
  alignment contact_p Text.CENTER.

(** Lines 6-251: the whole script, up to [prs.save]. *)
Definition generate_ppt : PyM unit :=
  setup;;
  add_title_slide "EcoSystem" "Cross-Device File Sharing Platform";;
  add_content_slide "Project Overview" project_overview;;
  add_content_slide "Key Features" key_features;;
  add_content_slide "Technology Stack" technology_stack;;
  add_content_slide "System Architecture" system_architecture;;
  add_content_slide "How It Works" how_it_works;;
  add_content_slide "User Interface Highlights" user_interface;;
  add_content_slide "Security & Privacy" security_privacy;;
  add_content_slide "Deployment Details" deployment_details;;
  add_content_slide "Storage Management" storage_management;;
  add_content_slide "User Accounts" user_accounts;;
  add_content_slide "Recent Optimizations" recent_optimizations;;
  add_content_slide "Future Roadmap" future_roadmap;;
  add_content_slide "Challenges Overcome" challenges_overcome;;
  thank_you_slide.

(** The presentation [prs.save] writes: the final state of a run from
    [Presentation()]. *)
Definition final_presentation : Result Presentation := exec generate_ppt Presentation_new.

(** ** The slides the script builds, as values

    These describe the result of each slide builder: the shapes it adds,
    their geometry in EMU, and their text frames. *)

(** A text frame whose first paragraph has font [f] and alignment [a]. *)
Definition styled_first (f : Text.Font) (a : option Text.Align) (tf : Text.TextFrame)
    : Text.TextFrame :=
  match Text.tf_paras tf with
  | q :: qs =>
      Text.with_paras tf
        (Text.mkPara (Text.p_children q) f a (Text.p_space_before q) (Text.p_level q) :: qs)
  | [] => tf
  end.

(** A text box of the script: [new_textbox] with its frame filled in. *)
Definition text_box (id : Z) (geom : Z * Z * Z * Z) (tf : Text.TextFrame) : Shape :=
  mkShape id (String.append "TextBox " (pretty (id - 1)%Z)) (Some geom) (Some tf).

(** A title line: the text [s] in a new text box, its first paragraph
    formatted. *)
Definition title_tf (f : Text.Font) (a : option Text.Align) (s : string) : Text.TextFrame :=
  styled_first f a (Text.tf_set_text Text.new_textbox_tf s).

(** One paragraph of [add_items]: the item's text, 18 pt (1800
    centipoints), 12 pt before (1200 centipoints), level 0. *)
Definition item_para (item : string) : Text.Paragraph :=
  Text.mkPara (Text.p_children (Text.para_set_text Text.new_p item))
    (Text.mkFont (Some 1800) None None) None (Some 1200) 0.

(** The body of a content slide: word-wrapped, and its paragraphs are
    the empty paragraph of the new text box followed by one per item. *)
Definition content_body (items : list string) : Text.TextFrame :=
  Text.mkTF (Some true) (Some Text.SHAPE_TO_FIT_TEXT) (Text.new_p :: map item_para items).

(** The slide [add_content_slide title items] adds, with slide id [sid]. *)
Definition content_slide (sid : Z) (title : string) (items : list string) : Slide :=
  mkSlide sid 6
    [text_box 2 (457200, 457200, 8229600, 731520)
       (title_tf (Text.mkFont (Some 3600) (Some true) (Some "4B6BFB")) None title);
     text_box 3 (914400, 1645920, 7315200, 4572000) (content_body items)]%string.

(** The slide [add_title_slide title subtitle] adds, with slide id [sid]. *)
Definition title_slide (sid : Z) (title subtitle : string) : Slide :=
  mkSlide sid 6
    [text_box 2 (914400, 2286000, 7315200, 914400)
       (title_tf (Text.mkFont (Some 5400) (Some true) (Some "4B6BFB")) (Some Text.CENTER) title);
     text_box 3 (914400, 3657600, 7315200, 731520)
       (title_tf (Text.mkFont (Some 2400) None None) (Some Text.CENTER) subtitle)]%string.

(** The slide [thank_you_slide] adds, with slide id [sid]: three boxes. *)
Definition closing_slide (sid : Z) : Slide :=
  mkSlide sid 6
    [text_box 2 (914400, 2286000, 7315200, 1371600)
       (title_tf (Text.mkFont (Some 5400) (Some true) (Some "4B6BFB")) (Some Text.CENTER)
          "Thank You!");
     text_box 3 (914400, 4114800, 7315200, 914400)
       (title_tf (Text.mkFont (Some 2400) None None) (Some Text.CENTER)
          "EcoSystem - Share Files Seamlessly");
     text_box 4 (914400, 5029200, 7315200, 731520)
       (title_tf (Text.mkFont (Some 1800) None (Some "646464")) (Some Text.CENTER)
          "https://eco-stemm-ewx3.vercel.app")]%string.

(** The fifteen slides of the deck, with the slide ids python-pptx gives
    them (256 is the first). *)
Definition expected_deck : list Slide :=
  [title_slide 256 "EcoSystem" "Cross-Device File Sharing Platform";
   content_slide 257 "Project Overview" project_overview;
   content_slide 258 "Key Features" key_features;
   content_slide 259 "Technology Stack" technology_stack;
   content_slide 260 "System Architecture" system_architecture;
   content_slide 261 "How It Works" how_it_works;
   content_slide 262 "User Interface Highlights" user_interface;
   content_slide 263 "Security & Privacy" security_privacy;
   content_slide 264 "Deployment Details" deployment_details;
   content_slide 265 "Storage Management" storage_management;
   content_slide 266 "User Accounts" user_accounts;
   content_slide 267 "Recent Optimizations" recent_optimizations;
   content_slide 268 "Future Roadmap" future_roadmap;
   content_slide 269 "Challenges Overcome" challenges_overcome;
   closing_slide 270]%string.

(** ** The deck the script promises

    The abstract description: a title slide, thirteen content slides
    with their item lists, and a closing slide.  A reader of the saved
    deck sees, on each slide, each text box's paragraphs. *)
Inductive SlideSpec :=
  | TitleSpec (title subtitle : string)
  | ContentSpec (title : string) (items : list string)
  | ClosingSpec (title subtitle contact : string).

Definition deck_spec : list SlideSpec :=
  [TitleSpec "EcoSystem" "Cross-Device File Sharing Platform";
   ContentSpec "Project Overview" project_overview;
   ContentSpec "Key Features" key_features;
   ContentSpec "Technology Stack" technology_stack;
   ContentSpec "System Architecture" system_architecture;
   ContentSpec "How It Works" how_it_works;
   ContentSpec "User Interface Highlights" user_interface;
   ContentSpec "Security & Privacy" security_privacy;
   ContentSpec "Deployment Details" deployment_details;
   ContentSpec "Storage Management" storage_management;
   ContentSpec "User Accounts" user_accounts;
   ContentSpec "Recent Optimizations" recent_optimizations;
   ContentSpec "Future Roadmap" future_roadmap;
   ContentSpec "Challenges Overcome" challenges_overcome;
   ClosingSpec "Thank You!" "EcoSystem - Share Files Seamlessly"
     "https://eco-stemm-ewx3.vercel.app"]%string.

(** The paragraphs' texts of a text box. *)
Definition box_view (sh : Shape) : list string :=
  match sp_tf sh with Some tf => map Text.para_text (Text.tf_paras tf) | None => [] end.

Definition slide_view (sl : Slide) : list (list string) := map box_view (sl_shapes sl).

Definition deck_view (p : Presentation) : list (list (list string)) :=
  map slide_view (prs_slides p).

(** What the description shows: one line per title box, and the items
    of a content slide after the empty paragraph a new text box starts
    with. *)
Definition spec_view (s : SlideSpec) : list (list string) :=
  match s with
  | TitleSpec t st => [[t]; [st]]
  | ContentSpec t items => [[t]; EmptyString :: items]
  | ClosingSpec t st c => [[t]; [st]; [c]]
  end.

(** ** How tall the text of a box is, at least

    A lower bound that holds for every font: a paragraph is at least as
    tall as its space before plus one line of its font size, and a
    paragraph with no size set counts for nothing.  A text frame adds
    its top and bottom insets; the script's boxes have DrawingML's
    default [tIns] and [bIns] of 45720 EMU (0.05 inch).  Heights are in
    EMU, 127 to a centipoint. *)
Definition DEFAULT_TOP_INSET : Z := 45720.
Definition DEFAULT_BOTTOM_INSET : Z := 45720.

Definition para_min_height (q : Text.Paragraph) : Z :=
  127 * (default 0 (Text.p_space_before q) + default 0 (Text.f_size (Text.p_font q))).

Definition paras_min_height (qs : list Text.Paragraph) : Z :=
  foldr (fun q h => para_min_height q + h) 0 qs.

Definition tf_min_height (tf : Text.TextFrame) : Z :=
  DEFAULT_TOP_INSET + DEFAULT_BOTTOM_INSET + paras_min_height (Text.tf_paras tf).

(** A box the lower bound on its text's height already exceeds: its
    text cannot fit, and [spAutoFit] grows the shape past the height the
    script gave it.  ([false] does not say that the text fits: the bound
    leaves out line spacing.) *)
Definition surely_overflows (sh : Shape) : bool :=
  match sp_xfrm sh, sp_tf sh with
  | Some (_, _, _, cy), Some tf => cy <? tf_min_height tf
  | _, _ => false
  end.

(** The strings a slide description assigns to text frames. *)
Definition spec_texts (s : SlideSpec) : list string :=
  match s with
  | TitleSpec t st => [t; st]
  | ContentSpec t items => t :: items
  | ClosingSpec t st c => [t; st; c]
  end.

(** The colour of a shape's first paragraph, as [font.color.rgb] reads it. *)
Definition box_colour (sh : Shape) : option (Result Color.RGB) :=
  match sp_tf sh with
  | Some tf => match Text.tf_paras tf with q :: _ => Text.font_rgb (Text.p_font q) | [] => None end
  | None => None
  end.

(** The colour of a slide's title, its first box. *)
Definition title_colour (sl : Slide) : option (Result Color.RGB) :=
  match sl_shapes sl with sh :: _ => box_colour sh | [] => None end.

(** Every string of a slide description is plain. *)
Definition spec_plain (s : SlideSpec) : bool :=
  match s with
  | TitleSpec t st => Text.plain t && Text.plain st
  | ContentSpec t items => Text.plain t && forallb Text.plain items
  | ClosingSpec t st c => Text.plain t && Text.plain st && Text.plain c
  end.

(** ** The behaviour of the slide builders *)

Lemma add_items_last p l sid li sh0 id nm xf w a ps items :
  add_items (mkShapeRef (length l) 1) items
    (with_slides p (l ++ [mkSlide sid li [sh0; mkShape id nm xf (Some (Text.mkTF w a ps))]])) =
  Ok (tt, with_slides p (l ++ [mkSlide sid li [sh0; mkShape id nm xf
                                   (Some (Text.mkTF w a (ps ++ map item_para items)))]])).
Proof.
  revert ps. induction items as [|item items IH]; intros ps.
  - cbn. by rewrite app_nil_r.
  - cbn [add_items]. unfold Presentation.para_set_text, font_size, space_before, level, pt.
    do 7 st_step.
    etransitivity; [exact (IH (ps ++ [item_para item]))|]. by rewrite <- app_assoc.
Qed.

(** The Blank layout at position 6, with no placeholder to clone. *)
Definition blank_layout_at_6 (p : Presentation) : Prop :=
  match prs_layouts p !! 6%nat with Some lay => lay_placeholders lay = [] | None => False end.

Lemma slide_layouts_6 p : blank_layout_at_6 p -> slide_layouts 6 p = Ok (6%nat, p).
Proof.
  unfold blank_layout_at_6. destruct (prs_layouts p !! 6%nat) eqn:H1; [intros _|done].
  apply (slide_layouts_nat p 6). by apply lookup_lt_Some in H1.
Qed.

(** With fewer than seven layouts, [prs.slide_layouts[6]] raises. *)
Lemma slide_layouts_6_err p :
  prs_layouts p !! 6%nat = None -> slide_layouts 6 p = Err IndexError.
Proof.
  intros H. apply lookup_ge_None in H. unfold slide_layouts, py_index.
  unfold mbind, st_bind, gets, lift. cbn -[Z.of_nat].
  destruct (Z.ltb_spec 6 (Z.of_nat (length (prs_layouts p)))); [lia|by rewrite ?andb_false_r].
Qed.

(** A builder that starts with [prs.slides.add_slide(prs.slide_layouts[6])]
    raises [IndexError] before any change when layout 6 is missing. *)
Lemma starts_with_layout_6_err {A} p (k : nat -> PyM A) :
  prs_layouts p !! 6%nat = None -> (layout ← slide_layouts 6; k layout) p = Err IndexError.
Proof. intros H. apply bind_err. by apply slide_layouts_6_err. Qed.

Lemma add_slide_6 p sid :
  blank_layout_at_6 p -> next_slide_id (map sl_id (prs_slides p)) = Ok sid ->
  add_slide 6 p = Ok (length (prs_slides p), with_slides p (prs_slides p ++ [mkSlide sid 6 []])).
Proof.
  unfold blank_layout_at_6. destruct (prs_layouts p !! 6%nat) as [lay|] eqn:H1; [|done].
  intros H2 H3. by apply (add_slide_empty_layout p 6 lay).
Qed.

Lemma add_content_slide_run p sid title items :
  blank_layout_at_6 p -> next_slide_id (map sl_id (prs_slides p)) = Ok sid ->
  add_content_slide title items p =
  Ok (length (prs_slides p), with_slides p (prs_slides p ++ [content_slide sid title items])).
Proof.
  intros Hb Hid. destruct (split_by_cons Text.is_lf title) as (r & rs & Hs).
  unfold add_content_slide, content_slide, title_tf, styled_first.
  rewrite (bind_ok _ _ _ _ _ (slide_layouts_6 p Hb)). cbv beta.
  rewrite (bind_ok _ _ _ _ _ (add_slide_6 p sid Hb Hid)). cbv beta.
  unfold inches, pt, rgb, set_text, set_word_wrap, font_size, font_bold, font_color_rgb.
  do 6 st_step.
  rewrite !(Text.tf_set_text_split _ _ _ _ Hs). norm_state.
  repeat st_step.
  erewrite bind_ok; [|apply add_items_last]. reflexivity.
Qed.

Lemma add_title_slide_run p sid title subtitle :
  blank_layout_at_6 p -> next_slide_id (map sl_id (prs_slides p)) = Ok sid ->
  add_title_slide title subtitle p =
  Ok (length (prs_slides p), with_slides p (prs_slides p ++ [title_slide sid title subtitle])).
Proof.
  intros Hb Hid. destruct (split_by_cons Text.is_lf title) as (r & rs & Hs).
  destruct (split_by_cons Text.is_lf subtitle) as (r' & rs' & Hs').
  unfold add_title_slide, title_slide, title_tf, styled_first.
  rewrite (bind_ok _ _ _ _ _ (slide_layouts_6 p Hb)). cbv beta.
  rewrite (bind_ok _ _ _ _ _ (add_slide_6 p sid Hb Hid)). cbv beta.
  unfold inches, pt, rgb, set_text, font_size, font_bold, font_color_rgb, alignment.
  do 6 st_step.
  rewrite !(Text.tf_set_text_split _ _ _ _ Hs). norm_state.
  do 13 st_step.
  rewrite !(Text.tf_set_text_split _ _ _ _ Hs'). norm_state.
  repeat st_step. reflexivity.
Qed.

Lemma thank_you_slide_run p sid :
  blank_layout_at_6 p -> next_slide_id (map sl_id (prs_slides p)) = Ok sid ->
  thank_you_slide p = Ok (tt, with_slides p (prs_slides p ++ [closing_slide sid])).
Proof.
  intros Hb Hid. unfold thank_you_slide, closing_slide, title_tf, styled_first.
  rewrite (bind_ok _ _ _ _ _ (slide_layouts_6 p Hb)). cbv beta.
  rewrite (bind_ok _ _ _ _ _ (add_slide_6 p sid Hb Hid)). cbv beta.
  unfold inches, pt, rgb, set_text, font_size, font_bold, font_color_rgb, alignment.
  repeat st_step.
  erewrite modify_para_last; [|reflexivity..]. norm_state. reflexivity.
Qed.

(** ** Views of the built slides *)

Lemma title_tf_view f a s :
  Text.plain s = true -> map Text.para_text (Text.tf_paras (title_tf f a s)) = [s].
Proof.
  intros H. pose proof (Text.tf_set_text_plain Text.new_textbox_tf s H) as E.
  unfold title_tf, styled_first.
  destruct (Text.tf_paras (Text.tf_set_text Text.new_textbox_tf s)) as [|q qs]; [done|].
  exact E.
Qed.

Lemma item_para_text item : Text.plain item = true -> Text.para_text (item_para item) = item.
Proof. apply Text.para_text_set_text_plain. Qed.

Lemma content_body_view items :
  forallb Text.plain items = true ->
  map Text.para_text (Text.tf_paras (content_body items)) = EmptyString :: items.
Proof.
  intros H. cbn [content_body Text.tf_paras map]. f_equal.
  induction items as [|i items IH]; [done|]. cbn [map forallb] in H |- *.
  apply andb_prop in H as [Hi Hs]. by rewrite item_para_text, IH.
Qed.

(** ** The whole run *)

(** The state after [setup]: the size is set to the values it already
    had. *)
Lemma setup_spec :
  setup Presentation_new = Ok (tt, mkPres 9144000 6858000 default_layouts []).
Proof. vm_compute. reflexivity. Qed.

Ltac blank6 := reflexivity.

(** Keeps the presentation a record literal between the statements, so
    that its term does not double at each slide. *)
Ltac norm_prs := unfold with_slides; cbn [prs_slides prs_layouts prs_slide_width prs_slide_height app].

(** C1: The script runs to its end without raising, and the presentation
    it saves is the title slide, the thirteen content slides and the
    closing slide, in source order, with slide ids 256 to 270. *)
Theorem generate_ppt_spec :
  generate_ppt Presentation_new = Ok (tt, mkPres 9144000 6858000 default_layouts expected_deck).
Proof.
  unfold generate_ppt. rewrite (bind_ok _ _ _ _ _ setup_spec). cbv beta.
  erewrite bind_ok; [|apply add_title_slide_run; [blank6 | lazy; reflexivity]].
  cbv beta; norm_prs.
  do 13 (erewrite bind_ok; [|apply add_content_slide_run; [blank6 | lazy; reflexivity]];
         cbv beta; norm_prs).
  erewrite thank_you_slide_run; [reflexivity | blank6 | lazy; reflexivity].
Qed.

(** The saved presentation, computed. *)
Lemma final_presentation_eq :
  final_presentation = Ok (mkPres 9144000 6858000 default_layouts expected_deck).
Proof. vm_compute. reflexivity. Qed.

Lemma deck_view_snoc p sl :
  deck_view (with_slides p (prs_slides p ++ [sl])) = deck_view p ++ [slide_view sl].
Proof. unfold deck_view. cbn. by rewrite map_app. Qed.

Lemma content_slide_view sid t items :
  spec_plain (ContentSpec t items) = true ->
  slide_view (content_slide sid t items) = spec_view (ContentSpec t items).
Proof.
  cbn [spec_plain]. intros [Ht Hi]%andb_prop.
  unfold slide_view, content_slide, box_view. cbn [sl_shapes map text_box sp_tf].
  by rewrite title_tf_view, content_body_view.
Qed.

Lemma title_slide_view sid t st :
  spec_plain (TitleSpec t st) = true ->
  slide_view (title_slide sid t st) = spec_view (TitleSpec t st).
Proof.
  cbn [spec_plain]. intros [Ht Hs]%andb_prop.
  unfold slide_view, title_slide, box_view. cbn [sl_shapes map text_box sp_tf].
  by rewrite !title_tf_view.
Qed.

(** A template whose layout 6, when there is one, has no placeholder to
    clone (as the default template's "Blank"). *)
Definition layout_6_blank_if_any (p : Presentation) : Prop :=
  forall lay, prs_layouts p !! 6%nat = Some lay -> lay_placeholders lay = [].

Lemma blank_layout_at_6_of p lay :
  layout_6_blank_if_any p -> prs_layouts p !! 6%nat = Some lay -> blank_layout_at_6 p.
Proof. intros Hb H. unfold blank_layout_at_6. rewrite H. by apply Hb. Qed.

(** ** Properties of the slide builders *)

(** C2: [add_content_slide title content_list], on every branch: it raises
    [IndexError] and changes nothing when the template has no layout 6;
    otherwise it appends one slide with the next slide id, holding the
    title box (36 pt, bold, blue) and the word-wrapped body box with one
    18 pt paragraph per item. *)
Theorem add_content_slide_spec p sid title items :
  layout_6_blank_if_any p -> next_slide_id (map sl_id (prs_slides p)) = Ok sid ->
  add_content_slide title items p =
  match prs_layouts p !! 6%nat with
  | Some _ => Ok (length (prs_slides p),
                  with_slides p (prs_slides p ++ [content_slide sid title items]))
  | None => Err IndexError
  end.
Proof.
  intros Hb Hid. destruct (prs_layouts p !! 6%nat) as [lay|] eqn:H6.
  - apply add_content_slide_run; [exact (blank_layout_at_6_of p lay Hb H6)|exact Hid].
  - by apply starts_with_layout_6_err.
Qed.

(** C5: [add_title_slide title subtitle], on every branch: [IndexError]
    with no change when there is no layout 6; otherwise one new slide
    with the title box (54 pt, bold, blue, centred) and the subtitle box
    (24 pt, centred). *)
Theorem add_title_slide_spec p sid title subtitle :
  layout_6_blank_if_any p -> next_slide_id (map sl_id (prs_slides p)) = Ok sid ->
  add_title_slide title subtitle p =
  match prs_layouts p !! 6%nat with
  | Some _ => Ok (length (prs_slides p),
                  with_slides p (prs_slides p ++ [title_slide sid title subtitle]))
  | None => Err IndexError
  end.
Proof.
  intros Hb Hid. destruct (prs_layouts p !! 6%nat) as [lay|] eqn:H6.
  - apply add_title_slide_run; [exact (blank_layout_at_6_of p lay Hb H6)|exact Hid].
  - by apply starts_with_layout_6_err.
Qed.

(** C6: The closing slide (lines 228-251), on every branch: [IndexError]
    with no change when there is no layout 6; otherwise one new slide
    with three text boxes (title, subtitle and contact line). *)
Theorem thank_you_slide_spec p sid :
  layout_6_blank_if_any p -> next_slide_id (map sl_id (prs_slides p)) = Ok sid ->
  thank_you_slide p =
  match prs_layouts p !! 6%nat with
  | Some _ => Ok (tt, with_slides p (prs_slides p ++ [closing_slide sid]))
  | None => Err IndexError
  end.
Proof.
  intros Hb Hid. destruct (prs_layouts p !! 6%nat) as [lay|] eqn:H6.
  - apply thank_you_slide_run; [exact (blank_layout_at_6_of p lay Hb H6)|exact Hid].
  - by apply starts_with_layout_6_err.
Qed.

(** C4: [add_content_slide] refines its description: what a reader sees
    of the deck after it is what was seen before, followed by the title
    line and the body's paragraphs (an empty one, then the items). *)
Theorem add_content_slide_refines p sid title items :
  blank_layout_at_6 p -> next_slide_id (map sl_id (prs_slides p)) = Ok sid ->
  spec_plain (ContentSpec title items) = true ->
  exists p', add_content_slide title items p = Ok (length (prs_slides p), p') /\
             deck_view p' = deck_view p ++ [spec_view (ContentSpec title items)].
Proof.
  intros Hb Hid Hp. eexists. split; [by apply add_content_slide_run|].
  by rewrite deck_view_snoc, content_slide_view.
Qed.

(** C7: [add_title_slide] refines its description: the deck's view gains
    the title line and the subtitle line. *)
Theorem add_title_slide_refines p sid title subtitle :
  blank_layout_at_6 p -> next_slide_id (map sl_id (prs_slides p)) = Ok sid ->
  spec_plain (TitleSpec title subtitle) = true ->
  exists p', add_title_slide title subtitle p = Ok (length (prs_slides p), p') /\
             deck_view p' = deck_view p ++ [spec_view (TitleSpec title subtitle)].
Proof.
  intros Hb Hid Hp. eexists. split; [by apply add_title_slide_run|].
  by rewrite deck_view_snoc, title_slide_view.
Qed.

Lemma title_tf_first f a s :
  exists q qs, Text.tf_paras (title_tf f a s) = q :: qs /\ Text.p_font q = f.
Proof.
  destruct (split_by_cons Text.is_lf s) as (r & rs & H).
  unfold title_tf, styled_first. rewrite (Text.tf_set_text_split _ _ _ _ H). cbn. eauto.
Qed.

(** C3: The finding on [add_content_slide]: the body box keeps the empty
    paragraph every new text box starts with, and [add_paragraph] adds
    each item after it.  The body has one paragraph more than the items,
    and its first paragraph is empty, with no font size and no spacing
    set. *)
Theorem add_content_slide_body_leading_empty p sid title items :
  blank_layout_at_6 p -> next_slide_id (map sl_id (prs_slides p)) = Ok sid ->
  exists p' sl body tf,
    add_content_slide title items p = Ok (length (prs_slides p), p') /\
    prs_slides p' = prs_slides p ++ [sl] /\
    sl_shapes sl !! 1%nat = Some body /\ sp_tf body = Some tf /\
    length (Text.tf_paras tf) = S (length items) /\
    head (Text.tf_paras tf) = Some Text.new_p /\
    Text.para_text Text.new_p = EmptyString /\ Text.f_size (Text.p_font Text.new_p) = None.
Proof.
  intros Hb Hid. do 4 eexists. split; [by apply add_content_slide_run|].
  split; [reflexivity|]. split; [reflexivity|]. split; [reflexivity|].
  cbn. by rewrite length_map.
Qed.

(** C9: The title colour of a slide [add_content_slide] adds reads back,
    through [RGBColor.from_string], as [RGBColor(75, 107, 251)]. *)
Theorem add_content_slide_title_colour p sid title items :
  blank_layout_at_6 p -> next_slide_id (map sl_id (prs_slides p)) = Ok sid ->
  exists p' sl,
    add_content_slide title items p = Ok (length (prs_slides p), p') /\
    prs_slides p' = prs_slides p ++ [sl] /\
    title_colour sl = Some (Ok (Color.mkRGB 75 107 251)).
Proof.
  intros Hb Hid. do 2 eexists. split; [by apply add_content_slide_run|]. split; [reflexivity|].
  destruct (title_tf_first (Text.mkFont (Some 3600) (Some true) (Some "4B6BFB"%string)) None title)
    as (q & qs & Hq & Hf).
  unfold title_colour, box_colour, content_slide, text_box. cbn [sl_shapes sp_tf]. rewrite Hq, Hf.
  reflexivity.
Qed.

(** C8: Every text the script assigns ([TextFrame.text] for the titles,
    subtitles and contact line, [_Paragraph.text] for the items) reads
    back exactly: none holds a line feed or a character that
    python-pptx escapes. *)
Theorem script_texts_roundtrip :
  Forall (fun s => (forall tf, Text.tf_text (Text.tf_set_text tf s) = s) /\
                   (forall q, Text.para_text (Text.para_set_text q s) = s))
    (concat (map spec_texts deck_spec)).
Proof.
  assert (H : Forall (fun s => Text.plain s = true) (concat (map spec_texts deck_spec))).
  { apply Forall_forall. intros s Hs.
    apply (forallb_forall Text.plain (concat (map spec_texts deck_spec)));
      [|by apply list_elem_of_In].
    vm_compute. reflexivity. }
  eapply Forall_impl; [exact H|]. intros s Hp. split.
  - intros tf. apply Text.tf_text_roundtrip. by apply andb_prop in Hp as [? _].
  - intros q. by apply Text.para_text_set_text_plain.
Qed.

(** ** The script keeps every invariant of the presentation

    Proved once against the interface [Inv.PrsInvariant]: each statement
    of the script is an API operation or a computation that only reads. *)
Section ScriptKeeps.
Context (I : Presentation -> Prop) `{!Inv.PrsInvariant I}.

Lemma inches_keeps x : Inv.keeps I (inches x).
Proof. apply Inv.keeps_lift. Qed.

Lemma pt_keeps x : Inv.keeps I (pt x).
Proof. apply Inv.keeps_lift. Qed.

Lemma rgb_keeps r g b : Inv.keeps I (rgb r g b).
Proof. apply Inv.keeps_lift. Qed.

#[local] Hint Resolve inches_keeps pt_keeps rgb_keeps : pptx.

Lemma add_items_keeps r items : Inv.keeps I (add_items r items).
Proof. induction items; cbn [add_items]; Inv.keeps_run. Qed.

#[local] Hint Resolve add_items_keeps : pptx.

Lemma setup_keeps : Inv.keeps I setup.
Proof. unfold setup. Inv.keeps_run. Qed.

Lemma add_title_slide_keeps title subtitle : Inv.keeps I (add_title_slide title subtitle).
Proof. unfold add_title_slide. Inv.keeps_run. Qed.

Lemma add_content_slide_keeps title items : Inv.keeps I (add_content_slide title items).
Proof. unfold add_content_slide. Inv.keeps_run. Qed.

Lemma thank_you_slide_keeps : Inv.keeps I thank_you_slide.
Proof. unfold thank_you_slide. Inv.keeps_run. Qed.

#[local] Hint Resolve setup_keeps add_title_slide_keeps add_content_slide_keeps
  thank_you_slide_keeps : pptx.

Lemma generate_ppt_keeps : Inv.keeps I generate_ppt.
Proof. unfold generate_ppt. Inv.keeps_run. Qed.

End ScriptKeeps.

(** C12: The loop of lines 47-52, run on any shape with a text frame,
    wherever it is, never raises: it appends one paragraph per item, in
    the order of the list, each with the item's text, 18 pt, 12 pt of
    space before and level 0, and writes nothing but that frame. *)
Theorem add_items_spec p r sh tf items :
  lookup_shape p r = Some sh -> sp_tf sh = Some tf ->
  add_items r items p =
  Ok (tt, put_tf p r (Text.with_paras tf (Text.tf_paras tf ++ map item_para items))).
Proof.
  revert p sh tf. induction items as [|item items IH]; intros p sh tf Hsh Htf.
  - cbn. rewrite app_nil_r. replace (Text.with_paras tf (Text.tf_paras tf)) with tf by by destruct tf.
    by rewrite (put_tf_same p r sh _ Hsh Htf).
  - cbn [add_items]. rewrite (bind_ok _ _ _ _ _ (add_paragraph_at p r sh tf Hsh Htf)). cbv beta.
    unfold Presentation.para_set_text, font_size, space_before, level, pt.
    do 6 (rewrite ?bind_assoc; first
      [ erewrite bind_ok; [|apply lift_eval; reflexivity]
      | erewrite bind_ok; [|apply (modify_last_para_at p r sh tf); [exact Hsh|exact Htf|reflexivity]]];
      cbv beta).
    rewrite (IH _ _ _ (lookup_put_tf p r sh Hsh _) eq_refl), put_tf_put_tf.
    cbn [Text.tf_paras Text.with_paras]. by rewrite <- app_assoc.
Qed.

Lemma items_min_height items :
  paras_min_height (map item_para items) = 381000 * Z.of_nat (length items).
Proof.
  unfold paras_min_height. induction items as [|i items IH]; [done|].
  cbn [map foldr length]. rewrite IH. unfold para_min_height. cbn. lia.
Qed.

(** C13: The body box of a content slide is too small for its text once
    the list has twelve items or more: whatever the font's line
    spacing, the text of [n] items needs at least [91440 + 381000 n] EMU
    (0.1 inch of insets, and per item its 18 pt line and 12 pt of space
    before), and the script gives the box 5 inches (4572000 EMU).
    "Deployment Details" (12 items) and "User Accounts" (13 items)
    overflow their boxes.  (For fewer items the bound does not decide:
    it leaves out line spacing.) *)
Theorem add_content_slide_body_height p sid title items :
  blank_layout_at_6 p -> next_slide_id (map sl_id (prs_slides p)) = Ok sid ->
  exists p' sl body tf,
    add_content_slide title items p = Ok (length (prs_slides p), p') /\
    prs_slides p' = prs_slides p ++ [sl] /\
    sl_shapes sl !! 1%nat = Some body /\ sp_tf body = Some tf /\
    tf_min_height tf = 91440 + 381000 * Z.of_nat (length items) /\
    ((12 <= length items)%nat -> surely_overflows body = true).
Proof.
  intros Hb Hid. do 4 eexists. split; [by apply add_content_slide_run|].
  split; [reflexivity|]. split; [reflexivity|]. split; [reflexivity|].
  unfold surely_overflows, tf_min_height, text_box. cbn [sp_xfrm sp_tf content_body Text.tf_paras].
  change (paras_min_height (Text.new_p :: map item_para items))
    with (0 + paras_min_height (map item_para items)).
  rewrite items_min_height. unfold DEFAULT_TOP_INSET, DEFAULT_BOTTOM_INSET.
  split; [lia|]. intros H12. rewrite Z.ltb_lt. lia.
Qed.

(** ** Progress: the script always reaches its end

    [ready n p]: [p] is well-formed, its layout 6 is blank, and it has
    room for [n] more slide ids.  [runs n m]: from every such state, [m]
    returns, having added [n] slides, in a state still ready. *)
Definition ready (n : nat) (p : Presentation) : Prop :=
  Wf.prs_wf p /\ blank_layout_at_6 p /\
  (Z.of_nat (length (prs_slides p) + n) <= MAX_SLIDE_ID - MIN_SLIDE_ID + 1)%Z.

Definition runs {A} (n : nat) (m : PyM A) : Prop :=
  forall p, ready n p -> exists a p', m p = Ok (a, p') /\ ready 0 p' /\
                               length (prs_slides p') = (length (prs_slides p) + n)%nat.

(** A builder that appends one slide as soon as a slide id is free. *)
Definition appends_slide {A} (m : PyM A) : Prop :=
  forall p sid, blank_layout_at_6 p -> next_slide_id (map sl_id (prs_slides p)) = Ok sid ->
  exists a sl, m p = Ok (a, with_slides p (prs_slides p ++ [sl])).

Lemma appends_slide_step {A} (m : PyM A) n p :
  appends_slide m -> Inv.keeps Wf.prs_wf m -> ready (S n) p ->
  exists a sl, m p = Ok (a, with_slides p (prs_slides p ++ [sl])) /\
               ready n (with_slides p (prs_slides p ++ [sl])).
Proof.
  intros Hm Hk (Hwf & Hb & Hroom).
  destruct (Wf.next_slide_id_total (map sl_id (prs_slides p))) as [sid Hsid].
  { apply Hwf. } { apply Hwf. } { rewrite length_map. lia. }
  destruct (Hm p sid Hb Hsid) as (a & sl & E). exists a, sl. split; [exact E|].
  split; [exact (Hk _ _ _ Hwf E)|]. split; [exact Hb|].
  cbn. rewrite length_app. cbn. lia.
Qed.

Lemma runs_bind {A B} (m : PyM A) (k : A -> PyM B) n :
  appends_slide m -> Inv.keeps Wf.prs_wf m -> (forall a, runs n (k a)) -> runs (S n) (m ≫= k).
Proof.
  intros Hm Hk Hr p Hp. destruct (appends_slide_step m n p Hm Hk Hp) as (a & sl & E & Hp1).
  destruct (Hr a _ Hp1) as (b & p' & E' & Hp' & Hlen). exists b, p'.
  rewrite (bind_ok _ _ _ _ _ E), E'. split; [done|]. split; [done|].
  rewrite Hlen. cbn. rewrite length_app. cbn. lia.
Qed.

Lemma runs_one {A} (m : PyM A) :
  appends_slide m -> Inv.keeps Wf.prs_wf m -> runs 1 m.
Proof.
  intros Hm Hk p Hp. destruct (appends_slide_step m 0 p Hm Hk Hp) as (a & sl & E & Hp1).
  exists a, (with_slides p (prs_slides p ++ [sl])). split; [exact E|]. split; [exact Hp1|].
  cbn. rewrite length_app. cbn. lia.
Qed.

(** Lines 7-9 change only the slide size, to valid values. *)
Lemma runs_setup {A} (m : PyM A) n : runs n m -> runs n (setup;; m).
Proof.
  intros Hr p (Hwf & Hb & Hroom).
  set (q := mkPres 9144000 6858000 (prs_layouts p) (prs_slides p)).
  assert (Hq : ready n q) by (split; [exact (setup_keeps Wf.prs_wf p tt q Hwf eq_refl)|by split]).
  destruct (Hr q Hq) as (a & p' & E & Hp' & Hlen). exists a, p'.
  by rewrite (bind_ok setup (fun _ => m) p tt q eq_refl).
Qed.

Lemma add_title_slide_appends title subtitle : appends_slide (add_title_slide title subtitle).
Proof. intros p sid Hb Hid. do 2 eexists. by apply add_title_slide_run. Qed.

Lemma add_content_slide_appends title items : appends_slide (add_content_slide title items).
Proof. intros p sid Hb Hid. do 2 eexists. by apply add_content_slide_run. Qed.

Lemma thank_you_slide_appends : appends_slide thank_you_slide.
Proof. intros p sid Hb Hid. do 2 eexists. by apply thank_you_slide_run. Qed.

(** C14: The script always reaches its end: on any well-formed
    presentation whose layout 6 is blank and that has room for fifteen
    more slide ids, [generate_ppt] returns without raising and adds
    exactly fifteen slides. *)
Theorem generate_ppt_progress p :
  Wf.prs_wf p -> blank_layout_at_6 p ->
  (Z.of_nat (length (prs_slides p) + 15) <= MAX_SLIDE_ID - MIN_SLIDE_ID + 1)%Z ->
  exists p', generate_ppt p = Ok (tt, p') /\
             length (prs_slides p') = (length (prs_slides p) + 15)%nat.
Proof.
  intros Hwf Hb Hroom.
  assert (Hr : runs 15 generate_ppt).
  { unfold generate_ppt. apply runs_setup.
    apply runs_bind; [apply add_title_slide_appends|apply (add_title_slide_keeps Wf.prs_wf)|intros _].
    do 13 (apply runs_bind; [apply add_content_slide_appends|apply (add_content_slide_keeps Wf.prs_wf)|intros _]).
    apply runs_one; [apply thank_you_slide_appends|apply (thank_you_slide_keeps Wf.prs_wf)]. }
  destruct (Hr p (conj Hwf (conj Hb Hroom))) as ([] & p' & E & _ & Hlen). by exists p'.
Qed.

(** C10: On a template with fewer than seven layouts the script raises
    [IndexError] at [prs.slide_layouts[6]] of the first slide, whatever
    the presentation holds. *)
Theorem generate_ppt_no_layout_6 p :
  prs_layouts p !! 6%nat = None -> generate_ppt p = Err IndexError.
Proof.
  intros H. unfold generate_ppt. erewrite bind_ok; [|reflexivity]. cbv beta.
  apply bind_err. by apply starts_with_layout_6_err.
Qed.

(** C16: An out-of-range slide id stops the script although ids are
    free: on a presentation whose layout 6 is blank and whose slide ids
    are [256 .. 256 + k - 1], with [k > 0], followed by one id above
    [2147483647], the script raises [StopIteration] at its first
    [add_slide], and id [256 + k] is not in use.  python-pptx's fallback
    search zips the candidates with the valid ids and gives up when
    those run out (with no valid id at all it returns 256). *)
Theorem generate_ppt_stops_after_large_id p k big :
  blank_layout_at_6 p -> (0 < k)%nat -> (MAX_SLIDE_ID < big)%Z ->
  (Z.of_nat k <= MAX_SLIDE_ID - MIN_SLIDE_ID)%Z ->
  map sl_id (prs_slides p) = seqZ MIN_SLIDE_ID (Z.of_nat k) ++ [big] ->
  ((MIN_SLIDE_ID + Z.of_nat k)%Z ∉ map sl_id (prs_slides p)) /\ generate_ppt p = Err StopIteration.
Proof.
  intros Hb Hk0 Hbig Hk Hids. split.
  - rewrite Hids, elem_of_app, elem_of_seqZ, list_elem_of_singleton. lia.
  - unfold generate_ppt. erewrite bind_ok; [|reflexivity]. cbv beta. apply bind_err.
    unfold add_title_slide. rewrite (bind_ok _ _ _ 6%nat _) by (apply slide_layouts_6; exact Hb).
    cbv beta. apply bind_err. unfold blank_layout_at_6 in Hb.
    destruct (prs_layouts p !! 6%nat) as [lay|] eqn:E; [|done].
    eapply add_slide_err; [exact E|]. cbn [prs_slides]. rewrite Hids. by apply next_slide_id_stops.
Qed.

(** C11: The colours of the closing slide read back, box by box, as
    [RGBColor(75, 107, 251)] for the title, no colour for the
    subtitle, and [RGBColor(100, 100, 100)] for the contact line. *)
Theorem thank_you_slide_colours p sid :
  blank_layout_at_6 p -> next_slide_id (map sl_id (prs_slides p)) = Ok sid ->
  exists sl, thank_you_slide p = Ok (tt, with_slides p (prs_slides p ++ [sl])) /\
    map box_colour (sl_shapes sl) =
      [Some (Ok (Color.mkRGB 75 107 251)); None; Some (Ok (Color.mkRGB 100 100 100))].
Proof.
  intros Hb Hid. eexists. split; [by apply thank_you_slide_run|]. vm_compute. reflexivity.
Qed.

(** ** Witnesses: each theorem above applied to [Presentation()], whose
    layout 6 is "Blank" and whose first slide id is 256. *)

Lemma layout_6_blank_new : layout_6_blank_if_any Presentation_new.
Proof. intros lay H. cbn in H. by injection H as <-. Qed.

Lemma add_content_slide_spec_witness :
  add_content_slide "Project Overview" project_overview Presentation_new =
  Ok (0%nat, with_slides Presentation_new [content_slide 256 "Project Overview" project_overview]).
Proof. exact (add_content_slide_spec Presentation_new 256 _ _ layout_6_blank_new eq_refl). Defined.

Lemma add_title_slide_spec_witness :
  add_title_slide "EcoSystem" "Cross-Device File Sharing Platform" Presentation_new =
  Ok (0%nat, with_slides Presentation_new
               [title_slide 256 "EcoSystem" "Cross-Device File Sharing Platform"]).
Proof. exact (add_title_slide_spec Presentation_new 256 _ _ layout_6_blank_new eq_refl). Defined.

Lemma thank_you_slide_spec_witness :
  thank_you_slide Presentation_new = Ok (tt, with_slides Presentation_new [closing_slide 256]).
Proof. exact (thank_you_slide_spec Presentation_new 256 layout_6_blank_new eq_refl). Defined.

Lemma add_content_slide_refines_witness :
  exists p', add_content_slide "Key Features" key_features Presentation_new = Ok (0%nat, p') /\
    deck_view p' = deck_view Presentation_new ++ [spec_view (ContentSpec "Key Features" key_features)].
Proof. exact (add_content_slide_refines Presentation_new 256 "Key Features" key_features eq_refl eq_refl eq_refl). Defined.

Lemma add_title_slide_refines_witness :
  exists p', add_title_slide "EcoSystem" "Cross-Device File Sharing Platform" Presentation_new =
             Ok (0%nat, p') /\
    deck_view p' = deck_view Presentation_new ++
                   [spec_view (TitleSpec "EcoSystem" "Cross-Device File Sharing Platform")].
Proof. exact (add_title_slide_refines Presentation_new 256 "EcoSystem"
  "Cross-Device File Sharing Platform" eq_refl eq_refl eq_refl). Defined.

Lemma add_content_slide_body_leading_empty_witness :
  exists p' sl body tf,
    add_content_slide "User Accounts" user_accounts Presentation_new = Ok (0%nat, p') /\
    prs_slides p' = [sl] /\ sl_shapes sl !! 1%nat = Some body /\ sp_tf body = Some tf /\
    length (Text.tf_paras tf) = S (length user_accounts) /\
    head (Text.tf_paras tf) = Some Text.new_p /\
    Text.para_text Text.new_p = EmptyString /\ Text.f_size (Text.p_font Text.new_p) = None.
Proof. exact (add_content_slide_body_leading_empty Presentation_new 256 "User Accounts" user_accounts eq_refl eq_refl). Defined.

Lemma add_content_slide_title_colour_witness :
  exists p' sl,
    add_content_slide "Technology Stack" technology_stack Presentation_new = Ok (0%nat, p') /\
    prs_slides p' = [sl] /\ title_colour sl = Some (Ok (Color.mkRGB 75 107 251)).
Proof. exact (add_content_slide_title_colour Presentation_new 256 "Technology Stack" technology_stack eq_refl eq_refl). Defined.

Lemma generate_ppt_no_layout_6_witness :
  generate_ppt (mkPres 9144000 6858000 (take 6 default_layouts) []) = Err IndexError.
Proof. exact (generate_ppt_no_layout_6 (mkPres 9144000 6858000 (take 6 default_layouts) []) eq_refl). Defined.

Lemma thank_you_slide_colours_witness :
  exists sl, thank_you_slide Presentation_new = Ok (tt, with_slides Presentation_new [sl]) /\
    map box_colour (sl_shapes sl) =
      [Some (Ok (Color.mkRGB 75 107 251)); None; Some (Ok (Color.mkRGB 100 100 100))].
Proof. exact (thank_you_slide_colours Presentation_new 256 eq_refl eq_refl). Defined.

Lemma add_items_spec_witness :
  lookup_shape (mkPres 9144000 6858000 default_layouts
                  [mkSlide 256 6 [new_textbox 2 0 0 914400 914400]]) (mkShapeRef 0 0) =
    Some (new_textbox 2 0 0 914400 914400) /\
  add_items (mkShapeRef 0 0) ["a"; "b"]%string
    (mkPres 9144000 6858000 default_layouts [mkSlide 256 6 [new_textbox 2 0 0 914400 914400]]) =
  Ok (tt, put_tf (mkPres 9144000 6858000 default_layouts
                   [mkSlide 256 6 [new_textbox 2 0 0 914400 914400]]) (mkShapeRef 0 0)
            (Text.with_paras Text.new_textbox_tf
               (Text.tf_paras Text.new_textbox_tf ++ map item_para ["a"; "b"]%string))).
Proof.
  split; [reflexivity|].
  exact (add_items_spec (mkPres 9144000 6858000 default_layouts
                           [mkSlide 256 6 [new_textbox 2 0 0 914400 914400]])
           (mkShapeRef 0 0) (new_textbox 2 0 0 914400 914400) Text.new_textbox_tf _
           eq_refl eq_refl).
Defined.

Lemma add_content_slide_body_height_witness :
  (12 <= length user_accounts)%nat /\
  exists p' sl body tf,
    add_content_slide "User Accounts" user_accounts Presentation_new = Ok (0%nat, p') /\
    prs_slides p' = [sl] /\ sl_shapes sl !! 1%nat = Some body /\ sp_tf body = Some tf /\
    tf_min_height tf = 91440 + 381000 * Z.of_nat (length user_accounts) /\
    surely_overflows body = true.
Proof.
  assert (H12 : (12 <= length user_accounts)%nat) by (vm_compute; lia).
  split; [exact H12|].
  destruct (add_content_slide_body_height Presentation_new 256 "User Accounts" user_accounts
              eq_refl eq_refl) as (p' & sl & body & tf & H1 & H2 & H3 & H4 & H5 & H6).
  exists p', sl, body, tf. repeat split; try assumption. exact (H6 H12).
Defined.

Lemma generate_ppt_progress_witness :
  exists p', generate_ppt Presentation_new = Ok (tt, p') /\
             length (prs_slides p') = (length (prs_slides Presentation_new) + 15)%nat.
Proof.
  exact (generate_ppt_progress Presentation_new Wf.Presentation_new_wf eq_refl
           ltac:(vm_compute; discriminate)).
Defined.

Lemma generate_ppt_stops_after_large_id_witness :
  ((MIN_SLIDE_ID + Z.of_nat 2)%Z ∉ [256%Z; 257%Z; 3000000000%Z]) /\
  generate_ppt (mkPres 9144000 6858000 default_layouts
                  [mkSlide 256 6 []; mkSlide 257 6 []; mkSlide 3000000000 6 []]) = Err StopIteration.
Proof.
  exact (generate_ppt_stops_after_large_id
           (mkPres 9144000 6858000 default_layouts
              [mkSlide 256 6 []; mkSlide 257 6 []; mkSlide 3000000000 6 []]) 2 3000000000
           ltac:(reflexivity) ltac:(lia) ltac:(vm_compute; reflexivity) ltac:(vm_compute; discriminate)
           ltac:(reflexivity)).
Defined.

End Generate.
