(* ===== verification/Saved.v ===== *)
(** * What the script saves

    [prs.save(...)] (line 254 of [src/generate_ppt.py]) writes every slide
    part with [Xml.render].  [save_slides] is that output for the slides:
    the [p:sld] element of each slide, whose shape tree holds the
    [p:sp] of each text box.  [save_text_bodies] is the serialised text
    body of every text frame, slide by slide, in shape-tree order.  The
    presentation part and the relationships are in [Package].

    The file shows that what is saved reads back: every presentation
    built through the API writes text bodies that a reader of the file
    decodes to the text frames the program built; the script's deck
    writes slide parts that read back as its shapes. *)

From S2P Require Import Prelude Text Presentation Inv Typed Xml Oxml Generate.

Module Saved.
Import Presentation Inv Typed.

(** The text frames of a presentation, slide by slide, shape by shape. *)
Definition frames (p : Presentation) : list Text.TextFrame :=
  concat (map (fun sl => omap sp_tf (sl_shapes sl)) (prs_slides p)).

(** [prs.save], restricted to the slides' text bodies. *)
Definition save_text_bodies (p : Presentation) : list string := map Oxml.write_txbody (frames p).

(** Reading the saved text bodies back. *)
Definition read_text_bodies (ss : list string) : list (option Text.TextFrame) :=
  map Oxml.read_txbody ss.

(** [prs.save], the slide parts: the [p:sld] element of every slide, in
    order; [None] when a slide holds a shape whose XML this model does
    not write (a placeholder). *)
Definition save_slides (p : Presentation) : option (list string) :=
  mapM Oxml.write_slide (prs_slides p).

(** Every shape of every slide is a text box: it has its own offset and
    extent and a text frame. *)
Definition only_textboxes (p : Presentation) : bool :=
  forallb (fun sl => forallb (fun sh => bool_decide (is_Some (sp_xfrm sh)) &&
                                        bool_decide (is_Some (sp_tf sh))) (sl_shapes sl))
    (prs_slides p).

Lemma typed_frames p : Typed.prs_typed p -> Forall (fun tf => Text.tf_typed tf = true) (frames p).
Proof.
  unfold Typed.prs_typed, frames. intros Hp. apply Forall_concat, Forall_map.
  apply Forall_forall. intros sl Hsl.
  apply list_elem_of_In, (proj1 (forallb_forall _ _) Hp) in Hsl. unfold Typed.slide_typed in Hsl.
  apply Forall_forall. intros tf Htf. apply list_elem_of_omap in Htf as (sh & Hsh & Etf).
  apply list_elem_of_In, (proj1 (forallb_forall _ _) Hsl) in Hsh.
  unfold Typed.shape_typed in Hsh. by rewrite Etf in Hsh.
Qed.

(** The text bodies a typed presentation saves read back as its frames. *)
Lemma typed_read_back p :
  Typed.prs_typed p -> read_text_bodies (save_text_bodies p) = map Some (frames p).
Proof.
  intros Hp. unfold read_text_bodies, save_text_bodies. rewrite map_map.
  apply (map_ext_on (fun tf => Text.tf_typed tf = true)); [by apply typed_frames|].
  intros tf Htf. by apply Oxml.read_txbody_write.
Qed.

(** C15: Every presentation a program builds from [Presentation()]
    through the modelled python-pptx API saves text that reads back:
    the serialised text body of each of its text frames decodes to that
    frame. *)
Theorem reachable_read_back p :
  Inv.reachable p -> read_text_bodies (save_text_bodies p) = map Some (frames p).
Proof. intros Hp. apply typed_read_back, Typed.reachable_typed, Hp. Qed.

(** The deck the script builds is typed. *)
Lemma final_typed p : Generate.final_presentation = Ok p -> Typed.prs_typed p.
Proof.
  unfold Generate.final_presentation, exec. intros Hrun.
  destruct (Generate.generate_ppt Presentation_new) as [[[] p']|] eqn:E; [|done].
  injection Hrun as <-.
  exact (Generate.generate_ppt_keeps Typed.prs_typed _ _ _ Typed.Presentation_new_typed E).
Qed.

Lemma saved_ok_slides p :
  Typed.prs_typed p -> only_textboxes p = true ->
  Forall (fun sl => forallb Oxml.sp_saved_ok (sl_shapes sl) = true) (prs_slides p).
Proof.
  unfold Typed.prs_typed, only_textboxes. intros Ht Hb. apply Forall_forall. intros sl Hsl%list_elem_of_In.
  pose proof (proj1 (forallb_forall _ _) Ht sl Hsl) as Hs. pose proof (proj1 (forallb_forall _ _) Hb sl Hsl) as Hbs.
  apply forallb_forall. intros sh Hsh. pose proof (proj1 (forallb_forall _ _) Hs sh Hsh) as Hty.
  pose proof (proj1 (forallb_forall _ _) Hbs sh Hsh) as Hbox. apply andb_prop in Hbox as [Hx Htf].
  apply bool_decide_eq_true in Hx as [g Hg], Htf as [tf Htf].
  unfold Oxml.sp_saved_ok, Typed.shape_typed in *. rewrite Hg, Htf in *. done.
Qed.

(** The slide parts of slides of typed text boxes are written and read
    back as their shapes. *)
Lemma slides_read_back sls :
  Forall (fun sl => forallb Oxml.sp_saved_ok (sl_shapes sl) = true) sls ->
  exists ss, mapM Oxml.write_slide sls = Some ss /\
    map Oxml.read_slide ss = map (fun sl => Some (sl_shapes sl)) sls.
Proof.
  induction 1 as [|sl sls Hsl _ (ss & Ess & Hss)]; [by exists []|].
  destruct (Oxml.read_slide_write sl Hsl) as (s & Es & Hs). exists (s :: ss).
  cbn [mapM]. rewrite Es, Ess. split; [done|]. cbn [map]. by rewrite Hs, Hss.
Qed.

(** C17: The slide parts of the saved deck read back: every slide of the
    deck the script builds holds only text boxes, so [prs.save] writes
    its [p:sld] part, and reading that part back gives the slide's
    shapes with their ids, names ("TextBox n"), offsets, extents and
    text frames. *)
Theorem saved_deck_slides_read_back p :
  Generate.final_presentation = Ok p ->
  exists ss, save_slides p = Some ss /\
    map Oxml.read_slide ss = map (fun sl => Some (sl_shapes sl)) (prs_slides p).
Proof.
  intros Hrun. apply slides_read_back, saved_ok_slides; [by apply final_typed|].
  rewrite Generate.final_presentation_eq in Hrun. injection Hrun as <-. vm_compute. reflexivity.
Qed.

(** A slide with one new text box, built by two API calls. *)
Lemma textbox_reachable :
  Inv.reachable (with_slides Presentation_new [mkSlide 256 6 [new_textbox 2 0 0 914400 914400]]).
Proof.
  assert (E1 : Inv.run_call (Inv.CAddSlide 6) Presentation_new =
               Ok (tt, with_slides Presentation_new [mkSlide 256 6 []])) by (vm_compute; reflexivity).
  assert (E2 : Inv.run_call (Inv.CAddTextbox 0 0 0 914400 914400)
                 (with_slides Presentation_new [mkSlide 256 6 []]) =
               Ok (tt, with_slides Presentation_new [mkSlide 256 6 [new_textbox 2 0 0 914400 914400]]))
    by (vm_compute; reflexivity).
  eapply Inv.reach_step; [eapply Inv.reach_step; [exact Inv.reach_new|exact E1]|exact E2].
Qed.

Lemma reachable_read_back_witness :
  exists p, Inv.reachable p /\ frames p = [Text.new_textbox_tf] /\
    read_text_bodies (save_text_bodies p) = map Some (frames p).
Proof.
  eexists. split; [exact textbox_reachable|]. split; [reflexivity|].
  exact (reachable_read_back _ textbox_reachable).
Defined.

Lemma saved_deck_slides_read_back_witness :
  Generate.final_presentation =
    Ok (mkPres 9144000 6858000 default_layouts Generate.expected_deck) /\
  exists ss, save_slides (mkPres 9144000 6858000 default_layouts Generate.expected_deck) = Some ss /\
    map Oxml.read_slide ss =
    map (fun sl => Some (sl_shapes sl)) (prs_slides (mkPres 9144000 6858000 default_layouts Generate.expected_deck)).
Proof.
  assert (Hrun : Generate.final_presentation =
                 Ok (mkPres 9144000 6858000 default_layouts Generate.expected_deck))
    by (vm_compute; reflexivity).
  split; [exact Hrun|]. exact (saved_deck_slides_read_back _ Hrun).
Defined.

End Saved.
