(* ===== verification/Codec.v ===== *)
(** * Python's text codecs, as [sys.stdout] uses them

    [print(s)] (line 255 of [src/generate_ppt.py]) writes [s] to
    [sys.stdout], a text stream that encodes what it is given with the
    stream's encoding and the ['strict'] error handler: a character the
    encoding cannot represent raises [UnicodeEncodeError], and no byte
    of that string is written.  The stream's encoding is the
    environment's: UTF-8 on most systems, the ANSI code page (cp1252 in
    Western locales) when Windows writes to a pipe or a file, ASCII or
    Latin-1 when [PYTHONIOENCODING] or the locale selects them.

    A string is a list of code points ([Z]); bytes are integers in
    [0, 256).  This file models CPython's encoders and strict decoders
    for the four encodings: UTF-8 ([Objects/stringlib/codecs.h], with
    the bit operations of its encoder and the arithmetic of its
    decoder), ASCII, Latin-1 and the charmap codec cp1252 (its
    256-entry decoding table, [U+FFFE] where a byte is undefined, and
    the encoding map [codecs.charmap_build] inverts it from).

    The lemmas show that each decoder inverts its encoder, and that the
    UTF-8 encoder inverts the UTF-8 decoder, so that UTF-8 bytes and
    lists of Unicode scalar values correspond one to one. *)

From S2P Require Import Prelude.

Module Codec.
Open Scope Z_scope.

Inductive Codec := UTF_8 | ASCII | Latin_1 | CP1252.

#[export] Instance Codec_eq_dec : EqDecision Codec.
Proof. solve_decision. Defined.

(** ** UTF-8 *)

Definition is_surrogate (c : Z) : bool := (0xD800 <=? c) && (c <=? 0xDFFF).

(** [ucs4lib_utf8_encoder]: one code point, or [None] for a surrogate
    (the strict handler raises) and outside the code-point range a
    [str] can hold. *)
Definition utf8_encode_char (ch : Z) : option (list Z) :=
  if (ch <? 0) || (0x10FFFF <? ch) then None
  else if ch <? 0x80 then Some [ch]
  else if ch <? 0x0800 then
    Some [Z.lor 0xc0 (Z.shiftr ch 6); Z.lor 0x80 (Z.land ch 0x3f)]
  else if is_surrogate ch then None
  else if ch <? 0x10000 then
    Some [Z.lor 0xe0 (Z.shiftr ch 12); Z.lor 0x80 (Z.land (Z.shiftr ch 6) 0x3f);
          Z.lor 0x80 (Z.land ch 0x3f)]
  else
    Some [Z.lor 0xf0 (Z.shiftr ch 18); Z.lor 0x80 (Z.land (Z.shiftr ch 12) 0x3f);
          Z.lor 0x80 (Z.land (Z.shiftr ch 6) 0x3f); Z.lor 0x80 (Z.land ch 0x3f)].

(** [IS_CONTINUATION_BYTE]. *)
Definition cont (b : Z) : bool := (0x80 <=? b) && (b <? 0xC0).

(** The second byte of a sequence after lead byte [b0]: a continuation
    byte, narrowed after [E0] (no overlong form), [ED] (no surrogate),
    [F0] (no overlong form) and [F4] (nothing above [U+10FFFF]). *)
Definition second_ok (b0 b1 : Z) : bool :=
  cont b1 && negb ((b0 =? 0xE0) && (b1 <? 0xA0)) && negb ((b0 =? 0xED) && (0xA0 <=? b1))
    && negb ((b0 =? 0xF0) && (b1 <? 0x90)) && negb ((b0 =? 0xF4) && (0x90 <=? b1)).

(** [utf8_decode] with the strict handler: [None] on an invalid start
    byte, an invalid continuation byte or a truncated sequence. *)
Fixpoint utf8_decode (bs : list Z) : option (list Z) :=
  match bs with
  | [] => Some []
  | ch :: r0 =>
      if (0 <=? ch) && (ch <? 0x80) then cons ch <$> utf8_decode r0
      else if (ch <? 0xC2) || (0xF5 <=? ch) then None
      else match r0 with
      | [] => None
      | ch2 :: r1 =>
          if ch <? 0xE0 then
            if cont ch2 then
              cons (Z.shiftl ch 6 + ch2 - (Z.shiftl 0xC0 6 + 0x80)) <$> utf8_decode r1
            else None
          else match r1 with
          | [] => None
          | ch3 :: r2 =>
              if ch <? 0xF0 then
                if second_ok ch ch2 && cont ch3 then
                  cons (Z.shiftl ch 12 + Z.shiftl ch2 6 + ch3
                        - (Z.shiftl 0xE0 12 + Z.shiftl 0x80 6 + 0x80)) <$> utf8_decode r2
                else None
              else match r2 with
              | [] => None
              | ch4 :: r3 =>
                  if second_ok ch ch2 && cont ch3 && cont ch4 then
                    cons (Z.shiftl ch 18 + Z.shiftl ch2 12 + Z.shiftl ch3 6 + ch4
                          - (Z.shiftl 0xF0 18 + Z.shiftl 0x80 12 + Z.shiftl 0x80 6 + 0x80))
                      <$> utf8_decode r3
                  else None
              end
          end
      end
  end.

(** The same encoder written with the arithmetic of the Unicode
    standard's table 3-6: lead byte, then six bits per continuation
    byte. *)
Definition utf8_encode_arith (ch : Z) : option (list Z) :=
  if (ch <? 0) || (0x10FFFF <? ch) then None
  else if ch <? 0x80 then Some [ch]
  else if ch <? 0x0800 then Some [0xC0 + ch / 64; 0x80 + ch mod 64]
  else if is_surrogate ch then None
  else if ch <? 0x10000 then Some [0xE0 + ch / 4096; 0x80 + ch / 64 mod 64; 0x80 + ch mod 64]
  else Some [0xF0 + ch / 262144; 0x80 + ch / 4096 mod 64; 0x80 + ch / 64 mod 64;
             0x80 + ch mod 64].

(** ** ASCII and Latin-1 ([unicode_encode_ucs1] with limit 128 or 256) *)

Definition ucs1_encode_char (limit ch : Z) : option (list Z) :=
  if (0 <=? ch) && (ch <? limit) then Some [ch] else None.

Definition ucs1_decode_byte (limit b : Z) : option Z :=
  if (0 <=? b) && (b <? limit) then Some b else None.

(** ** cp1252 ([encodings/cp1252.py]) *)

(** The code points of bytes [0x80] to [0x9F]; [0xFFFE] marks the
    five undefined bytes. *)
Definition cp1252_80_9F : list Z :=
  [0x20AC; 0xFFFE; 0x201A; 0x0192; 0x201E; 0x2026; 0x2020; 0x2021;
   0x02C6; 0x2030; 0x0160; 0x2039; 0x0152; 0xFFFE; 0x017D; 0xFFFE;
   0xFFFE; 0x2018; 0x2019; 0x201C; 0x201D; 0x2022; 0x2013; 0x2014;
   0x02DC; 0x2122; 0x0161; 0x203A; 0x0153; 0xFFFE; 0x017E; 0x0178].

(** [decoding_table]: byte [i] decodes to its [i]-th entry. *)
Definition cp1252_decoding_table : list Z := seqZ 0 128 ++ cp1252_80_9F ++ seqZ 0xA0 96.

(** [charmap_decode]: [U+FFFE] is an undefined byte. *)
Definition cp1252_decode_byte (b : Z) : option Z :=
  if (0 <=? b) && (b <? 256) then
    match cp1252_decoding_table !! Z.to_nat b with
    | Some c => if c =? 0xFFFE then None else Some c
    | None => None
    end
  else None.

(** [charmap_encode] with the map [charmap_build] makes: the byte
    whose entry is the code point; [U+FFFE] is left out of the map. *)
Definition cp1252_encode_char (ch : Z) : option (list Z) :=
  if ch =? 0xFFFE then None
  else (fun '(i, _) => [Z.of_nat i]) <$> list_find (fun x => x = ch) cp1252_decoding_table.

(** ** Encoding and decoding a string *)

Definition encode_char (c : Codec) : Z -> option (list Z) :=
  match c with
  | UTF_8 => utf8_encode_char
  | ASCII => ucs1_encode_char 128
  | Latin_1 => ucs1_encode_char 256
  | CP1252 => cp1252_encode_char
  end.

(** [str.encode(c, 'strict')], as the text stream calls it: every code
    point in turn, or [UnicodeEncodeError] at the first one the
    encoding cannot represent. *)
Definition encode (c : Codec) (s : list Z) : Result (list Z) :=
  match mapM (encode_char c) s with
  | Some bss => Ok (concat bss)
  | None => Err UnicodeEncodeError
  end.

(** [bytes.decode(c, 'strict')]. *)
Definition decode (c : Codec) (bs : list Z) : option (list Z) :=
  match c with
  | UTF_8 => utf8_decode bs
  | ASCII => mapM (ucs1_decode_byte 128) bs
  | Latin_1 => mapM (ucs1_decode_byte 256) bs
  | CP1252 => mapM cp1252_decode_byte bs
  end.

(** ** Bit operations as arithmetic *)

(** Decide every comparison of integers in the goal, closing the
    branches the hypotheses rule out. *)
Ltac zbool :=
  repeat (match goal with
          | |- context [?a <? ?b] => destruct (Z.ltb_spec a b)
          | |- context [?a <=? ?b] => destruct (Z.leb_spec a b)
          | |- context [?a =? ?b] => destruct (Z.eqb_spec a b)
          end; cbn [andb orb negb]; try (exfalso; zlia)).

Lemma lor_add a y n : 0 <= n -> 0 <= y < 2 ^ n -> a mod 2 ^ n = 0 -> Z.lor a y = a + y.
Proof.
  intros Hn Hy Ha.
  assert (E : Z.land a y = 0).
  { apply Z.bits_inj_0. intros m. rewrite Z.land_spec.
    destruct (Z.lt_ge_cases m n) as [Hm|Hm].
    - rewrite <- (Z.mod_pow2_bits_low a n m) by lia. rewrite Ha, Z.bits_0. reflexivity.
    - rewrite <- (Z.mod_small y (2 ^ n)) by lia. rewrite Z.mod_pow2_bits_high by lia.
      apply andb_false_r. }
  rewrite <- Z.lxor_lor by exact E. rewrite <- Z.add_nocarry_lxor by exact E. reflexivity.
Qed.

Lemma cont_byte x : 0 <= x -> Z.lor 0x80 (Z.land x 0x3f) = 0x80 + x mod 64.
Proof.
  intros Hx. change 0x3f with (Z.ones 6). rewrite Z.land_ones by lia.
  apply (lor_add _ _ 6); cbn; zlia.
Qed.

Lemma lead_byte a x n : 0 <= n -> 0 <= x < 2 ^ n -> a mod 2 ^ n = 0 ->
  Z.lor a x = a + x.
Proof. apply lor_add. Qed.

Lemma utf8_encode_char_arith ch : utf8_encode_char ch = utf8_encode_arith ch.
Proof.
  unfold utf8_encode_char, utf8_encode_arith, is_surrogate.
  rewrite ?Z.shiftr_div_pow2 by lia.
  change (2 ^ 6) with 64; change (2 ^ 12) with 4096; change (2 ^ 18) with 262144.
  zbool; rewrite ?cont_byte by zlia; try reflexivity.
  - rewrite (lead_byte _ _ 5); [reflexivity|lia|change (2 ^ 5) with 32; zlia|reflexivity].
  - rewrite (lead_byte _ _ 4); [reflexivity|lia|change (2 ^ 4) with 16; zlia|reflexivity].
  - rewrite (lead_byte _ _ 4); [reflexivity|lia|change (2 ^ 4) with 16; zlia|reflexivity].
  - rewrite (lead_byte _ _ 3); [reflexivity|lia|change (2 ^ 3) with 8; zlia|reflexivity].
Qed.

(** ** UTF-8 sequences, by their digits *)

(** Turn the shifts of the decoder into products. *)
Ltac shifts :=
  rewrite ?Z.shiftl_mul_pow2 by lia;
  change (2 ^ 6) with 64; change (2 ^ 12) with 4096; change (2 ^ 18) with 262144.

Lemma utf8_decode_1 ch r : 0 <= ch < 0x80 -> utf8_decode (ch :: r) = cons ch <$> utf8_decode r.
Proof. intros. cbn [utf8_decode]. zbool. reflexivity. Qed.

Lemma utf8_decode_2 q1 q0 r : 2 <= q1 < 32 -> 0 <= q0 < 64 ->
  utf8_decode ((0xC0 + q1) :: (0x80 + q0) :: r) = cons (64 * q1 + q0) <$> utf8_decode r.
Proof. intros. cbn [utf8_decode]. unfold cont. zbool. shifts. do 2 f_equal. lia. Qed.

Lemma utf8_decode_3 q2 q1 q0 r : 0 <= q2 < 16 -> 0 <= q1 < 64 -> 0 <= q0 < 64 ->
  (q2 = 0 -> 32 <= q1) -> (q2 = 13 -> q1 < 32) ->
  utf8_decode ((0xE0 + q2) :: (0x80 + q1) :: (0x80 + q0) :: r) =
  cons (4096 * q2 + 64 * q1 + q0) <$> utf8_decode r.
Proof. intros. cbn [utf8_decode]. unfold second_ok, cont. zbool. all: shifts; do 2 f_equal; lia. Qed.

Lemma utf8_decode_4 q3 q2 q1 q0 r : 0 <= q3 <= 4 -> 0 <= q2 < 64 -> 0 <= q1 < 64 -> 0 <= q0 < 64 ->
  (q3 = 0 -> 16 <= q2) -> (q3 = 4 -> q2 < 16) ->
  utf8_decode ((0xF0 + q3) :: (0x80 + q2) :: (0x80 + q1) :: (0x80 + q0) :: r) =
  cons (262144 * q3 + 4096 * q2 + 64 * q1 + q0) <$> utf8_decode r.
Proof. intros. cbn [utf8_decode]. unfold second_ok, cont. zbool. all: shifts; do 2 f_equal; lia. Qed.

Lemma mapM_cons_Some {A B} (f : A -> option B) x l y ys :
  f x = Some y -> mapM f l = Some ys -> mapM f (x :: l) = Some (y :: ys).
Proof. intros Hx Hl. cbn. rewrite Hx, Hl. reflexivity. Qed.

(** Decoding what the encoder wrote for one code point. *)
Lemma utf8_decode_encode_char ch bs r : utf8_encode_char ch = Some bs ->
  utf8_decode (bs ++ r) = cons ch <$> utf8_decode r.
Proof.
  rewrite utf8_encode_char_arith. unfold utf8_encode_arith, is_surrogate.
  zbool; intros Henc; try discriminate; injection Henc as <-; cbn [app].
  - apply utf8_decode_1. lia.
  - rewrite (utf8_decode_2 (ch / 64) (ch mod 64)) by zlia. do 2 f_equal. zlia.
  - rewrite (utf8_decode_3 (ch / 4096) (ch / 64 mod 64) (ch mod 64)) by zlia. do 2 f_equal. zlia.
  - rewrite (utf8_decode_3 (ch / 4096) (ch / 64 mod 64) (ch mod 64)) by zlia. do 2 f_equal. zlia.
  - rewrite (utf8_decode_4 (ch / 262144) (ch / 4096 mod 64) (ch / 64 mod 64) (ch mod 64))
      by zlia. do 2 f_equal. zlia.
Qed.

(** The encoder writes back what the decoder read: every branch of the
    decoder that succeeds read the bytes the encoder writes for the
    code point it returns. *)
Lemma utf8_encode_decode_aux n : forall bs cps, (length bs <= n)%nat -> utf8_decode bs = Some cps ->
  exists bss, mapM utf8_encode_char cps = Some bss /\ concat bss = bs.
Proof.
  induction n as [|n IH]; intros [|ch r0] cps Hn; cbn [utf8_decode];
    try solve [intros [= <-]; exists []; auto | cbn in Hn; lia].
  unfold second_ok, cont. revert cps.
  repeat (first [progress zbool
                | match goal with |- context [match ?r with [] => _ | _ :: _ => _ end] =>
                    destruct r; cbn [length] in Hn end]).
  all: intros cps Hdec; try discriminate.
  all: destruct (utf8_decode _) as [cps'|] eqn:E; [injection Hdec as <-|discriminate].
  all: apply IH in E as (bss & Hm & Hc); [|cbn [length] in *; lia].
  all: eexists (_ :: bss); split; [apply mapM_cons_Some; [|exact Hm]|].
  all: try (rewrite utf8_encode_char_arith; unfold utf8_encode_arith, is_surrogate; shifts;
            zbool; reflexivity).
  all: cbn [concat app]; rewrite Hc; shifts; repeat f_equal; zlia.
Qed.

Lemma cp1252_encode_char_Some ch bs : cp1252_encode_char ch = Some bs ->
  exists b, bs = [b] /\ 0 <= b < 256 /\ cp1252_decode_byte b = Some ch.
Proof.
  unfold cp1252_encode_char. destruct (Z.eqb_spec ch 0xFFFE) as [|Hch]; [discriminate|].
  destruct (list_find _ _) as [[i x]|] eqn:E; [intros [= <-]|discriminate].
  apply list_find_Some in E as (Hi & -> & _).
  assert (Hlt : (i < 256)%nat) by (apply lookup_lt_Some in Hi; exact Hi).
  exists (Z.of_nat i). split; [reflexivity|]. split; [lia|].
  unfold cp1252_decode_byte. rewrite Nat2Z.id, Hi. zbool. reflexivity.
Qed.

(** What a codec writes for one code point decodes, under the same
    codec, to that code point: a decoder is a left inverse of its
    encoder, byte sequence by byte sequence. *)
Lemma decode_encode_char c ch bs r : encode_char c ch = Some bs ->
  decode c (bs ++ r) = cons ch <$> decode c r.
Proof.
  destruct c; cbn [encode_char decode].
  - apply utf8_decode_encode_char.
  - unfold ucs1_encode_char, ucs1_decode_byte. zbool; intros [= <-]. cbn. zbool.
    by destruct (mapM _ r).
  - unfold ucs1_encode_char, ucs1_decode_byte. zbool; intros [= <-]. cbn. zbool.
    by destruct (mapM _ r).
  - intros (b & -> & _ & Hb)%cp1252_encode_char_Some. cbn. rewrite Hb. by destruct (mapM _ r).
Qed.

Lemma decode_encode_aux c s : forall bss, mapM (encode_char c) s = Some bss ->
  decode c (concat bss) = Some s.
Proof.
  induction s as [|x s IH]; intros bss Hm; cbn in Hm.
  - injection Hm as <-. by destruct c.
  - destruct (encode_char c x) as [b|] eqn:Ex; [|discriminate].
    destruct (mapM _ s) as [bss'|] eqn:Es; [|discriminate]. injection Hm as <-.
    cbn [concat]. rewrite (decode_encode_char _ _ _ _ Ex), (IH _ eq_refl). reflexivity.
Qed.

(** A string [str.encode] writes decodes back to that string. *)
Lemma decode_encode c s bs : encode c s = Ok bs -> decode c bs = Some s.
Proof.
  unfold encode. destruct (mapM _ s) as [bss|] eqn:Hm; [|discriminate].
  intros [= <-]. by apply decode_encode_aux.
Qed.

(** UTF-8 bytes that decode re-encode to themselves. *)
Lemma encode_utf8_decode bs cps : utf8_decode bs = Some cps -> encode UTF_8 cps = Ok bs.
Proof.
  intros Hd. destruct (utf8_encode_decode_aux _ _ _ (le_n _) Hd) as (bss & Hm & Hc).
  unfold encode. cbn [encode_char]. rewrite Hm, Hc. reflexivity.
Qed.

(** Every value an encoder writes is a byte. *)
Lemma encode_char_bytes c ch bs : encode_char c ch = Some bs -> Forall (fun b => 0 <= b < 256) bs.
Proof.
  destruct c; cbn [encode_char].
  - rewrite utf8_encode_char_arith. unfold utf8_encode_arith, is_surrogate.
    zbool; intros Henc; try discriminate; injection Henc as <-; repeat constructor; zlia.
  - unfold ucs1_encode_char. zbool; intros [= <-]. repeat constructor; lia.
  - unfold ucs1_encode_char. zbool; intros [= <-]. repeat constructor; lia.
  - intros (b & -> & Hb & _)%cp1252_encode_char_Some. repeat constructor; lia.
Qed.

Lemma encode_bytes c s bs : encode c s = Ok bs -> Forall (fun b => 0 <= b < 256) bs.
Proof.
  unfold encode. destruct (mapM _ s) as [bss|] eqn:Hm; [|discriminate]. intros [= <-].
  apply Forall_concat. revert bss Hm. induction s as [|x s IH]; intros bss Hm; cbn in Hm.
  - injection Hm as <-. constructor.
  - destruct (encode_char c x) as [b|] eqn:Ex; [|discriminate].
    destruct (mapM _ s) as [bss'|] eqn:Es; [|discriminate]. injection Hm as <-.
    constructor; [exact (encode_char_bytes _ _ _ Ex)|exact (IH _ eq_refl)].
Qed.

End Codec.
