(* ===== verification/Package.v ===== *)
(** * The package [prs.save] writes

    A .pptx file is an OPC package: named parts, and for each part that
    refers to others, a relationships part.  The slides of a deck are
    reached from the presentation part [/ppt/presentation.xml]: its
    [p:sldIdLst] lists one [p:sldId] per slide, in deck order, each with
    the slide's id and the relationship id ([r:id]) of the presentation
    part's relationship to that slide's part.  The relationships are in
    [/ppt/_rels/presentation.xml.rels].

    python-pptx builds these as [Slides.add_slide] runs: the new slide
    part is named [/ppt/slides/slide<n>.xml] with [n] one more than the
    number of [p:sldId] so far ([PresentationPart._next_slide_partname]),
    the presentation part relates to it ([Part.relate_to], which takes
    the next free relationship id: [_Relationships._next_rId] counts down
    from [rId<len+1>]), and the [p:sldId] is appended with that id
    ([CT_SlideIdList.add_sldId]).  Only [add_slide] changes the slide-id
    list and the relationships, so [add_slide_parts] replays it over the
    slides of a presentation, in order, on the relationships of the
    template ([rels0]).  [save_package] (line 254) writes the
    presentation part, its relationships and the slide parts;
    [read_package] opens a package as PowerPoint does, slide by slide
    through the slide-id list and the relationships.

    Relationship targets are stored as python-pptx writes them, relative
    to [/ppt/].  Of the presentation part the model writes the slide-id
    list and the slide size; the rest of the template's element (masters,
    notes size, text styles), the slide parts' own relationships, the
    content types, the order of the [Relationship] elements (the reader
    looks them up by id) and the zip container are not modelled. *)

From S2P Require Import Prelude Presentation Inv Wf Typed Xml Oxml Generate Saved.

Module Package.
Import Presentation Xml.

(** ** The presentation part's relationships *)

Definition RT_SLIDE : string :=
  "http://schemas.openxmlformats.org/officeDocument/2006/relationships/slide".

Definition NS_RELATIONSHIPS : string :=
  "http://schemas.openxmlformats.org/package/2006/relationships".

(** [_Relationship]: its id, type and target reference. *)
Record Rel := mkRel { rel_id : string; rel_type : string; rel_target : string }.

Definition rId (n : nat) : string := "rId" +:+ pretty (N.of_nat n).

(** [for n in range(k, 0, -1)]: the first of [rId<k>], ..., [rId1] not
    in use. *)
Fixpoint count_down (used : list string) (k : nat) : option string :=
  match k with
  | O => None
  | S m => if bool_decide (rId k ∈ used) then count_down used m else Some (rId k)
  end.

(** [_Relationships._next_rId]; [None] where python-pptx raises
    ("Impossible to have more distinct rIds than relationships"). *)
Definition next_rId (rels : list Rel) : option string :=
  count_down (map rel_id rels) (S (length rels)).

(** [Part.relate_to(target, reltype)] ([_Relationships.get_or_add]):
    the id of a relationship of that type to that target, or a new
    relationship with the next free id.  python-pptx compares target
    parts, the model their references: they agree because a package
    holds one part per name, and [add_slide] relates to a new part. *)
Definition relate_to (rels : list Rel) (reltype target : string) : option (string * list Rel) :=
  match list_find (fun r => rel_type r = reltype /\ rel_target r = target) rels with
  | Some (_, r) => Some (rel_id r, rels)
  | None => r ← next_rId rels; Some (r, rels ++ [mkRel r reltype target])
  end.

(** ** Slide parts *)

(** The state of the presentation part [add_slide] changes: its
    relationships and its slide-id list. *)
Record PresPart := mkPP { pp_rels : list Rel; pp_sldIdLst : list (Z * string) }.

(** [/ppt/slides/slide<n>.xml], and its reference from [/ppt/]. *)
Definition slide_ref (n : nat) : string := "slides/slide" +:+ pretty (N.of_nat n) +:+ ".xml".

Definition ppt_dir : string := "/ppt/".

Definition slide_partname (n : nat) : string := ppt_dir +:+ slide_ref n.

(** [Slides.add_slide], on the presentation part: name the new slide
    part, relate to it, append its [p:sldId]. *)
Definition add_slide_part (st : PresPart) (sl : Slide) : option PresPart :=
  let target := slide_ref (S (length (pp_sldIdLst st))) in
  '(r, rels) ← relate_to (pp_rels st) RT_SLIDE target;
  Some (mkPP rels (pp_sldIdLst st ++ [(sl_id sl, r)])).

Fixpoint add_slide_parts (st : PresPart) (sls : list Slide) : option PresPart :=
  match sls with
  | [] => Some st
  | sl :: sls' => st' ← add_slide_part st sl; add_slide_parts st' sls'
  end.

(** ** Writing the parts *)

Definition sld_id_xml (e : Z * string) : xnode :=
  XElem "p:sldId" [("id", Oxml.int_xml e.1); ("r:id", e.2)] [].

(** The presentation part: its slide-id list and slide size. *)
Definition presentation_xml (p : Presentation) (ids : list (Z * string)) : xnode :=
  XElem "p:presentation" []
    [XElem "p:sldIdLst" [] (map sld_id_xml ids);
     XElem "p:sldSz" [("cx", Oxml.int_xml (prs_slide_width p)); ("cy", Oxml.int_xml (prs_slide_height p))] []].

(** [CT_Relationship.new]. *)
Definition rel_xml (r : Rel) : xnode :=
  XElem "Relationship" [("Id", rel_id r); ("Type", rel_type r); ("Target", rel_target r)] [].

Definition rels_xml (rels : list Rel) : xnode :=
  XElem "Relationships" [("xmlns", NS_RELATIONSHIPS)] (map rel_xml rels).

Definition pres_partname : string := "/ppt/presentation.xml".
Definition pres_rels_partname : string := "/ppt/_rels/presentation.xml.rels".

(** [prs.save]: the presentation part, its relationships and the slide
    parts, each part by name; [None] when a slide part is not written
    by the model ([Saved.save_slides]) or no relationship id is left. *)
Definition save_package (rels0 : list Rel) (p : Presentation) : option (list (string * string)) :=
  st ← add_slide_parts (mkPP rels0 []) (prs_slides p);
  ss ← Saved.save_slides p;
  Some ((pres_partname, render (presentation_xml p (pp_sldIdLst st))) ::
        (pres_rels_partname, render (rels_xml (pp_rels st))) ::
        zip (map slide_partname (seq 1 (length ss))) ss).

(** ** Reading a package *)

Definition sld_id_of_xml (n : xnode) : option (Z * string) :=
  match n with
  | XElem t ats _ =>
      if bool_decide (t = "p:sldId") then
        id ← Oxml.assoc "id" ats ≫= Oxml.int_of_xml; r ← Oxml.assoc "r:id" ats; Some (id, r)
      else None
  | XText _ => None
  end.

Definition sld_ids_of_xml (n : xnode) : option (list (Z * string)) :=
  match n with
  | XElem t _ ks =>
      if bool_decide (t = "p:presentation") then
        '(_, l) ← Oxml.find_child "p:sldIdLst" ks; mapM sld_id_of_xml l
      else None
  | XText _ => None
  end.

Definition rel_of_xml (n : xnode) : option (string * string) :=
  match n with
  | XElem t ats _ =>
      if bool_decide (t = "Relationship") then
        i ← Oxml.assoc "Id" ats; tg ← Oxml.assoc "Target" ats; Some (i, tg)
      else None
  | XText _ => None
  end.

Definition rels_of_xml (n : xnode) : option (list (string * string)) :=
  match n with
  | XElem t _ ks => if bool_decide (t = "Relationships") then mapM rel_of_xml ks else None
  | XText _ => None
  end.

Definition parse_one (s : string) : option xnode :=
  match parse_xml s with Some [n] => Some n | _ => None end.

(** Opening a saved deck: the slide-id list in order, each id's
    relationship, the part it targets, that part's shapes. *)
Definition read_package (parts : list (string * string)) : option (list (list Shape)) :=
  ids ← (Oxml.assoc pres_partname parts ≫= parse_one) ≫= sld_ids_of_xml;
  rels ← (Oxml.assoc pres_rels_partname parts ≫= parse_one) ≫= rels_of_xml;
  mapM (fun e => tg ← Oxml.assoc e.2 rels;
                 s ← Oxml.assoc (ppt_dir +:+ tg) parts;
                 Oxml.read_slide s) ids.

(** Relationships of a template: a slide master and a theme. *)
Definition template_rels : list Rel :=
  [mkRel "rId1" "http://schemas.openxmlformats.org/officeDocument/2006/relationships/slideMaster"
     "slideMasters/slideMaster1.xml";
   mkRel "rId3" "http://schemas.openxmlformats.org/officeDocument/2006/relationships/theme"
     "theme/theme1.xml"].

(** What [add_slide] keeps of the presentation part after adding the
    slides [sls]: distinct relationship ids, the slides' ids in order,
    and the [r:id] of slide [i] naming a relationship to
    [slides/slide<i+1>.xml]. *)
Definition pp_ok (sls : list Slide) (st : PresPart) : Prop :=
  NoDup (map rel_id (pp_rels st)) /\ map fst (pp_sldIdLst st) = map sl_id sls /\
  forall i e, pp_sldIdLst st !! i = Some e ->
    exists x, x ∈ pp_rels st /\ rel_id x = e.2 /\ rel_target x = slide_ref (S i).

(** ** Relationship ids *)

Lemma rId_inj n m : rId n = rId m -> n = m.
Proof. unfold rId. intros H%(inj (String.append "rId"))%(inj pretty). lia. Qed.

Lemma count_down_fresh used k r : count_down used k = Some r -> r ∉ used.
Proof.
  induction k as [|k IH]; cbn; [done|]. case_bool_decide; [exact IH|]. by intros [= <-].
Qed.

Lemma count_down_none used k : count_down used k = None -> forall n, (1 <= n <= k)%nat -> rId n ∈ used.
Proof.
  induction k as [|k IH]; cbn; intros Hk n Hn; [lia|].
  case_bool_decide as Hin; [|done].
  destruct (decide (n = S k)) as [->|]; [exact Hin|]. apply IH; [exact Hk|lia].
Qed.

(** [_next_rId] never raises: [len + 1] distinct candidates cannot all
    be among [len] relationship ids. *)
Lemma next_rId_fresh rels : exists r, next_rId rels = Some r /\ r ∉ map rel_id rels.
Proof.
  unfold next_rId. destruct (count_down _ _) as [r|] eqn:E.
  - exists r. split; [done|]. exact (count_down_fresh _ _ _ E).
  - exfalso. pose proof (count_down_none _ _ E) as Hall.
    assert (Hsub : rId <$> seq 1 (S (length rels)) ⊆+ map rel_id rels).
    { apply NoDup_submseteq.
      - apply NoDup_fmap_2; [intros ?? ?%rId_inj; done|apply NoDup_seq].
      - intros x (n & -> & Hn%elem_of_seq)%list_elem_of_fmap. apply Hall. lia. }
    apply submseteq_length in Hsub. rewrite length_fmap, length_seq, length_map in Hsub. lia.
Qed.

Lemma relate_to_spec rels ty tg : exists r rels', relate_to rels ty tg = Some (r, rels') /\
  ((rels' = rels /\ exists x, x ∈ rels /\ rel_id x = r /\ rel_target x = tg) \/
   (rels' = rels ++ [mkRel r ty tg] /\ r ∉ map rel_id rels)).
Proof.
  unfold relate_to. destruct (list_find _ _) as [[i x]|] eqn:E.
  - apply list_find_Some in E as (Hi & [_ Htg] & _). exists (rel_id x), rels.
    split; [done|]. left. split; [done|]. exists x. split; [by eapply list_elem_of_lookup_2|done].
  - destruct (next_rId_fresh rels) as (r & Hr & Hfresh). rewrite Hr. cbn.
    exists r, (rels ++ [mkRel r ty tg]). split; [done|]. by right.
Qed.

(** ** The presentation part [add_slide] builds *)

Lemma add_slide_part_ok done st sl : pp_ok done st ->
  exists st', add_slide_part st sl = Some st' /\ pp_ok (done ++ [sl]) st' /\
    forall x, x ∈ pp_rels st -> x ∈ pp_rels st'.
Proof.
  intros (Hnd & Hids & Hlk). unfold add_slide_part.
  destruct (relate_to_spec (pp_rels st) RT_SLIDE (slide_ref (S (length (pp_sldIdLst st)))))
    as (r & rels' & -> & Hcase).
  cbn. eexists. split; [reflexivity|].
  assert (Hsub : forall x, x ∈ pp_rels st -> x ∈ rels')
    by (destruct Hcase as [[-> _]|[-> _]]; [done|intros x Hx; apply elem_of_app; by left]).
  split; [|exact Hsub]. unfold pp_ok. cbn [pp_rels pp_sldIdLst]. split; [|split].
  - destruct Hcase as [[-> _]|[-> Hfresh]]; cbn [pp_rels]; [done|].
    rewrite map_app. apply NoDup_app. split; [done|]. split; [|by apply NoDup_singleton].
    intros y Hy ->%list_elem_of_singleton. done.
  - by rewrite !map_app, Hids.
  - intros i e [He|[Hi He]]%lookup_app_Some.
    + destruct (Hlk i e He) as (x & Hx & Hid & Htg). exists x. auto.
    + apply list_lookup_singleton_Some in He as [Hi0 <-].
      assert (i = length (pp_sldIdLst st)) as -> by lia.
      destruct Hcase as [[-> (x & Hx & Hid & Htg)]|[-> _]]; [by exists x|].
      exists (mkRel r RT_SLIDE (slide_ref (S (length (pp_sldIdLst st))))).
      split; [apply elem_of_app; right; by apply list_elem_of_singleton|done].
Qed.

Lemma add_slide_parts_ok sls : forall done st, pp_ok done st ->
  exists st', add_slide_parts st sls = Some st' /\ pp_ok (done ++ sls) st'.
Proof.
  induction sls as [|sl sls IH]; intros done st Hst; cbn [add_slide_parts].
  - exists st. by rewrite app_nil_r.
  - destruct (add_slide_part_ok done st sl Hst) as (st1 & -> & Hst1 & _). cbn.
    rewrite cons_middle, app_assoc. exact (IH _ _ Hst1).
Qed.

Lemma pp_ok_template rels0 : NoDup (map rel_id rels0) -> pp_ok [] (mkPP rels0 []).
Proof. intros Hnd. split; [done|]. split; [done|]. by intros i e. Qed.

(** ** Part names *)

Lemma str_app_inj_r s1 s2 t : s1 +:+ t = s2 +:+ t -> s1 = s2.
Proof.
  revert s2. induction s1 as [|a s1 IH]; intros [|b s2]; rewrite ?str_app_nil, ?str_app_cons;
    intros H; [done| | |].
  - apply (f_equal String.length) in H. cbn [String.length] in H. rewrite str_length_app in H. lia.
  - apply (f_equal String.length) in H. cbn [String.length] in H. rewrite str_length_app in H. lia.
  - injection H as -> H. f_equal. exact (IH _ H).
Qed.

Lemma slide_ref_inj n m : slide_ref n = slide_ref m -> n = m.
Proof.
  unfold slide_ref. intros H%(inj (String.append "slides/slide"))%str_app_inj_r%(inj pretty). lia.
Qed.

Lemma slide_partname_inj n m : slide_partname n = slide_partname m -> n = m.
Proof. unfold slide_partname. intros H%(inj (String.append ppt_dir)). exact (slide_ref_inj _ _ H). Qed.

Lemma nodup_map_eq {A B} (f : A -> B) l x y :
  NoDup (map f l) -> x ∈ l -> y ∈ l -> f x = f y -> x = y.
Proof.
  intros Hnd (i & Hi)%list_elem_of_lookup (j & Hj)%list_elem_of_lookup Hf.
  assert (i = j) as ->.
  { eapply NoDup_alt; [exact Hnd| |]; rewrite list_lookup_fmap; [rewrite Hi|rewrite Hj]; cbn;
      [rewrite Hf|]; reflexivity. }
  congruence.
Qed.

(** The slides' [r:id]s are distinct: each names the relationship to
    its own slide part. *)
Lemma pp_ok_rids_nodup sls st : pp_ok sls st -> NoDup (map snd (pp_sldIdLst st)).
Proof.
  intros (Hnd & _ & Hlk). apply NoDup_alt. intros i j r
    (ei & -> & Hi)%list_lookup_fmap_Some (ej & Hej & Hj)%list_lookup_fmap_Some.
  destruct (Hlk i ei Hi) as (xi & Hxi & Hidi & Htgi).
  destruct (Hlk j ej Hj) as (xj & Hxj & Hidj & Htgj).
  assert (xi = xj) as <- by (apply (nodup_map_eq rel_id (pp_rels st)); congruence).
  assert (S i = S j) by (apply slide_ref_inj; congruence). lia.
Qed.

(** The names of the parts [save_package] writes are distinct. *)
Lemma package_names_nodup n :
  NoDup (pres_partname :: pres_rels_partname :: map slide_partname (seq 1 n)).
Proof.
  apply NoDup_cons. split; [|apply NoDup_cons; split].
  - rewrite elem_of_cons. intros [H|(k & H & _)%list_elem_of_fmap]; [done|].
    apply (f_equal (String.get 5)) in H. vm_compute in H. discriminate.
  - intros (k & H & _)%list_elem_of_fmap. apply (f_equal (String.get 5)) in H. vm_compute in H.
    discriminate.
  - apply NoDup_fmap_2; [intros ?? ?%slide_partname_inj; done|apply NoDup_seq].
Qed.

(** ** Reading the parts back *)

Lemma assoc_nodup (l : list (string * string)) k v :
  NoDup (map fst l) -> (k, v) ∈ l -> Oxml.assoc k l = Some v.
Proof.
  induction l as [|[k' v'] l IH]; cbn; [by intros _ ?%elem_of_nil|].
  intros (Hk' & Hnd)%NoDup_cons [[= -> ->]|Hin]%elem_of_cons.
  - by rewrite bool_decide_true.
  - rewrite bool_decide_false; [exact (IH Hnd Hin)|]. intros ->. apply Hk'.
    apply list_elem_of_fmap. by exists (k', v).
Qed.

Lemma mapM_map_eq {A B C} (f : B -> option C) (g : A -> B) (h : A -> C) l :
  (forall a, a ∈ l -> f (g a) = Some (h a)) -> mapM f (map g l) = Some (map h l).
Proof.
  induction l as [|a l IH]; intros Hl; [done|]. cbn.
  rewrite Hl by by left. rewrite IH; [done|]. intros b Hb. apply Hl. by right.
Qed.

Lemma parse_one_render n : elem_wf n -> parse_one (render n) = Some n.
Proof. intros Hn. unfold parse_one. by rewrite parse_xml_render_elem. Qed.

Lemma presentation_xml_wf p ids : elem_wf (presentation_xml p ids).
Proof.
  apply elem_wf_elem; [done|done|]. constructor; [|constructor; [by apply elem_wf_elem|done]].
  apply elem_wf_elem; [done|done|]. apply Forall_forall. intros k (e & -> & _)%list_elem_of_fmap. by apply elem_wf_elem.
Qed.

Lemma rels_xml_wf rels : elem_wf (rels_xml rels).
Proof.
  apply elem_wf_elem; [done|done|].
  apply Forall_forall. intros k (x & -> & _)%list_elem_of_fmap. by apply elem_wf_elem.
Qed.

Lemma sld_ids_read p ids : sld_ids_of_xml (presentation_xml p ids) = Some ids.
Proof.
  cbn. rewrite <- (map_id ids) at 2. apply mapM_map_eq. intros [id r] _. simpl.
  by rewrite Oxml.int_of_xml_int.
Qed.

Lemma rels_read rels :
  rels_of_xml (rels_xml rels) = Some (map (fun x => (rel_id x, rel_target x)) rels).
Proof. cbn. apply mapM_map_eq. intros x _. by simpl. Qed.

Lemma save_package_some rels0 p st ss :
  add_slide_parts (mkPP rels0 []) (prs_slides p) = Some st -> Saved.save_slides p = Some ss ->
  save_package rels0 p =
    Some ((pres_partname, render (presentation_xml p (pp_sldIdLst st))) ::
          (pres_rels_partname, render (rels_xml (pp_rels st))) ::
          zip (map slide_partname (seq 1 (length ss))) ss).
Proof. intros Hst Hss. unfold save_package. rewrite Hst. cbn [mbind option_bind]. by rewrite Hss. Qed.

Lemma zip_elem_of {A B} (l : list A) (k : list B) i a b :
  l !! i = Some a -> k !! i = Some b -> (a, b) ∈ zip l k.
Proof. intros Ha Hb. apply list_elem_of_lookup_2 with i. apply lookup_zip_with_Some. eauto. Qed.

(** The package of a presentation whose slides are typed text boxes,
    on any template whose relationship ids are distinct: [prs.save]
    writes it, its part names are distinct, and opening it through the
    slide-id list and the relationships gives every slide's shapes, in
    deck order. *)
Lemma package_read_back rels0 p :
  NoDup (map rel_id rels0) -> Typed.prs_typed p -> Saved.only_textboxes p = true ->
  exists parts, save_package rels0 p = Some parts /\ NoDup (map fst parts) /\
    read_package parts = Some (map sl_shapes (prs_slides p)).
Proof.
  intros Hnd0 Ht Hb.
  destruct (add_slide_parts_ok (prs_slides p) [] _ (pp_ok_template _ Hnd0)) as (st & Hst & Hnd & Hids & Hlk).
  destruct (Saved.slides_read_back _ (Saved.saved_ok_slides _ Ht Hb)) as (ss & Hss & Hread).
  pose proof (f_equal length Hread) as Hlen. rewrite !length_map in Hlen.
  pose proof (f_equal length Hids) as Hlen'. rewrite !length_map in Hlen'.
  eexists. split; [exact (save_package_some _ _ _ _ Hst Hss)|].
  assert (Hnames : NoDup (map fst ((pres_partname, render (presentation_xml p (pp_sldIdLst st))) ::
            (pres_rels_partname, render (rels_xml (pp_rels st))) ::
            zip (map slide_partname (seq 1 (length ss))) ss))).
  { cbn [map fst]. change (map fst (zip ?l ?k)) with (fst <$> zip l k).
    rewrite fst_zip by (rewrite length_map, length_seq; lia). apply package_names_nodup. }
  split; [exact Hnames|]. unfold read_package.
  rewrite (assoc_nodup _ pres_partname _ Hnames) by by left. cbn [mbind option_bind].
  rewrite parse_one_render by apply presentation_xml_wf. cbn [mbind option_bind].
  rewrite sld_ids_read. cbn [mbind option_bind].
  rewrite (assoc_nodup _ pres_rels_partname _ Hnames) by (right; by left). cbn [mbind option_bind].
  rewrite parse_one_render by apply rels_xml_wf. cbn [mbind option_bind].
  rewrite rels_read. cbn [mbind option_bind].
  apply mapM_Some_2, Forall2_same_length_lookup. split; [by rewrite length_map|].
  intros i e shs Hi Hshs. destruct (Hlk i e Hi) as (x & Hx & Hid & Htg).
  apply list_lookup_fmap_Some in Hshs as (sl & -> & Hsl).
  destruct (lookup_lt_is_Some_2 ss i) as [s Hs].
  { apply lookup_lt_Some in Hsl. lia. }
  rewrite (assoc_nodup _ e.2 (slide_ref (S i))); cycle 1.
  { rewrite map_map. exact Hnd. }
  { apply list_elem_of_fmap. exists x. by rewrite Hid, Htg. }
  cbn [mbind option_bind]. rewrite (assoc_nodup _ _ s Hnames); cycle 1.
  { right; right. apply (zip_elem_of _ _ i); [|exact Hs].
    rewrite list_lookup_fmap, lookup_seq_lt by (apply lookup_lt_Some in Hs; lia). reflexivity. }
  cbn [mbind option_bind].
  pose proof (f_equal (fun l => l !! i) Hread) as Hi'. cbn beta in Hi'.
  rewrite !list_lookup_fmap, Hs, Hsl in Hi'. by injection Hi'.
Qed.

(** ** What the saved package holds *)

(** C22: Every presentation a program builds through the modelled
    python-pptx API from [Presentation()], made of text boxes, is saved
    as a package with distinct part names which opens, as PowerPoint
    opens it (slide-id list, then relationships, then slide parts), to
    its slides' shapes in deck order, on any template whose
    relationship ids are distinct: [_next_rId] never runs out of ids,
    and each [r:id] leads to its own slide's part. *)
Theorem reachable_package_read_back rels0 p :
  NoDup (map rel_id rels0) -> Inv.reachable p -> Saved.only_textboxes p = true ->
  exists parts, save_package rels0 p = Some parts /\ NoDup (map fst parts) /\
    read_package parts = Some (map sl_shapes (prs_slides p)).
Proof. intros Hnd Hp Hb. exact (package_read_back _ _ Hnd (Typed.reachable_typed _ Hp) Hb). Qed.

(** C23: The file the script saves refines the description of the
    deck: opened through its presentation part and relationships, on
    any template whose relationship ids are distinct, it shows the
    fifteen slides of [Generate.deck_spec] in order, each title,
    subtitle, contact line and item where the description puts it. *)
Theorem saved_package_refines rels0 :
  NoDup (map rel_id rels0) ->
  exists p parts, Generate.final_presentation = Ok p /\ save_package rels0 p = Some parts /\
    (map (map Generate.box_view) <$> read_package parts) =
      Some (map Generate.spec_view Generate.deck_spec).
Proof.
  intros Hnd. pose proof Generate.final_presentation_eq as Hrun.
  destruct (package_read_back rels0 _ Hnd (Saved.final_typed _ Hrun) ltac:(vm_compute; reflexivity))
    as (parts & Hsave & _ & Hread).
  exists (mkPres 9144000 6858000 default_layouts Generate.expected_deck), parts.
  split; [exact Hrun|]. split; [exact Hsave|]. rewrite Hread. vm_compute. reflexivity.
Qed.

Lemma reachable_package_read_back_witness :
  exists p, Inv.reachable p /\ Saved.only_textboxes p = true /\ length (prs_slides p) = 1%nat /\
    exists parts, save_package template_rels p = Some parts /\ NoDup (map fst parts) /\
      read_package parts = Some (map sl_shapes (prs_slides p)).
Proof.
  eexists. split; [exact Saved.textbox_reachable|]. split; [reflexivity|]. split; [reflexivity|].
  apply reachable_package_read_back; [by apply (bool_decide_unpack _); vm_compute
                                     |exact Saved.textbox_reachable|reflexivity].
Defined.

Lemma saved_package_refines_witness :
  NoDup (map rel_id template_rels) /\
  exists p parts, Generate.final_presentation = Ok p /\ save_package template_rels p = Some parts /\
    (map (map Generate.box_view) <$> read_package parts) =
      Some (map Generate.spec_view Generate.deck_spec).
Proof.
  assert (Hnd : NoDup (map rel_id template_rels)) by (apply (bool_decide_unpack _); vm_compute; exact I).
  split; [exact Hnd|]. exact (saved_package_refines _ Hnd).
Defined.

(** C24: The presentation part of every saved package meets the
    constraints PowerPoint puts on a slide-id list: for any
    presentation built through the API from text boxes, on any
    template with distinct relationship ids, the [p:sldIdLst] read back
    from the saved part lists the slides' ids in deck order, distinct
    and within [256, 2147483647], each with its own [r:id]. *)
Theorem reachable_package_slide_ids rels0 p :
  NoDup (map rel_id rels0) -> Inv.reachable p -> Saved.only_textboxes p = true ->
  exists parts ids, save_package rels0 p = Some parts /\
    ((Oxml.assoc pres_partname parts ≫= parse_one) ≫= sld_ids_of_xml) = Some ids /\
    map fst ids = map sl_id (prs_slides p) /\ NoDup (map fst ids) /\ NoDup (map snd ids) /\
    Forall (fun e => MIN_SLIDE_ID <= e.1 <= MAX_SLIDE_ID)%Z ids.
Proof.
  intros Hnd0 Hp Hb.
  destruct (add_slide_parts_ok (prs_slides p) [] _ (pp_ok_template _ Hnd0)) as (st & Hst & Hok).
  destruct (Saved.slides_read_back _ (Saved.saved_ok_slides _ (Typed.reachable_typed _ Hp) Hb))
    as (ss & Hss & _).
  destruct (Wf.reachable_wf _ Hp) as (_ & _ & Hnd_ids & Hrange & _).
  pose proof Hok as (_ & Hids & _). cbn [app] in Hids.
  eexists _, (pp_sldIdLst st). split; [exact (save_package_some _ _ _ _ Hst Hss)|].
  split; [cbn [Oxml.assoc]; rewrite bool_decide_true by done; cbn [mbind option_bind];
          rewrite parse_one_render by apply presentation_xml_wf; apply sld_ids_read|].
  split; [exact Hids|]. split; [rewrite Hids; exact Hnd_ids|].
  split; [exact (pp_ok_rids_nodup _ _ Hok)|].
  rewrite <- Hids in Hrange. by apply Forall_map in Hrange.
Qed.

Lemma reachable_package_slide_ids_witness :
  exists p, Inv.reachable p /\ Saved.only_textboxes p = true /\ map sl_id (prs_slides p) = [256%Z] /\
    exists parts ids, save_package template_rels p = Some parts /\
      ((Oxml.assoc pres_partname parts ≫= parse_one) ≫= sld_ids_of_xml) = Some ids /\
      map fst ids = map sl_id (prs_slides p) /\ NoDup (map fst ids) /\ NoDup (map snd ids) /\
      Forall (fun e => MIN_SLIDE_ID <= e.1 <= MAX_SLIDE_ID)%Z ids.
Proof.
  eexists. split; [exact Saved.textbox_reachable|]. split; [reflexivity|]. split; [reflexivity|].
  apply reachable_package_slide_ids; [by apply (bool_decide_unpack _); vm_compute
                                     |exact Saved.textbox_reachable|reflexivity].
Defined.

End Package.
