(* ===== verification/Script.v ===== *)
(** * The script's top level: saving the deck and the closing message

    Lines 253-255 of [src/generate_ppt.py] save the presentation the
    slide builders made ([prs.save('EcoSystem_Presentation.pptx')]) and
    print a line announcing it.  Both act on the world: the model records
    them as events, in the order the script performs them, in a writer
    monad with Python exceptions ([Out]).  The environment says what
    the world allows: the encoding of [sys.stdout] and whether the output
    path can be opened for writing.

    [run_script env p0] runs the whole script from the presentation
    [Presentation()] opened ([p0]; [main] takes python-pptx's default
    template): the slide builders ([Generate.generate_ppt]), [prs.save]
    and [print].  [print] hands the message to the text stream, which
    encodes it with [Codec.encode]; Python strings are their UTF-8 bytes
    in this development, so the stream first reads the code points of
    the string ([Codec.utf8_decode]).

    The theorems give the script's observable behaviour on every path:
    with a UTF-8 stdout it saves the deck and writes the message's bytes
    and a newline; with any other modelled encoding the file is saved
    and [print] raises [UnicodeEncodeError] (the finding at line 255);
    when the slides cannot be built or the file cannot be written,
    nothing is saved and nothing printed.

    Each write of the text stream is one event: buffering is not
    modelled, nor is the translation of "\n" to "\r\n" that a text
    stream does on Windows (the newline is written as the byte 10). *)

From S2P Require Import Prelude Presentation Generate Codec.

Module Script.
Import Presentation Codec.

(** ** Effects *)

(** What the script does to the world: write a package to a path, or
    bytes to [sys.stdout]. *)
Inductive Event :=
  | EvSave (path : string) (p : Presentation)
  | EvWrite (bytes : list Z).

(** The encoding of [sys.stdout], and whether the output path can be
    opened for writing. *)
Record Env := mkEnv { env_encoding : Codec; env_writable : bool }.

(** A run: its outcome and the events it performed, in order. *)
Definition Out (A : Type) : Type := Result A * list Event.

#[export] Instance out_ret : MRet Out := fun A a => (Ok a, []).
#[export] Instance out_bind : MBind Out := fun A B f m =>
  match m with
  | (Ok a, tr) => let '(r, tr') := f a in (r, tr ++ tr')
  | (Err e, tr) => (Err e, tr)
  end.

Definition emit (ev : Event) : Out unit := (Ok tt, [ev]).

Definition fail {A} (e : PyExc) : Out A := (Err e, []).

Definition lift_out {A} (r : Result A) : Out A :=
  match r with Ok a => (Ok a, []) | Err e => (Err e, []) end.

(** The UTF-8 bytes of a string. *)
Definition str_bytes (s : string) : list Z :=
  map (fun a => Z.of_N (N_of_ascii a)) (list_ascii_of_string s).

Definition newline : string := String "010" EmptyString.

(** ** Standard output *)

(** [sys.stdout.write(s)]: the text stream encodes the code points of
    [s] with its encoding and the ['strict'] error handler, the default
    unless [PYTHONIOENCODING] names another; when that raises, nothing
    of [s] is written.  (A string in this development holds valid UTF-8, so its
    code points are always read.) *)
Definition stdout_write (env : Env) (s : string) : Out unit :=
  match utf8_decode (str_bytes s) with
  | Some cps => bs ← lift_out (encode (env_encoding env) cps); emit (EvWrite bs)
  | None => fail UnicodeEncodeError
  end.

(** [print(s)]: [file.write(s)], then [file.write("\n")]. *)
Definition print (env : Env) (s : string) : Out unit :=
  stdout_write env s;; stdout_write env newline.

(** ** Lines 253-255 *)

Definition output_path : string := "EcoSystem_Presentation.pptx".

Definition message : string :=
  "✅ PowerPoint presentation created: EcoSystem_Presentation.pptx".

(** [prs.save(path)]: the package is written to [path]; opening a path
    that cannot be written raises [PermissionError] before anything is
    written. *)
Definition prs_save (env : Env) (p : Presentation) (path : string) : Out unit :=
  if env_writable env then emit (EvSave path p) else fail PermissionError.

(** The script run from the presentation [Presentation()] opened: the
    slides of lines 7-251, then lines 254 and 255. *)
Definition run_script (env : Env) (p0 : Presentation) : Out unit :=
  prs ← lift_out (exec Generate.generate_ppt p0);
  prs_save env prs output_path;;
  print env message.

(** The script, with python-pptx's default template. *)
Definition main (env : Env) : Out unit := run_script env Presentation_new.

(** ** Running [Out] *)

Lemma lift_out_ok {A B} (r : Result A) a (f : A -> Out B) : r = Ok a -> (lift_out r ≫= f) = f a.
Proof. intros ->. cbn. by destruct (f a). Qed.

Lemma lift_out_err {A B} (r : Result A) e (f : A -> Out B) : r = Err e -> (lift_out r ≫= f) = (Err e, []).
Proof. by intros ->. Qed.

Lemma emit_then {B} ev (f : unit -> Out B) : (emit ev ≫= f) = (fst (f tt), ev :: snd (f tt)).
Proof. cbn. by destruct (f tt). Qed.

Lemma fail_then {A B} e (f : A -> Out B) : (fail e ≫= f) = (Err e, []).
Proof. reflexivity. Qed.

(** ** Standard output *)

(** On a UTF-8 stream a string is written as its own bytes. *)
Lemma stdout_write_utf8 env s cps : env_encoding env = UTF_8 -> utf8_decode (str_bytes s) = Some cps ->
  stdout_write env s = emit (EvWrite (str_bytes s)).
Proof.
  intros He Hd. unfold stdout_write. rewrite Hd, He.
  apply (lift_out_ok _ _ (fun bs => emit (EvWrite bs))), encode_utf8_decode, Hd.
Qed.

Lemma stdout_write_err env s cps e : utf8_decode (str_bytes s) = Some cps ->
  encode (env_encoding env) cps = Err e -> stdout_write env s = (Err e, []).
Proof. intros Hd He. unfold stdout_write. rewrite Hd. by apply lift_out_err. Qed.

Lemma print_utf8 env s cps : env_encoding env = UTF_8 -> utf8_decode (str_bytes s) = Some cps ->
  print env s = (Ok tt, [EvWrite (str_bytes s); EvWrite (str_bytes newline)]).
Proof.
  intros He Hd. unfold print. rewrite (stdout_write_utf8 _ _ _ He Hd), emit_then.
  rewrite (stdout_write_utf8 env newline [10%Z]) by (done || reflexivity). reflexivity.
Qed.

(** The message holds U+2705, which only UTF-8 of the modelled
    encodings represents. *)
Lemma message_code_points : exists cps, utf8_decode (str_bytes message) = Some cps /\
  0x2705%Z ∈ cps /\ forall c, c <> UTF_8 -> encode c cps = Err UnicodeEncodeError.
Proof.
  eexists. split; [vm_compute; reflexivity|]. split; [by left|].
  intros [] Hc; [congruence|vm_compute; reflexivity..].
Qed.

Lemma print_message_err env : env_encoding env <> UTF_8 ->
  print env message = (Err UnicodeEncodeError, []).
Proof.
  intros He. destruct message_code_points as (cps & Hd & _ & Hc).
  unfold print. rewrite (stdout_write_err _ _ _ _ Hd (Hc _ He)). reflexivity.
Qed.

Lemma print_message_utf8 env : env_encoding env = UTF_8 ->
  print env message = (Ok tt, [EvWrite (str_bytes message); EvWrite (str_bytes newline)]).
Proof. intros He. destruct message_code_points as (cps & Hd & _). exact (print_utf8 _ _ _ He Hd). Qed.

(** ** The script's runs *)

(** The deck the slide builders make from the default template. *)
Lemma deck_built :
  exec Generate.generate_ppt Presentation_new =
    Ok (mkPres 9144000 6858000 default_layouts Generate.expected_deck).
Proof. vm_compute. reflexivity. Qed.

Lemma run_script_saved env p0 p : exec Generate.generate_ppt p0 = Ok p -> env_writable env = true ->
  run_script env p0 = (fst (print env message), EvSave output_path p :: snd (print env message)).
Proof.
  intros Hg Hw. unfold run_script. rewrite (lift_out_ok _ _ _ Hg). unfold prs_save. rewrite Hw.
  apply emit_then.
Qed.

Lemma run_script_unsaved env p0 p : exec Generate.generate_ppt p0 = Ok p -> env_writable env = false ->
  run_script env p0 = (Err PermissionError, []).
Proof. intros Hg Hw. unfold run_script. rewrite (lift_out_ok _ _ _ Hg). unfold prs_save. by rewrite Hw. Qed.

(** ** The script's observable behaviour *)

(** C18: With a UTF-8 [sys.stdout] and a writable output path, the
    script saves the deck the slide builders made to
    [EcoSystem_Presentation.pptx], then writes the UTF-8 bytes of its
    message (U+2705 as [E2 9C 85], then ASCII) and a newline, in that
    order, and ends normally. *)
Theorem main_utf8 env : env_encoding env = UTF_8 -> env_writable env = true ->
  main env = (Ok tt, [EvSave output_path (mkPres 9144000 6858000 default_layouts Generate.expected_deck);
                      EvWrite (str_bytes message); EvWrite (str_bytes newline)]).
Proof.
  intros He Hw. unfold main.
  rewrite (run_script_saved _ _ _ deck_built Hw), (print_message_utf8 _ He).
  reflexivity.
Qed.

(** C19: The finding at line 255: when [sys.stdout] encodes with ASCII,
    Latin-1 or cp1252 (Windows writing to a pipe or a file), the script
    saves the deck and then [print] raises [UnicodeEncodeError] on the
    check mark U+2705, having written nothing to stdout: the script ends
    with a traceback although the file was written. *)
Theorem main_non_utf8 env : env_encoding env <> UTF_8 -> env_writable env = true ->
  main env = (Err UnicodeEncodeError,
              [EvSave output_path (mkPres 9144000 6858000 default_layouts Generate.expected_deck)]).
Proof.
  intros He Hw. unfold main.
  rewrite (run_script_saved _ _ _ deck_built Hw), (print_message_err _ He).
  reflexivity.
Qed.

(** C20: On every template and in every environment the script's
    effects come in one order: a run that ends normally saved the deck
    it built and then wrote the message and a newline; a run that raises
    either did nothing at all, or saved the deck and raised
    [UnicodeEncodeError] in [print].  Nothing is ever printed before the
    file is saved, and the message is printed whole or not at all. *)
Theorem run_script_trace env p0 :
  match run_script env p0 with
  | (Ok _, tr) => exists p, exec Generate.generate_ppt p0 = Ok p /\
      tr = [EvSave output_path p; EvWrite (str_bytes message); EvWrite (str_bytes newline)]
  | (Err e, tr) => tr = [] \/
      (e = UnicodeEncodeError /\ exists p, exec Generate.generate_ppt p0 = Ok p /\ tr = [EvSave output_path p])
  end.
Proof.
  destruct (exec Generate.generate_ppt p0) as [p|e] eqn:Hg.
  - destruct (env_writable env) eqn:Hw; [|rewrite (run_script_unsaved _ _ _ Hg Hw); by left].
    rewrite (run_script_saved _ _ _ Hg Hw).
    destruct (decide (env_encoding env = UTF_8)) as [He|He].
    + rewrite (print_message_utf8 _ He). cbn [fst snd]. eauto.
    + rewrite (print_message_err _ He). cbn [fst snd]. right. eauto.
  - unfold run_script. rewrite (lift_out_err _ _ _ Hg). by left.
Qed.

(** C21: A run that fails before [prs.save] leaves no trace: when the
    slide builders raise, the script raises the same exception, and when
    the deck is built but the output path cannot be written, [prs.save]
    raises [PermissionError]; in both cases no file is written and
    nothing is printed. *)
Theorem run_script_fails_before_save env p0 :
  (forall e, exec Generate.generate_ppt p0 = Err e -> run_script env p0 = (Err e, [])) /\
  (forall p, exec Generate.generate_ppt p0 = Ok p -> env_writable env = false ->
     run_script env p0 = (Err PermissionError, [])).
Proof.
  split.
  - intros e Hg. unfold run_script. by rewrite (lift_out_err _ _ _ Hg).
  - intros p Hg Hw. exact (run_script_unsaved _ _ _ Hg Hw).
Qed.

Lemma main_utf8_witness :
  main (mkEnv UTF_8 true) =
    (Ok tt, [EvSave output_path (mkPres 9144000 6858000 default_layouts Generate.expected_deck);
             EvWrite (str_bytes message); EvWrite (str_bytes newline)]).
Proof. exact (main_utf8 (mkEnv UTF_8 true) eq_refl eq_refl). Defined.

Lemma main_non_utf8_witness :
  main (mkEnv CP1252 true) =
    (Err UnicodeEncodeError,
     [EvSave output_path (mkPres 9144000 6858000 default_layouts Generate.expected_deck)]).
Proof. exact (main_non_utf8 (mkEnv CP1252 true) ltac:(discriminate) eq_refl). Defined.

Lemma run_script_fails_before_save_witness :
  exec Generate.generate_ppt (mkPres 9144000 6858000 (take 6 default_layouts) []) = Err IndexError /\
  run_script (mkEnv UTF_8 true) (mkPres 9144000 6858000 (take 6 default_layouts) []) = (Err IndexError, []) /\
  run_script (mkEnv UTF_8 false) Presentation_new = (Err PermissionError, []).
Proof.
  assert (Hg : exec Generate.generate_ppt (mkPres 9144000 6858000 (take 6 default_layouts) []) =
               Err IndexError) by (vm_compute; reflexivity).
  split; [exact Hg|]. split.
  - exact (proj1 (run_script_fails_before_save (mkEnv UTF_8 true) _) _ Hg).
  - exact (proj2 (run_script_fails_before_save (mkEnv UTF_8 false) _) _
             deck_built eq_refl).
Defined.

End Script.
